(** * Greybus connections: lifecycle and state machine

    A shallow embedding of the connection core of the Greybus driver
    (the file holding [gb_connection_create], [gb_connection_enable],
    [gb_connection_disable], [gb_connection_disable_rx],
    [gb_connection_destroy] and [greybus_data_rcvd]).

    C objects live in a store indexed by address; every function of the
    source is a computation over that store which also appends to a log the
    calls it makes into the layers it does not own (locks, transport driver,
    SVC, control channel, operation layer, allocator, diagnostics). *)

From stdpp Require Import gmap strings list pretty.

Open Scope Z_scope.

(** ** Data model *)

(** Addresses of heap objects; [option addr] is a pointer that may be NULL. *)
Abbreviation addr := positive.

Definition ESHUTDOWN : Z := 108.
Definition ENOSPC : Z := 28.
Definition ENOMEM : Z := 12.

(** Conversion of an [int] to [u16], as done when an [int] is stored into a
    [u16] field or passed for a [u16] parameter. *)
Definition u16 (z : Z) : Z := z mod 65536.

(** Modelled from the spec: the sentinel stored in the local-id field of a
    released connection; its definition is in a header that is not part of
    the sources. The spec calls it a distinguished bad id; the largest u16
    value is used. *)
Definition CPORT_ID_BAD : Z := 65535.

Inductive gb_connection_state : Type :=
| GB_CONNECTION_STATE_DISABLED
| GB_CONNECTION_STATE_ENABLED_TX
| GB_CONNECTION_STATE_ENABLED.

#[global] Instance gb_connection_state_eq_dec : EqDecision gb_connection_state.
Proof. solve_decision. Defined.

(** An operation as this file sees it: its identity and the
    incoming/outgoing tag read by [gb_operation_is_incoming]. *)
Record gb_operation : Type := {
  op_addr : addr;
  op_incoming : bool
}.

#[global] Instance gb_operation_eq_dec : EqDecision gb_operation.
Proof. solve_decision. Defined.

Record gb_connection : Type := {
  conn_hd : addr;
  conn_intf : option addr;
  conn_bundle : option addr;
  kref : Z;
  hd_cport_id : Z;
  intf_cport_id : Z;
  state : gb_connection_state;
  handler : option addr;
  operations : list gb_operation;
  wq : option addr;
  op_cycle : Z;
  name : string
}.

Definition set_kref (v : Z) (c : gb_connection) : gb_connection :=
  {| conn_hd := conn_hd c; conn_intf := conn_intf c;
     conn_bundle := conn_bundle c; kref := v;
     hd_cport_id := hd_cport_id c; intf_cport_id := intf_cport_id c;
     state := state c; handler := handler c; operations := operations c;
     wq := wq c; op_cycle := op_cycle c; name := name c |}.

Definition set_hd_cport_id (v : Z) (c : gb_connection) : gb_connection :=
  {| conn_hd := conn_hd c; conn_intf := conn_intf c;
     conn_bundle := conn_bundle c; kref := kref c;
     hd_cport_id := v; intf_cport_id := intf_cport_id c;
     state := state c; handler := handler c; operations := operations c;
     wq := wq c; op_cycle := op_cycle c; name := name c |}.

Definition set_state (v : gb_connection_state) (c : gb_connection)
  : gb_connection :=
  {| conn_hd := conn_hd c; conn_intf := conn_intf c;
     conn_bundle := conn_bundle c; kref := kref c;
     hd_cport_id := hd_cport_id c; intf_cport_id := intf_cport_id c;
     state := v; handler := handler c; operations := operations c;
     wq := wq c; op_cycle := op_cycle c; name := name c |}.

Definition set_handler (v : option addr) (c : gb_connection) : gb_connection :=
  {| conn_hd := conn_hd c; conn_intf := conn_intf c;
     conn_bundle := conn_bundle c; kref := kref c;
     hd_cport_id := hd_cport_id c; intf_cport_id := intf_cport_id c;
     state := state c; handler := v; operations := operations c;
     wq := wq c; op_cycle := op_cycle c; name := name c |}.

Definition set_operations (v : list gb_operation) (c : gb_connection)
  : gb_connection :=
  {| conn_hd := conn_hd c; conn_intf := conn_intf c;
     conn_bundle := conn_bundle c; kref := kref c;
     hd_cport_id := hd_cport_id c; intf_cport_id := intf_cport_id c;
     state := state c; handler := handler c; operations := v;
     wq := wq c; op_cycle := op_cycle c; name := name c |}.

Definition set_wq (v : option addr) (c : gb_connection) : gb_connection :=
  {| conn_hd := conn_hd c; conn_intf := conn_intf c;
     conn_bundle := conn_bundle c; kref := kref c;
     hd_cport_id := hd_cport_id c; intf_cport_id := intf_cport_id c;
     state := state c; handler := handler c; operations := operations c;
     wq := v; op_cycle := op_cycle c; name := name c |}.

Definition set_name (v : string) (c : gb_connection) : gb_connection :=
  {| conn_hd := conn_hd c; conn_intf := conn_intf c;
     conn_bundle := conn_bundle c; kref := kref c;
     hd_cport_id := hd_cport_id c; intf_cport_id := intf_cport_id c;
     state := state c; handler := handler c; operations := operations c;
     wq := wq c; op_cycle := op_cycle c; name := v |}.

(** The transport driver's operation table. An entry may be a NULL function
    pointer; [cport_enable] yields the driver's return code for a cport id,
    the return value of [cport_disable] is never read. *)
Record gb_hd_driver : Type := {
  cport_enable : option (Z -> Z);
  cport_disable : bool;
  latency_tag_enable : option (Z -> Z);
  latency_tag_disable : option (Z -> Z)
}.

Record gb_svc : Type := { ap_intf_id : Z }.

Record gb_host_device : Type := {
  hd_connections : list addr;
  cport_id_map : gset Z;
  num_cports : Z;
  driver : gb_hd_driver;
  svc : gb_svc
}.

Record gb_control : Type := { control_connection : option addr }.

Record gb_interface : Type := {
  intf_hd : addr;
  interface_id : Z;
  control : option gb_control;
  boot_over_unipro : bool
}.

Record gb_bundle : Type := {
  bundle_intf : addr;
  bundle_connections : list addr
}.

(** ** The log of calls into other layers *)

Inductive lock : Type :=
| gb_connections_lock
| gb_connection_mutex
| connection_mutex (c : addr)
| connection_lock (c : addr).

Inductive device : Type :=
| hd_dev (h : addr)
| intf_dev (i : addr)
| bundle_dev (b : option addr).

Inductive diagnostic : Type :=
| nonexistent_connection (length : Z)
| cport_not_available (id : Z)
| cport_already_in_use (id : Z)
| failed_to_enable_host_cport (ret : Z)
| failed_to_create_svc_connection (nm : string) (ret : Z)
| failed_to_connect_cport (ret : Z)
| failed_to_disconnect_cport (ret : Z)
| failed_to_enable_latency_tag (nm : string) (ret : Z)
| failed_to_disable_latency_tag (nm : string) (ret : Z).

Inductive event : Type :=
| EvAcquire (l : lock)
| EvRelease (l : lock)
| EvDevErr (d : device) (m : diagnostic)
| EvDevWarn (d : device) (m : diagnostic)
| EvCportEnable (h : addr) (id : Z)
| EvCportDisable (h : addr) (id : Z)
| EvLatencyTagEnable (h : addr) (id : Z)
| EvLatencyTagDisable (h : addr) (id : Z)
| EvSvcConnectionCreate (ap_intf ap_cport intf_id intf_cport : Z) (boot : bool)
| EvSvcConnectionDestroy (ap_intf ap_cport intf_id intf_cport : Z)
| EvControlConnected (i : addr) (cport : Z)
| EvControlDisconnected (i : addr) (cport : Z)
| EvOperationGet (op : gb_operation)
| EvOperationPut (op : gb_operation)
| EvOperationCancel (op : gb_operation) (errno : Z)
| EvOperationCancelIncoming (op : gb_operation) (errno : Z)
| EvIdaGet (h : addr) (id : Z)
| EvIdaRemove (h : addr) (id : Z)
| EvKzalloc (c : addr)
| EvKfree (c : addr)
| EvAllocWorkqueue (w : addr)
| EvDestroyWorkqueue (w : option addr).

(** ** The store and the monad of computations *)

Record world : Type := World {
  connections : gmap addr gb_connection;
  host_devices : gmap addr gb_host_device;
  interfaces : gmap addr gb_interface;
  bundles : gmap addr gb_bundle;
  log : list event
}.

(** A computation ends normally, or dereferences an address that holds no
    object ([Fault]), or a loop runs longer than the iteration budget it was
    given ([OutOfFuel]). *)
Inductive result (A : Type) : Type :=
| Done (a : A) (w : world)
| Fault
| OutOfFuel.

Arguments Done {A} a w.
Arguments Fault {A}.
Arguments OutOfFuel {A}.

Definition M (A : Type) : Type := world -> result A.

#[global] Instance M_ret : MRet M := fun A a w => Done a w.

#[global] Instance M_bind : MBind M := fun A B f m w =>
  match m w with
  | Done a w' => f a w'
  | Fault => Fault
  | OutOfFuel => OutOfFuel
  end.

Definition fault {A : Type} : M A := fun _ => Fault.
Definition out_of_fuel {A : Type} : M A := fun _ => OutOfFuel.

Definition with_log (l : list event) (w : world) : world :=
  World (connections w) (host_devices w) (interfaces w) (bundles w) l.

Definition with_connections (m : gmap addr gb_connection) (w : world) : world :=
  World m (host_devices w) (interfaces w) (bundles w) (log w).

Definition with_host_devices (m : gmap addr gb_host_device) (w : world)
  : world :=
  World (connections w) m (interfaces w) (bundles w) (log w).

Definition with_bundles (m : gmap addr gb_bundle) (w : world) : world :=
  World (connections w) (host_devices w) (interfaces w) m (log w).

Definition emit (e : event) : M unit :=
  fun w => Done tt (with_log (log w ++ [e]) w).

Definition load_connection (p : addr) : M gb_connection :=
  fun w => match connections w !! p with
           | Some c => Done c w
           | None => Fault
           end.

Definition store_connection (p : addr) (c : gb_connection) : M unit :=
  fun w => Done tt (with_connections (<[p := c]> (connections w)) w).

(** [p->field = v] for a connection [p]. *)
Definition update_connection (p : addr) (f : gb_connection -> gb_connection)
  : M unit :=
  c ← load_connection p; store_connection p (f c).

Definition load_hd (p : addr) : M gb_host_device :=
  fun w => match host_devices w !! p with
           | Some h => Done h w
           | None => Fault
           end.

Definition store_hd (p : addr) (h : gb_host_device) : M unit :=
  fun w => Done tt (with_host_devices (<[p := h]> (host_devices w)) w).

Definition load_intf (p : addr) : M gb_interface :=
  fun w => match interfaces w !! p with
           | Some i => Done i w
           | None => Fault
           end.

Definition load_bundle (p : addr) : M gb_bundle :=
  fun w => match bundles w !! p with
           | Some b => Done b w
           | None => Fault
           end.

Definition store_bundle (p : addr) (b : gb_bundle) : M unit :=
  fun w => Done tt (with_bundles (<[p := b]> (bundles w)) w).

Definition mutex_lock (l : lock) : M unit := emit (EvAcquire l).
Definition mutex_unlock (l : lock) : M unit := emit (EvRelease l).
Definition spin_lock_irq (l : lock) : M unit := emit (EvAcquire l).
Definition spin_unlock_irq (l : lock) : M unit := emit (EvRelease l).
Definition spin_lock_irqsave (l : lock) : M unit := emit (EvAcquire l).
Definition spin_unlock_irqrestore (l : lock) : M unit := emit (EvRelease l).
Definition dev_err (d : device) (m : diagnostic) : M unit :=
  emit (EvDevErr d m).
Definition dev_warn (d : device) (m : diagnostic) : M unit :=
  emit (EvDevWarn d m).

(** ** The connection core *)

Section Connection.

(** The layers this file calls into. Each is given by the value it returns;
    the call itself is recorded in the log by the function that makes it. *)

(** SVC: ap interface id, ap cport id, interface id, interface cport id,
    boot flag. *)
Variable gb_svc_connection_create : gb_svc -> Z -> Z -> Z -> Z -> bool -> Z.

(** Control channel of an interface: the interface, its control object and
    the cport id. *)
Variable gb_control_connected_operation : addr -> gb_control -> Z -> Z.
Variable gb_control_disconnected_operation : addr -> gb_control -> Z -> Z.

(** Operation layer: its receive entry point is an arbitrary computation. *)
Variable gb_connection_recv : addr -> list Z -> Z -> M unit.

(** Memory: whether the allocator of ids gets the memory it needs, whether
    [kzalloc] succeeds, and the workqueue (if any) that [alloc_workqueue]
    returns for a host device and a cport id. *)
Variable ida_pre_get : bool.
Variable kzalloc_ok : bool.
Variable alloc_workqueue : addr -> Z -> option addr.

(** The value of an [int] kept in an [atomic_t]. *)
Definition int32 (z : Z) : Z := (z + 2147483648) mod 4294967296 - 2147483648.

(** [list_for_each_entry] over [hd->connections], looking for the connection
    of an interface with a given remote cport id. *)
Fixpoint intf_find_entry (intf : addr) (cport_id : Z) (l : list addr)
  : M (option addr) :=
  match l with
  | [] => mret None
  | connection :: rest =>
      c ← load_connection connection;
      if bool_decide (conn_intf c = Some intf /\ intf_cport_id c = cport_id)
      then mret (Some connection)
      else intf_find_entry intf cport_id rest
  end.

(** Caller holds gb_connection_mutex. *)
Definition gb_connection_intf_find (intf : addr) (cport_id : Z)
  : M (option addr) :=
  i ← load_intf intf;
  h ← load_hd (intf_hd i);
  intf_find_entry intf cport_id (hd_connections h).

Definition kfree (connection : addr) : M unit :=
  fun w => Done tt (with_log (log w ++ [EvKfree connection])
                      (with_connections (delete connection (connections w)) w)).

Definition gb_connection_kref_release (connection : addr) : M unit :=
  kfree connection.

(** [kref_get]. *)
Definition gb_connection_get (connection : addr) : M unit :=
  update_connection connection (fun c => set_kref (int32 (kref c + 1)) c).

(** [kref_put]: the release function runs when the count reaches zero. *)
Definition gb_connection_put (connection : addr) : M unit :=
  c ← load_connection connection;
  let n := int32 (kref c - 1) in
  store_connection connection (set_kref n c);;
  if bool_decide (n = 0) then gb_connection_kref_release connection
  else mret tt.

Fixpoint hd_find_entry (cport_id : Z) (l : list addr) : M (option addr) :=
  match l with
  | [] => mret None
  | connection :: rest =>
      c ← load_connection connection;
      if bool_decide (hd_cport_id c = cport_id)
      then gb_connection_get connection;; mret (Some connection)
      else hd_find_entry cport_id rest
  end.

(** Returns a reference-counted pointer to the connection if found. *)
Definition gb_connection_hd_find (hd : addr) (cport_id : Z)
  : M (option addr) :=
  spin_lock_irqsave gb_connections_lock;;
  h ← load_hd hd;
  connection ← hd_find_entry cport_id (hd_connections h);
  spin_unlock_irqrestore gb_connections_lock;;
  mret connection.

(** Callback from the host driver: data has been received. *)
Definition greybus_data_rcvd (hd : addr) (cport_id : Z) (data : list Z)
    (length : Z) : M unit :=
  connection ← gb_connection_hd_find hd cport_id;
  match connection with
  | None => dev_err (hd_dev hd) (nonexistent_connection length)
  | Some connection =>
      gb_connection_recv connection data length;;
      gb_connection_put connection
  end.

(** The label "%u/%u:%u" of a connection. *)
Definition gb_connection_init_name (connection : addr) : M unit :=
  c ← load_connection connection;
  ids ← match conn_intf c with
        | Some intf =>
            i ← load_intf intf; mret (interface_id i, intf_cport_id c)
        | None => mret (0, 0)
        end;
  update_connection connection
    (set_name (pretty (hd_cport_id c) +:+ "/" +:+ pretty (fst ids)
               +:+ ":" +:+ pretty (snd ids))).

(** Modelled from the spec: the identifier allocator of a host device
    ([ida_simple_get] and [ida_simple_remove] are kernel functions that are
    not part of the sources). Reserving yields the smallest free id of
    [start, end), or the error for an exhausted range; it can also fail for
    lack of memory. *)
Definition ida_simple_get (hd : addr) (ida_start ida_end : Z) : M Z :=
  h ← load_hd hd;
  if negb ida_pre_get then mret (- ENOMEM)
  else
    match List.find (fun id => bool_decide (id ∉ cport_id_map h))
            (seqZ ida_start (ida_end - ida_start)) with
    | Some id =>
        store_hd hd {| hd_connections := hd_connections h;
                       cport_id_map := {[ id ]} ∪ cport_id_map h;
                       num_cports := num_cports h;
                       driver := driver h; svc := svc h |};;
        emit (EvIdaGet hd id);;
        mret id
    | None => mret (- ENOSPC)
    end.

Definition ida_simple_remove (hd : addr) (id : Z) : M unit :=
  h ← load_hd hd;
  store_hd hd {| hd_connections := hd_connections h;
                 cport_id_map := cport_id_map h ∖ {[ id ]};
                 num_cports := num_cports h;
                 driver := driver h; svc := svc h |};;
  emit (EvIdaRemove hd id).

(** [kzalloc] of a connection object: a fresh address, or NULL. The object
    is written by the initialisation that follows. *)
Definition kzalloc : M (option addr) :=
  fun w =>
    if kzalloc_ok
    then let p := fresh (dom (connections w)) in
         Done (Some p) (with_log (log w ++ [EvKzalloc p]) w)
    else Done None w.

(** The error exits of [gb_connection_create], one per label. *)
Definition create_err_unlock : M (option addr) :=
  mutex_unlock gb_connection_mutex;;
  mret None.

Definition create_err_remove_ida (hd : addr) (hd_cport_id : Z)
  : M (option addr) :=
  ida_simple_remove hd hd_cport_id;;
  create_err_unlock.

Definition create_err_free_connection (hd : addr) (hd_cport_id : Z)
    (connection : addr) : M (option addr) :=
  kfree connection;;
  create_err_remove_ida hd hd_cport_id.

(** [gb_connection_create] from [mutex_lock] on, with the range of ids
    chosen by the caller. *)
Definition gb_connection_create_locked (hd : addr) (ida_start ida_end : Z)
    (intf bundle : option addr) (cport_id : Z) : M (option addr) :=
  mutex_lock gb_connection_mutex;;
  dup ← match intf with
        | Some i => gb_connection_intf_find i (u16 cport_id)
        | None => mret None
        end;
  match intf, dup with
  | Some i, Some _ =>
      dev_err (intf_dev i) (cport_already_in_use (cport_id mod 4294967296));;
      create_err_unlock
  | _, _ =>
      hd_cport_id ← ida_simple_get hd ida_start ida_end;
      if bool_decide (hd_cport_id < 0) then create_err_unlock
      else
        connection ← kzalloc;
        match connection with
        | None => create_err_remove_ida hd hd_cport_id
        | Some connection =>
            store_connection connection
              {| conn_hd := hd; conn_intf := intf; conn_bundle := bundle;
                 kref := 0;
                 hd_cport_id := u16 hd_cport_id;
                 intf_cport_id := u16 cport_id;
                 state := GB_CONNECTION_STATE_DISABLED;
                 handler := None; operations := []; wq := None;
                 op_cycle := 0; name := "" |};;
            let w := alloc_workqueue hd hd_cport_id in
            update_connection connection (set_wq w);;
            match w with
            | None => create_err_free_connection hd hd_cport_id connection
            | Some wa =>
                emit (EvAllocWorkqueue wa);;
                update_connection connection (set_kref 1);;
                gb_connection_init_name connection;;
                spin_lock_irq gb_connections_lock;;
                h ← load_hd hd;
                store_hd hd
                  {| hd_connections := connection :: hd_connections h;
                     cport_id_map := cport_id_map h;
                     num_cports := num_cports h;
                     driver := driver h; svc := svc h |};;
                match bundle with
                | Some b =>
                    bd ← load_bundle b;
                    store_bundle b
                      {| bundle_intf := bundle_intf bd;
                         bundle_connections :=
                           connection :: bundle_connections bd |}
                | None => mret tt
                end;;
                spin_unlock_irq gb_connections_lock;;
                mutex_unlock gb_connection_mutex;;
                mret (Some connection)
            end
        end
  end.

(** Create a Greybus connection. [hd_cport_id] is negative for dynamic
    allocation, [intf] is NULL for static connections, [bundle] may be
    NULL. Returns the new connection, or NULL. *)
Definition gb_connection_create (hd : addr) (hd_cport_id : Z)
    (intf bundle : option addr) (cport_id : Z) : M (option addr) :=
  h ← load_hd hd;
  if bool_decide (hd_cport_id < 0)
  then gb_connection_create_locked hd 0 (num_cports h) intf bundle cport_id
  else if bool_decide (hd_cport_id < num_cports h)
  then gb_connection_create_locked hd hd_cport_id (hd_cport_id + 1)
         intf bundle cport_id
  else
    dev_err (hd_dev hd) (cport_not_available hd_cport_id);;
    mret None.

Definition gb_connection_create_static (hd : addr) (hd_cport_id : Z)
  : M (option addr) :=
  gb_connection_create hd hd_cport_id None None 0.


Definition gb_connection_create_dynamic (bundle : addr) (cport_id : Z)
  : M (option addr) :=
  b ← load_bundle bundle;
  i ← load_intf (bundle_intf b);
  gb_connection_create (intf_hd i) (-1) (Some (bundle_intf b)) (Some bundle)
    cport_id.

(** Modelled from the spec: [gb_connection_is_static] is declared in a header
    that is not part of the sources; a static connection is one with no
    owning interface. *)
Definition gb_connection_is_static (c : gb_connection) : bool :=
  bool_decide (conn_intf c = None).

Definition gb_connection_hd_cport_enable (connection : addr) : M Z :=
  c ← load_connection connection;
  h ← load_hd (conn_hd c);
  match cport_enable (driver h) with
  | None => mret 0
  | Some op =>
      emit (EvCportEnable (conn_hd c) (hd_cport_id c));;
      let ret := op (hd_cport_id c) in
      if bool_decide (ret ≠ 0)
      then dev_err (hd_dev (conn_hd c)) (failed_to_enable_host_cport ret);;
           mret ret
      else mret 0
  end.

Definition gb_connection_hd_cport_disable (connection : addr) : M unit :=
  c ← load_connection connection;
  h ← load_hd (conn_hd c);
  if cport_disable (driver h)
  then emit (EvCportDisable (conn_hd c) (hd_cport_id c))
  else mret tt.

(** Request the SVC to create a connection from AP's cport to interface's
    cport. *)
Definition gb_connection_svc_connection_create (connection : addr) : M Z :=
  c ← load_connection connection;
  if gb_connection_is_static c then mret 0
  else
    match conn_intf c with
    | None => fault
    | Some intf =>
        h ← load_hd (conn_hd c);
        i ← load_intf intf;
        emit (EvSvcConnectionCreate (ap_intf_id (svc h)) (hd_cport_id c)
                (interface_id i) (intf_cport_id c) (boot_over_unipro i));;
        let ret := gb_svc_connection_create (svc h) (ap_intf_id (svc h))
                     (hd_cport_id c) (interface_id i) (intf_cport_id c)
                     (boot_over_unipro i) in
        if bool_decide (ret ≠ 0)
        then dev_err (hd_dev (conn_hd c))
               (failed_to_create_svc_connection (name c) ret);;
             mret ret
        else mret 0
    end.

Definition gb_connection_svc_connection_destroy (connection : addr)
  : M unit :=
  c ← load_connection connection;
  if gb_connection_is_static c then mret tt
  else
    match conn_intf c with
    | None => fault
    | Some intf =>
        h ← load_hd (conn_hd c);
        i ← load_intf intf;
        emit (EvSvcConnectionDestroy (ap_intf_id (svc h)) (hd_cport_id c)
                (interface_id i) (intf_cport_id c))
    end.

(** The control object of the interface that owns a connection which is not
    static ([connection->intf->control]). *)
Definition load_control (c : gb_connection) : M (addr * gb_control) :=
  match conn_intf c with
  | None => fault
  | Some intf =>
      i ← load_intf intf;
      match control i with
      | None => fault
      | Some ctl => mret (intf, ctl)
      end
  end.

(** Inform Interface about active CPorts. *)
Definition gb_connection_control_connected (connection : addr) : M Z :=
  c ← load_connection connection;
  let cport_id := intf_cport_id c in
  if gb_connection_is_static c then mret 0
  else
    ic ← load_control c;
    if bool_decide (Some connection = control_connection (snd ic)) then mret 0
    else
      emit (EvControlConnected (fst ic) cport_id);;
      let ret := gb_control_connected_operation (fst ic) (snd ic) cport_id in
      if bool_decide (ret ≠ 0)
      then dev_err (bundle_dev (conn_bundle c)) (failed_to_connect_cport ret);;
           mret ret
      else mret 0.

(** Inform Interface about inactive CPorts. *)
Definition gb_connection_control_disconnected (connection : addr)
  : M unit :=
  c ← load_connection connection;
  let cport_id := intf_cport_id c in
  if gb_connection_is_static c then mret tt
  else
    ic ← load_control c;
    if bool_decide (Some connection = control_connection (snd ic)) then mret tt
    else
      emit (EvControlDisconnected (fst ic) cport_id);;
      let ret := gb_control_disconnected_operation (fst ic) (snd ic) cport_id in
      if bool_decide (ret ≠ 0)
      then dev_warn (bundle_dev (conn_bundle c))
             (failed_to_disconnect_cport ret)
      else mret tt.

(** Modelled from the spec: the operation layer is not part of the sources.
    It keeps the references of an operation, and a cancelled operation
    completes with the given error and leaves the pending set of its
    connection: the operation layer owns removal. The request itself is
    recorded in the log. *)
Definition gb_operation_get (operation : gb_operation) : M unit :=
  emit (EvOperationGet operation).

Definition gb_operation_put (operation : gb_operation) : M unit :=
  emit (EvOperationPut operation).

Definition gb_operation_is_incoming (operation : gb_operation) : bool :=
  op_incoming operation.

Definition operation_unlink (connection : addr) (operation : gb_operation)
  : M unit :=
  update_connection connection
    (fun c => set_operations
                (filter (fun o => op_addr o ≠ op_addr operation)
                   (operations c)) c).

Definition gb_operation_cancel (connection : addr)
    (operation : gb_operation) (errno : Z) : M unit :=
  emit (EvOperationCancel operation errno);;
  operation_unlink connection operation.

Definition gb_operation_cancel_incoming (connection : addr)
    (operation : gb_operation) (errno : Z) : M unit :=
  emit (EvOperationCancelIncoming operation errno);;
  operation_unlink connection operation.

(** Cancel all active operations on a connection.
    Locking: called with connection lock held and state set to DISABLED.
    Each unit of [fuel] pays for one evaluation of the loop condition. *)
Fixpoint gb_connection_cancel_operations (fuel : nat) (connection : addr)
    (errno : Z) : M unit :=
  match fuel with
  | O => out_of_fuel
  | S fuel =>
      c ← load_connection connection;
      match last (operations c) with
      | None => mret tt
      | Some operation =>
          gb_operation_get operation;;
          spin_unlock_irq (connection_lock connection);;
          (if gb_operation_is_incoming operation
           then gb_operation_cancel_incoming connection operation errno
           else gb_operation_cancel connection operation errno);;
          gb_operation_put operation;;
          spin_lock_irq (connection_lock connection);;
          gb_connection_cancel_operations fuel connection errno
      end
  end.

(** Cancel all active incoming operations on a connection.
    Locking: called with connection lock held and state set to ENABLED_TX. *)
Fixpoint gb_connection_flush_incoming_operations (fuel : nat)
    (connection : addr) (errno : Z) : M unit :=
  match fuel with
  | O => out_of_fuel
  | S fuel =>
      c ← load_connection connection;
      match List.find gb_operation_is_incoming (operations c) with
      | None => mret tt
      | Some operation =>
          gb_operation_get operation;;
          spin_unlock_irq (connection_lock connection);;
          gb_operation_cancel_incoming connection operation errno;;
          gb_operation_put operation;;
          spin_lock_irq (connection_lock connection);;
          gb_connection_flush_incoming_operations fuel connection errno
      end
  end.

(** The exits of [gb_connection_enable], one per label. *)
Definition enable_out_unlock (connection : addr) : M Z :=
  mutex_unlock (connection_mutex connection);;
  mret 0.

Definition enable_err_unlock (connection : addr) (ret : Z) : M Z :=
  mutex_unlock (connection_mutex connection);;
  mret ret.

Definition enable_err_hd_cport_disable (connection : addr) (ret : Z) : M Z :=
  gb_connection_hd_cport_disable connection;;
  enable_err_unlock connection ret.

Definition enable_err_svc_destroy (fuel : nat) (connection : addr) (ret : Z)
  : M Z :=
  spin_lock_irq (connection_lock connection);;
  update_connection connection (set_state GB_CONNECTION_STATE_DISABLED);;
  gb_connection_cancel_operations fuel connection (- ESHUTDOWN);;
  update_connection connection (set_handler None);;
  spin_unlock_irq (connection_lock connection);;
  gb_connection_svc_connection_destroy connection;;
  enable_err_hd_cport_disable connection ret.

Definition gb_connection_enable (fuel : nat) (connection : addr)
    (handler : option addr) : M Z :=
  mutex_lock (connection_mutex connection);;
  c ← load_connection connection;
  if bool_decide (state c = GB_CONNECTION_STATE_ENABLED)
  then enable_out_unlock connection
  else if bool_decide (state c = GB_CONNECTION_STATE_ENABLED_TX)
  then
    match handler with
    | None => enable_out_unlock connection
    | Some _ =>
        spin_lock_irq (connection_lock connection);;
        update_connection connection (set_handler handler);;
        update_connection connection
          (set_state GB_CONNECTION_STATE_ENABLED);;
        spin_unlock_irq (connection_lock connection);;
        enable_out_unlock connection
    end
  else
    ret ← gb_connection_hd_cport_enable connection;
    if bool_decide (ret ≠ 0) then enable_err_unlock connection ret
    else
      ret ← gb_connection_svc_connection_create connection;
      if bool_decide (ret ≠ 0)
      then enable_err_hd_cport_disable connection ret
      else
        spin_lock_irq (connection_lock connection);;
        update_connection connection (set_handler handler);;
        update_connection connection
          (set_state (match handler with
                      | Some _ => GB_CONNECTION_STATE_ENABLED
                      | None => GB_CONNECTION_STATE_ENABLED_TX
                      end));;
        spin_unlock_irq (connection_lock connection);;
        ret ← gb_connection_control_connected connection;
        if bool_decide (ret ≠ 0)
        then enable_err_svc_destroy fuel connection ret
        else enable_out_unlock connection.

Definition gb_connection_disable_rx (fuel : nat) (connection : addr)
  : M unit :=
  mutex_lock (connection_mutex connection);;
  spin_lock_irq (connection_lock connection);;
  c ← load_connection connection;
  if bool_decide (state c ≠ GB_CONNECTION_STATE_ENABLED)
  then
    spin_unlock_irq (connection_lock connection);;
    mutex_unlock (connection_mutex connection)
  else
    update_connection connection (set_state GB_CONNECTION_STATE_ENABLED_TX);;
    gb_connection_flush_incoming_operations fuel connection (- ESHUTDOWN);;
    update_connection connection (set_handler None);;
    spin_unlock_irq (connection_lock connection);;
    mutex_unlock (connection_mutex connection).

Definition gb_connection_disable (fuel : nat) (connection : addr) : M unit :=
  mutex_lock (connection_mutex connection);;
  c ← load_connection connection;
  if bool_decide (state c = GB_CONNECTION_STATE_DISABLED)
  then mutex_unlock (connection_mutex connection)
  else
    gb_connection_control_disconnected connection;;
    spin_lock_irq (connection_lock connection);;
    update_connection connection (set_state GB_CONNECTION_STATE_DISABLED);;
    gb_connection_cancel_operations fuel connection (- ESHUTDOWN);;
    update_connection connection (set_handler None);;
    spin_unlock_irq (connection_lock connection);;
    gb_connection_svc_connection_destroy connection;;
    gb_connection_hd_cport_disable connection;;
    mutex_unlock (connection_mutex connection).

(** [list_del] of a connection from a list of connections. *)
Definition list_del (connection : addr) (l : list addr) : list addr :=
  filter (fun p => p ≠ connection) l.

Definition destroy_workqueue (w : option addr) : M unit :=
  emit (EvDestroyWorkqueue w).

(** Caller must have disabled the connection before destroying it. The
    argument may be NULL. *)
Definition gb_connection_destroy (connection : option addr) : M unit :=
  match connection with
  | None => mret tt
  | Some connection =>
      mutex_lock gb_connection_mutex;;
      spin_lock_irq gb_connections_lock;;
      c ← load_connection connection;
      match conn_bundle c with
      | Some b =>
          bd ← load_bundle b;
          store_bundle b
            {| bundle_intf := bundle_intf bd;
               bundle_connections :=
                 list_del connection (bundle_connections bd) |}
      | None => mret tt
      end;;
      h ← load_hd (conn_hd c);
      store_hd (conn_hd c)
        {| hd_connections := list_del connection (hd_connections h);
           cport_id_map := cport_id_map h;
           num_cports := num_cports h;
           driver := driver h; svc := svc h |};;
      spin_unlock_irq gb_connections_lock;;
      destroy_workqueue (wq c);;
      ida_simple_remove (conn_hd c) (hd_cport_id c);;
      update_connection connection (set_hd_cport_id CPORT_ID_BAD);;
      mutex_unlock gb_connection_mutex;;
      gb_connection_put connection
  end.

Definition gb_connection_latency_tag_enable (connection : addr) : M unit :=
  c ← load_connection connection;
  h ← load_hd (conn_hd c);
  match latency_tag_enable (driver h) with
  | None => mret tt
  | Some op =>
      emit (EvLatencyTagEnable (conn_hd c) (hd_cport_id c));;
      let ret := op (hd_cport_id c) in
      if bool_decide (ret ≠ 0)
      then dev_err (hd_dev (conn_hd c))
             (failed_to_enable_latency_tag (name c) ret)
      else mret tt
  end.

Definition gb_connection_latency_tag_disable (connection : addr) : M unit :=
  c ← load_connection connection;
  h ← load_hd (conn_hd c);
  match latency_tag_disable (driver h) with
  | None => mret tt
  | Some op =>
      emit (EvLatencyTagDisable (conn_hd c) (hd_cport_id c));;
      let ret := op (hd_cport_id c) in
      if bool_decide (ret ≠ 0)
      then dev_err (hd_dev (conn_hd c))
             (failed_to_disable_latency_tag (name c) ret)
      else mret tt
  end.

(** ** Specifications of the observable behaviour *)

(** The log entries of one iteration of a cancellation loop. *)
Definition cancel_step (p : addr) (errno : Z) (o : gb_operation) : list event :=
  [EvOperationGet o; EvRelease (connection_lock p);
   (if op_incoming o then EvOperationCancelIncoming o errno
    else EvOperationCancel o errno);
   EvOperationPut o; EvAcquire (connection_lock p)].

(** The log entries of one iteration of the incoming-only drain. *)
Definition flush_step (p : addr) (errno : Z) (o : gb_operation) : list event :=
  [EvOperationGet o; EvRelease (connection_lock p);
   EvOperationCancelIncoming o errno;
   EvOperationPut o; EvAcquire (connection_lock p)].

Definition incoming (o : gb_operation) : Prop := op_incoming o = true.
Definition outgoing (o : gb_operation) : Prop := op_incoming o = false.

#[global] Instance incoming_dec (o : gb_operation) : Decision (incoming o).
Proof. unfold incoming. apply _. Defined.

#[global] Instance outgoing_dec (o : gb_operation) : Decision (outgoing o).
Proof. unfold outgoing. apply _. Defined.

(** The interface, and its control object, at the other end of a connection
    that is not static. *)
Definition connection_peer (w : world) (c : gb_connection)
  : option (addr * gb_interface * gb_control) :=
  match conn_intf c with
  | None => None
  | Some i =>
      match interfaces w !! i with
      | None => None
      | Some itf =>
          match control itf with
          | None => None
          | Some ctl => Some (i, itf, ctl)
          end
      end
  end.

(** The objects a connection points to are there. *)
Definition connection_ok (w : world) (p : addr) (c : gb_connection)
    (h : gb_host_device) : Prop :=
  connections w !! p = Some c /\
  host_devices w !! conn_hd c = Some h /\
  (conn_intf c = None \/ is_Some (connection_peer w c)) /\
  NoDup (map op_addr (operations c)).

(** What each external call of the state machine returns and appends to the
    log, for a connection [c] at address [p] on host device [h] with peer
    [peer] ([None] for a static connection). *)
Definition transport_enable_ret (c : gb_connection) (h : gb_host_device) : Z :=
  match cport_enable (driver h) with
  | None => 0
  | Some op => op (hd_cport_id c)
  end.

Definition transport_enable_events (c : gb_connection) (h : gb_host_device)
  : list event :=
  match cport_enable (driver h) with
  | None => []
  | Some op =>
      EvCportEnable (conn_hd c) (hd_cport_id c)
      :: (if bool_decide (op (hd_cport_id c) ≠ 0)
          then [EvDevErr (hd_dev (conn_hd c))
                  (failed_to_enable_host_cport (op (hd_cport_id c)))]
          else [])
  end.

Definition transport_disable_events (c : gb_connection) (h : gb_host_device)
  : list event :=
  if cport_disable (driver h)
  then [EvCportDisable (conn_hd c) (hd_cport_id c)]
  else [].

Definition route_create_ret (c : gb_connection) (h : gb_host_device)
    (peer : option (addr * gb_interface * gb_control)) : Z :=
  match peer with
  | None => 0
  | Some (_, itf, _) =>
      gb_svc_connection_create (svc h) (ap_intf_id (svc h)) (hd_cport_id c)
        (interface_id itf) (intf_cport_id c) (boot_over_unipro itf)
  end.

Definition route_create_events (c : gb_connection) (h : gb_host_device)
    (peer : option (addr * gb_interface * gb_control)) : list event :=
  match peer with
  | None => []
  | Some (_, itf, _) =>
      EvSvcConnectionCreate (ap_intf_id (svc h)) (hd_cport_id c)
        (interface_id itf) (intf_cport_id c) (boot_over_unipro itf)
      :: (if bool_decide (route_create_ret c h peer ≠ 0)
          then [EvDevErr (hd_dev (conn_hd c))
                  (failed_to_create_svc_connection (name c)
                     (route_create_ret c h peer))]
          else [])
  end.

Definition route_destroy_events (c : gb_connection) (h : gb_host_device)
    (peer : option (addr * gb_interface * gb_control)) : list event :=
  match peer with
  | None => []
  | Some (_, itf, _) =>
      [EvSvcConnectionDestroy (ap_intf_id (svc h)) (hd_cport_id c)
         (interface_id itf) (intf_cport_id c)]
  end.

(** Whether the peer is told about a connection: there is a peer, and the
    connection is not the peer's own control connection. *)
Definition peer_is_notified (p : addr)
    (peer : option (addr * gb_interface * gb_control)) : bool :=
  match peer with
  | None => false
  | Some (_, _, ctl) => negb (bool_decide (Some p = control_connection ctl))
  end.

Definition notify_connected_ret (p : addr) (c : gb_connection)
    (peer : option (addr * gb_interface * gb_control)) : Z :=
  match peer with
  | None => 0
  | Some (i, _, ctl) =>
      if peer_is_notified p peer
      then gb_control_connected_operation i ctl (intf_cport_id c)
      else 0
  end.

Definition notify_connected_events (p : addr) (c : gb_connection)
    (peer : option (addr * gb_interface * gb_control)) : list event :=
  match peer with
  | None => []
  | Some (i, _, ctl) =>
      if peer_is_notified p peer
      then EvControlConnected i (intf_cport_id c)
           :: (if bool_decide (notify_connected_ret p c peer ≠ 0)
               then [EvDevErr (bundle_dev (conn_bundle c))
                       (failed_to_connect_cport (notify_connected_ret p c peer))]
               else [])
      else []
  end.

Definition notify_disconnected_events (p : addr) (c : gb_connection)
    (peer : option (addr * gb_interface * gb_control)) : list event :=
  match peer with
  | None => []
  | Some (i, _, ctl) =>
      if peer_is_notified p peer
      then EvControlDisconnected i (intf_cport_id c)
           :: (let ret := gb_control_disconnected_operation i ctl
                            (intf_cport_id c) in
               if bool_decide (ret ≠ 0)
               then [EvDevWarn (bundle_dev (conn_bundle c))
                       (failed_to_disconnect_cport ret)]
               else [])
      else []
  end.

(** The calls into the peer's control channel, the operation layer, the SVC
    and the transport driver in a log: what is left when the locks, the
    diagnostics and the reference counting of operations are taken out. *)
Definition is_external_call (e : event) : bool :=
  match e with
  | EvCportEnable _ _ | EvCportDisable _ _
  | EvSvcConnectionCreate _ _ _ _ _ | EvSvcConnectionDestroy _ _ _ _
  | EvControlConnected _ _ | EvControlDisconnected _ _
  | EvOperationCancel _ _ | EvOperationCancelIncoming _ _ => true
  | _ => false
  end.

Definition external_calls (l : list event) : list event :=
  List.filter is_external_call l.

(** The request to cancel one operation: incoming operations go through the
    incoming path, the others through the general one. *)
Definition cancel_request (errno : Z) (o : gb_operation) : event :=
  if op_incoming o then EvOperationCancelIncoming o errno
  else EvOperationCancel o errno.

(** The calls to the SVC, and the notifications of the peer, in a log. *)
Definition is_route_call (e : event) : bool :=
  match e with
  | EvSvcConnectionCreate _ _ _ _ _ | EvSvcConnectionDestroy _ _ _ _ => true
  | _ => false
  end.

Definition is_notify_call (e : event) : bool :=
  match e with
  | EvControlConnected _ _ | EvControlDisconnected _ _ => true
  | _ => false
  end.

Definition route_calls (l : list event) : list event :=
  List.filter is_route_call l.

Definition notify_calls (l : list event) : list event :=
  List.filter is_notify_call l.

(** No connection of the list has local id [id]; every entry is an object. *)
Definition no_local_id (w : world) (id : Z) (l : list addr) : Prop :=
  Forall (fun q => exists cq, connections w !! q = Some cq /\
                              hd_cport_id cq ≠ id) l.

(** A connection of interface [intf] with remote cport id [id]. *)
Definition bound_to (intf : addr) (id : Z) (c : gb_connection) : Prop :=
  conn_intf c = Some intf /\ intf_cport_id c = id.

(** No connection of the host device of [intf] is bound to ([intf], the
    remote id as a u16); nothing is asked of a NULL interface. *)
Definition no_duplicate (w : world) (intf : option addr) (cport_id : Z)
  : Prop :=
  match intf with
  | None => True
  | Some i =>
      exists itf h,
        interfaces w !! i = Some itf /\
        host_devices w !! intf_hd itf = Some h /\
        Forall (fun q => exists cq, connections w !! q = Some cq /\
                                    ~ bound_to i (u16 cport_id) cq)
          (hd_connections h)
  end.

(** [id] is the smallest id of [lo, hi) that is not in [m]. *)
Definition first_free (m : gset Z) (lo hi id : Z) : Prop :=
  (lo <= id < hi) /\ (id ∉ m) /\ (forall j, lo <= j < id -> j ∈ m).

(** The range of ids [gb_connection_create] searches for a request. *)
Definition requested_range (h : gb_host_device) (hd_cport_id : Z) : Z * Z :=
  if bool_decide (hd_cport_id < 0) then (0, num_cports h)
  else (hd_cport_id, hd_cport_id + 1).

(** The operations for which a cancellation was requested, in the order of
    the requests. *)
Definition cancelled (l : list event) : list gb_operation :=
  flat_map (fun e => match e with
                     | EvOperationCancel o _ => [o]
                     | EvOperationCancelIncoming o _ => [o]
                     | _ => []
                     end) l.

(** The label of a new connection with local id [id], as
    [gb_connection_init_name] computes it. *)
Definition connection_label (w : world) (intf : option addr)
    (id cport_id : Z) : string :=
  match intf with
  | None => pretty (u16 id) +:+ "/" +:+ pretty 0 +:+ ":" +:+ pretty 0
  | Some i =>
      match interfaces w !! i with
      | Some itf =>
          pretty (u16 id) +:+ "/" +:+ pretty (interface_id itf)
            +:+ ":" +:+ pretty (u16 cport_id)
      | None => ""
      end
  end.

(** The connection that a successful [gb_connection_create] publishes. *)
Definition created_connection (w : world) (hd : addr)
    (intf bundle : option addr) (id cport_id : Z) (wa : addr)
  : gb_connection :=
  {| conn_hd := hd; conn_intf := intf; conn_bundle := bundle;
     kref := 1; hd_cport_id := u16 id; intf_cport_id := u16 cport_id;
     state := GB_CONNECTION_STATE_DISABLED;
     handler := None; operations := []; wq := Some wa;
     op_cycle := 0; name := connection_label w intf id cport_id |}.

(** The bundle lists after [p] is added to the list of [bundle]. *)
Definition bundles_with (w : world) (bundle : option addr) (p : addr)
  : gmap addr gb_bundle :=
  match bundle with
  | None => bundles w
  | Some b =>
      match bundles w !! b with
      | Some bd =>
          <[b := {| bundle_intf := bundle_intf bd;
                    bundle_connections := p :: bundle_connections bd |}]>
            (bundles w)
      | None => bundles w
      end
  end.

(** A Disabled connection has no handler. *)
Definition disabled_without_handler (c : gb_connection) : Prop :=
  state c = GB_CONNECTION_STATE_DISABLED -> handler c = None.

(** The host device of a connection once the connection is taken off its
    list and its local id is released. *)
Definition hd_without (h : gb_host_device) (p : addr) (c : gb_connection)
  : gb_host_device :=
  {| hd_connections := list_del p (hd_connections h);
     cport_id_map := cport_id_map h ∖ {[ hd_cport_id c ]};
     num_cports := num_cports h;
     driver := driver h; svc := svc h |}.

(** The bundle lists once a connection is taken off the list of its
    bundle. *)
Definition bundles_without (w : world) (p : addr) (c : gb_connection)
  : gmap addr gb_bundle :=
  match conn_bundle c with
  | None => bundles w
  | Some b =>
      match bundles w !! b with
      | Some bd =>
          <[b := {| bundle_intf := bundle_intf bd;
                    bundle_connections :=
                      list_del p (bundle_connections bd) |}]> (bundles w)
      | None => bundles w
      end
  end.

(** The registry of a host device is in order: its list has no address
    twice, every address on it is a live connection whose local id is
    marked as used in the identifier map, and no two connections on it have
    the same local id. *)
Definition registry_ok (w : world) (hd : addr) : Prop :=
  exists h,
    host_devices w !! hd = Some h /\
    NoDup (hd_connections h) /\
    (forall q, q ∈ hd_connections h ->
       exists cq, connections w !! q = Some cq /\
                  hd_cport_id cq ∈ cport_id_map h) /\
    (forall q1 q2 c1 c2,
       q1 ∈ hd_connections h -> q2 ∈ hd_connections h ->
       connections w !! q1 = Some c1 -> connections w !! q2 = Some c2 ->
       hd_cport_id c1 = hd_cport_id c2 -> q1 = q2).

(** The handler is installed exactly when the connection is Enabled. *)
Definition handler_iff_enabled (c : gb_connection) : Prop :=
  is_Some (handler c) <-> state c = GB_CONNECTION_STATE_ENABLED.

(** What a latency-tag call appends to the log: nothing when the driver has
    no such call, otherwise the call, followed by one diagnostic when the
    driver answers with an error. *)
Definition latency_tag_events (call : addr -> Z -> event)
    (report : string -> Z -> diagnostic) (op : option (Z -> Z))
    (c : gb_connection) : list event :=
  match op with
  | None => []
  | Some f =>
      call (conn_hd c) (hd_cport_id c)
      :: (if bool_decide (f (hd_cport_id c) ≠ 0)
          then [EvDevErr (hd_dev (conn_hd c))
                  (report (name c) (f (hd_cport_id c)))]
          else [])
  end.

(** ** The interface layer: [gb_interface_find], [gb_interface_create],
    [gb_interface_remove], [gb_interfaces_remove] and [gb_interface_init].
    They work on the list of interfaces of a host device and on the part of
    an interface that the connection code does not read; both are kept in a
    store of their own, with a log of the calls made into the control,
    manifest, bundle and device layers. *)
Definition EINVAL : Z := 22.

(** Conversion of an [int] to [u8], as done for a [u8] parameter. *)
Definition u8 (z : Z) : Z := z mod 256.

(** [struct gb_interface] as the interface code uses it. [intf_fields] holds
    the fields the connection code reads too. [dev_name], [dev_kref] and
    [dev_registered] stand for the embedded [struct device]: its name, its
    reference count and whether it is registered. The other fields of the
    device set at creation (parent, bus, type, groups, dma mask) are
    constants of the driver that no function of this file reads back. *)
Record gb_interface_object : Type := {
  intf_fields : gb_interface;
  device_id : Z;
  disconnected : bool;
  intf_bundles : list addr;
  manifest_descs : list addr;
  vendor_string : option addr;
  product_string : option addr;
  dev_name : string;
  dev_kref : Z;
  dev_registered : bool
}.

Definition set_control (v : option gb_control) (o : gb_interface_object)
  : gb_interface_object :=
  {| intf_fields := {| intf_hd := intf_hd (intf_fields o);
                       interface_id := interface_id (intf_fields o);
                       control := v;
                       boot_over_unipro := boot_over_unipro (intf_fields o) |};
     device_id := device_id o; disconnected := disconnected o;
     intf_bundles := intf_bundles o; manifest_descs := manifest_descs o;
     vendor_string := vendor_string o; product_string := product_string o;
     dev_name := dev_name o; dev_kref := dev_kref o;
     dev_registered := dev_registered o |}.

Definition set_intf_bundles (v : list addr) (o : gb_interface_object)
  : gb_interface_object :=
  {| intf_fields := intf_fields o;
     device_id := device_id o; disconnected := disconnected o;
     intf_bundles := v; manifest_descs := manifest_descs o;
     vendor_string := vendor_string o; product_string := product_string o;
     dev_name := dev_name o; dev_kref := dev_kref o;
     dev_registered := dev_registered o |}.

Definition set_dev_kref (v : Z) (o : gb_interface_object)
  : gb_interface_object :=
  {| intf_fields := intf_fields o;
     device_id := device_id o; disconnected := disconnected o;
     intf_bundles := intf_bundles o; manifest_descs := manifest_descs o;
     vendor_string := vendor_string o; product_string := product_string o;
     dev_name := dev_name o; dev_kref := v;
     dev_registered := dev_registered o |}.

Definition set_dev_registered (v : bool) (o : gb_interface_object)
  : gb_interface_object :=
  {| intf_fields := intf_fields o;
     device_id := device_id o; disconnected := disconnected o;
     intf_bundles := intf_bundles o; manifest_descs := manifest_descs o;
     vendor_string := vendor_string o; product_string := product_string o;
     dev_name := dev_name o; dev_kref := dev_kref o;
     dev_registered := v |}.

(** The part of [struct gb_host_device] that the interface code uses: the
    bus id and the list of interfaces. *)
Record gb_hd_interfaces : Type := {
  bus_id : Z;
  hd_interfaces : list addr
}.

Inductive interface_diagnostic : Type :=
| failed_to_get_manifest_size (size : Z)
| failed_to_get_manifest (ret : Z)
| failed_to_parse_manifest
| failed_to_register_interface (ret : Z)
| interface_added
| interface_ddbl1
| interface_removed.

(** The calls of the interface code into other layers. The two messages of
    [dev_info] after registration print ids that the control and manifest
    layers have written into the interface; the log keeps the message and
    not these values. *)
Inductive interface_event : Type :=
| EvInterfacesLock
| EvInterfacesUnlock
| EvInterfaceKzalloc (i : addr)
| EvInterfaceKfree (i : addr)
| EvStringKfree (s : option addr)
| EvDeviceInitialize (i : addr)
| EvDeviceAdd (i : addr)
| EvDeviceDel (i : addr)
| EvInterfaceErr (i : addr) (m : interface_diagnostic)
| EvInterfaceInfo (i : addr) (m : interface_diagnostic)
| EvControlCreate (i : addr)
| EvControlDestroy (i : addr)
| EvControlEnable (i : addr)
| EvControlDisable (i : addr)
| EvGetManifestSize (i : addr)
| EvGetManifest (i : addr) (manifest : addr) (size : Z)
| EvManifestParse (i : addr) (manifest : addr) (size : Z)
| EvGetInterfaceVersion (i : addr)
| EvGetBundleVersions (i : addr)
| EvManifestKmalloc (size : Z)
| EvManifestKfree (manifest : addr)
| EvBundleAdd (b : addr)
| EvBundleDestroy (b : addr).

Record iworld : Type := IWorld {
  interface_objects : gmap addr gb_interface_object;
  interface_hosts : gmap addr gb_hd_interfaces;
  ilog : list interface_event
}.

(** A computation of the interface code ends normally with a value and a
    store, or dereferences an address that holds no object ([None]). Its
    loops run over lists of the store, so they need no iteration budget. *)
Definition IM (A : Type) : Type := iworld -> option (A * iworld).

#[global] Instance IM_ret : MRet IM := fun A a w => Some (a, w).

#[global] Instance IM_bind : MBind IM := fun A B f m w =>
  match m w with
  | Some (a, w') => f a w'
  | None => None
  end.

Definition ifault {A : Type} : IM A := fun _ => None.

Definition iemit (e : interface_event) : IM unit :=
  fun w => Some (tt, IWorld (interface_objects w) (interface_hosts w)
                       (ilog w ++ [e])).

Definition load_interface (i : addr) : IM gb_interface_object :=
  fun w => match interface_objects w !! i with
           | Some o => Some (o, w)
           | None => None
           end.

Definition store_interface (i : addr) (o : gb_interface_object) : IM unit :=
  fun w => Some (tt, IWorld (<[i := o]> (interface_objects w))
                       (interface_hosts w) (ilog w)).

Definition load_hd_interfaces (hd : addr) : IM gb_hd_interfaces :=
  fun w => match interface_hosts w !! hd with
           | Some h => Some (h, w)
           | None => None
           end.

Definition store_hd_interfaces (hd : addr) (h : gb_hd_interfaces) : IM unit :=
  fun w => Some (tt, IWorld (interface_objects w)
                       (<[hd := h]> (interface_hosts w)) (ilog w)).

(** The invalid device id an interface starts with; its value is in a header
    that is not part of the sources. *)
Variable GB_DEVICE_ID_BAD : Z.

(** The layers the interface code calls into, each given by the value it
    returns for an interface; the call itself is recorded in the log by the
    function that makes it. [gb_manifest_parse] also says which bundles are
    on the list of the interface once it has run. *)
Variable gb_control_create : addr -> option gb_control.
Variable gb_control_enable : addr -> gb_control -> Z.
Variable gb_control_get_manifest_size_operation : addr -> Z.
Variable gb_control_get_manifest_operation : addr -> addr -> Z -> Z.
Variable gb_manifest_parse : addr -> addr -> Z -> bool * list addr.
Variable gb_control_get_interface_version_operation : addr -> Z.
Variable gb_control_get_bundle_versions : addr -> gb_control -> Z.
Variable device_add : addr -> Z.
Variable gb_bundle_add : addr -> Z.

(** [kmalloc] of the manifest buffer: its address, or NULL. *)
Variable kmalloc : Z -> option addr.

(** [list_for_each_entry] over [hd->interfaces]. *)
Fixpoint interface_find_entry (id : Z) (l : list addr) : IM (option addr) :=
  match l with
  | [] => mret None
  | intf :: rest =>
      o ← load_interface intf;
      if bool_decide (interface_id (intf_fields o) = id)
      then mret (Some intf)
      else interface_find_entry id rest
  end.

Definition gb_interface_find (hd : addr) (id : Z) : IM (option addr) :=
  h ← load_hd_interfaces hd;
  interface_find_entry (u8 id) (hd_interfaces h).

(** [gb_control_destroy], [gb_control_enable] and [gb_control_disable] are
    given the control object of the interface and dereference it. *)
Definition load_interface_control (intf : addr) : IM gb_control :=
  o ← load_interface intf;
  match control (intf_fields o) with
  | Some ctl => mret ctl
  | None => ifault
  end.

Definition gb_control_destroy (intf : addr) : IM unit :=
  load_interface_control intf;;
  iemit (EvControlDestroy intf).

Definition gb_control_disable (intf : addr) : IM unit :=
  load_interface_control intf;;
  iemit (EvControlDisable intf).

Definition interface_kfree (intf : addr) : IM unit :=
  fun w => Some (tt, IWorld (delete intf (interface_objects w))
                       (interface_hosts w)
                       (ilog w ++ [EvInterfaceKfree intf])).

(** The release function of the device type of interfaces. *)
Definition gb_interface_release (intf : addr) : IM unit :=
  o ← load_interface intf;
  iemit (EvStringKfree (product_string o));;
  iemit (EvStringKfree (vendor_string o));;
  match control (intf_fields o) with
  | Some _ => gb_control_destroy intf
  | None => mret tt
  end;;
  interface_kfree intf.

(** [put_device]: the release function runs when the count reaches zero. *)
Definition put_device (intf : addr) : IM unit :=
  o ← load_interface intf;
  let n := int32 (dev_kref o - 1) in
  store_interface intf (set_dev_kref n o);;
  if bool_decide (n = 0) then gb_interface_release intf else mret tt.

(** [kzalloc] of an interface: a fresh address, or NULL. The object is
    written by the initialisation that follows. *)
Definition interface_kzalloc : IM (option addr) :=
  fun w =>
    if kzalloc_ok
    then let i := fresh (dom (interface_objects w)) in
         Some (Some i, IWorld (interface_objects w) (interface_hosts w)
                         (ilog w ++ [EvInterfaceKzalloc i]))
    else Some (None, w).

(** Create an interface for the position [id] on a host device. Returns the
    new interface, or NULL when memory is exhausted. [device_initialize]
    gives the device its first reference; the name of the device is
    "%d-%d" of the bus id and the position. *)
Definition gb_interface_create (hd : addr) (id : Z) : IM (option addr) :=
  a ← interface_kzalloc;
  match a with
  | None => mret None
  | Some intf =>
      h ← load_hd_interfaces hd;
      store_interface intf
        {| intf_fields := {| intf_hd := hd; interface_id := u8 id;
                             control := None; boot_over_unipro := false |};
           device_id := GB_DEVICE_ID_BAD; disconnected := false;
           intf_bundles := []; manifest_descs := [];
           vendor_string := None; product_string := None;
           dev_name := pretty (bus_id h) +:+ "-" +:+ pretty (u8 id);
           dev_kref := 1; dev_registered := false |};;
      iemit (EvDeviceInitialize intf);;
      iemit (EvControlCreate intf);;
      match gb_control_create intf with
      | None =>
          put_device intf;;
          mret None
      | Some ctl =>
          o ← load_interface intf;
          store_interface intf (set_control (Some ctl) o);;
          iemit EvInterfacesLock;;
          h ← load_hd_interfaces hd;
          store_hd_interfaces hd
            {| bus_id := bus_id h;
               hd_interfaces := intf :: hd_interfaces h |};;
          iemit EvInterfacesUnlock;;
          mret (Some intf)
      end
  end.

(** Modelled from the spec: [gb_bundle_destroy] is in the bundle code, which
    is not part of the sources. The spec has an interface own its bundles;
    destroying a bundle takes it off the list of its interface [intf], which
    is why the callers walk that list with the variants of
    [list_for_each_entry] that are safe against removal. *)
Definition gb_bundle_destroy (intf bundle : addr) : IM unit :=
  iemit (EvBundleDestroy bundle);;
  o ← load_interface intf;
  store_interface intf
    (set_intf_bundles (list_del bundle (intf_bundles o)) o).

(** [list_for_each_entry_safe] over [intf->bundles], destroying each. *)
Fixpoint interface_destroy_bundles (intf : addr) (l : list addr) : IM unit :=
  match l with
  | [] => mret tt
  | bundle :: next =>
      gb_bundle_destroy intf bundle;;
      interface_destroy_bundles intf next
  end.

(** [device_del] leaves the device unregistered. *)
Definition device_del (intf : addr) : IM unit :=
  o ← load_interface intf;
  store_interface intf (set_dev_registered false o);;
  iemit (EvDeviceDel intf).

(** Tear down a previously set up interface. *)
Definition gb_interface_remove (intf : addr) : IM unit :=
  o ← load_interface intf;
  (if disconnected o then gb_control_disable intf else mret tt);;
  interface_destroy_bundles intf (intf_bundles o);;
  o ← load_interface intf;
  (if dev_registered o
   then device_del intf;;
        iemit (EvInterfaceInfo intf interface_removed)
   else mret tt);;
  gb_control_disable intf;;
  iemit EvInterfacesLock;;
  h ← load_hd_interfaces (intf_hd (intf_fields o));
  store_hd_interfaces (intf_hd (intf_fields o))
    {| bus_id := bus_id h;
       hd_interfaces := list_del intf (hd_interfaces h) |};;
  iemit EvInterfacesUnlock;;
  put_device intf.

(** [list_for_each_entry_safe] over [hd->interfaces], removing each. *)
Fixpoint interfaces_remove_entries (l : list addr) : IM unit :=
  match l with
  | [] => mret tt
  | intf :: temp =>
      gb_interface_remove intf;;
      interfaces_remove_entries temp
  end.

Definition gb_interfaces_remove (hd : addr) : IM unit :=
  h ← load_hd_interfaces hd;
  interfaces_remove_entries (hd_interfaces h).

(** The exit of [gb_interface_init] through the label [free_manifest]. *)
Definition init_free_manifest (manifest : addr) (ret : Z) : IM Z :=
  iemit (EvManifestKfree manifest);;
  mret ret.

(** [list_for_each_entry_safe_reverse] over [intf->bundles], given from the
    tail: a bundle that cannot be added is destroyed, and the walk goes
    on. *)
Fixpoint interface_add_bundles (intf : addr) (l : list addr) : IM unit :=
  match l with
  | [] => mret tt
  | bundle :: tmp =>
      iemit (EvBundleAdd bundle);;
      (if bool_decide (gb_bundle_add bundle ≠ 0)
       then gb_bundle_destroy intf bundle
       else mret tt);;
      interface_add_bundles intf tmp
  end.

(** Enable the control connection, fetch and parse the manifest, register
    the interface and its bundles. A [device_add] that succeeds leaves the
    device registered, which is what [device_is_registered] reads in
    [gb_interface_remove]. *)
Definition gb_interface_init (intf : addr) : IM Z :=
  ctl ← load_interface_control intf;
  iemit (EvControlEnable intf);;
  let ret := gb_control_enable intf ctl in
  if bool_decide (ret ≠ 0) then mret ret
  else
    iemit (EvGetManifestSize intf);;
    let size := gb_control_get_manifest_size_operation intf in
    if bool_decide (size <= 0)
    then
      iemit (EvInterfaceErr intf (failed_to_get_manifest_size size));;
      if bool_decide (size ≠ 0) then mret size else mret (- EINVAL)
    else
      iemit (EvManifestKmalloc size);;
      match kmalloc size with
      | None => mret (- ENOMEM)
      | Some manifest =>
          iemit (EvGetManifest intf manifest size);;
          let ret := gb_control_get_manifest_operation intf manifest size in
          if bool_decide (ret ≠ 0)
          then
            iemit (EvInterfaceErr intf (failed_to_get_manifest ret));;
            init_free_manifest manifest ret
          else
            iemit (EvManifestParse intf manifest size);;
            o ← load_interface intf;
            store_interface intf
              (set_intf_bundles (gb_manifest_parse intf manifest size).2 o);;
            if negb (gb_manifest_parse intf manifest size).1
            then
              iemit (EvInterfaceErr intf failed_to_parse_manifest);;
              init_free_manifest manifest (- EINVAL)
            else
              iemit (EvGetInterfaceVersion intf);;
              let ret := gb_control_get_interface_version_operation intf in
              if bool_decide (ret ≠ 0) then init_free_manifest manifest ret
              else
                ctl ← load_interface_control intf;
                iemit (EvGetBundleVersions intf);;
                let ret := gb_control_get_bundle_versions intf ctl in
                if bool_decide (ret ≠ 0) then init_free_manifest manifest ret
                else
                  iemit (EvDeviceAdd intf);;
                  let ret := device_add intf in
                  if bool_decide (ret ≠ 0)
                  then
                    iemit (EvInterfaceErr intf
                             (failed_to_register_interface ret));;
                    init_free_manifest manifest ret
                  else
                    o ← load_interface intf;
                    store_interface intf (set_dev_registered true o);;
                    iemit (EvInterfaceInfo intf interface_added);;
                    iemit (EvInterfaceInfo intf interface_ddbl1);;
                    o ← load_interface intf;
                    interface_add_bundles intf (rev (intf_bundles o));;
                    init_free_manifest manifest 0
      end.

(** The interface that [gb_interface_create] builds for position [id] on a
    host device, once its control object [ctl] exists. *)
Definition created_interface (hd : addr) (h : gb_hd_interfaces) (id : Z)
    (ctl : option gb_control) : gb_interface_object :=
  {| intf_fields := {| intf_hd := hd; interface_id := u8 id;
                       control := ctl; boot_over_unipro := false |};
     device_id := GB_DEVICE_ID_BAD; disconnected := false;
     intf_bundles := []; manifest_descs := [];
     vendor_string := None; product_string := None;
     dev_name := pretty (bus_id h) +:+ "-" +:+ pretty (u8 id);
     dev_kref := 1; dev_registered := false |}.

(** What the release function of an interface appends to the log. *)
Definition interface_release_events (i : addr) (o : gb_interface_object)
  : list interface_event :=
  [EvStringKfree (product_string o); EvStringKfree (vendor_string o)]
  ++ match control (intf_fields o) with
     | Some _ => [EvControlDestroy i]
     | None => []
     end
  ++ [EvInterfaceKfree i].

(** What [gb_interface_remove] appends to the log for an interface [o] at
    address [i]: the control connection is disabled early when the
    interface is already gone, the bundles are destroyed in list order, the
    device is deleted when it was registered, the control connection is
    disabled, the interface is unlinked under the lock, and it is released
    when the reference dropped was the last one. *)
Definition interface_remove_events (i : addr) (o : gb_interface_object)
  : list interface_event :=
  (if disconnected o then [EvControlDisable i] else [])
  ++ map EvBundleDestroy (intf_bundles o)
  ++ (if dev_registered o
      then [EvDeviceDel i; EvInterfaceInfo i interface_removed]
      else [])
  ++ [EvControlDisable i; EvInterfacesLock; EvInterfacesUnlock]
  ++ (if bool_decide (dev_kref o = 1) then interface_release_events i o
      else []).

(** An interface that outlives its removal: no bundle, not registered, one
    reference less. *)
Definition removed_interface (o : gb_interface_object) : gb_interface_object :=
  set_dev_kref (dev_kref o - 1)
    (set_dev_registered false (set_intf_bundles [] o)).

(** An interface on the list of host device [hd] that can be removed: it is
    a live object of that host device with a control object and a
    reference count in range. *)
Definition removable (w : iworld) (hd : addr) (q : addr) : Prop :=
  exists o,
    interface_objects w !! q = Some o /\
    intf_hd (intf_fields o) = hd /\
    is_Some (control (intf_fields o)) /\
    1 <= dev_kref o < 2147483648.

(** Every stage of [gb_interface_init] before the bundles are added
    succeeds: the control connection is enabled, the manifest has a
    positive size, its buffer is allocated, the manifest is fetched and
    parsed, both version requests succeed and the device is registered. *)
Definition init_stages_pass (i : addr) (ctl : gb_control) : Prop :=
  gb_control_enable i ctl = 0 /\
  0 < gb_control_get_manifest_size_operation i /\
  exists manifest,
    kmalloc (gb_control_get_manifest_size_operation i) = Some manifest /\
    gb_control_get_manifest_operation i manifest
      (gb_control_get_manifest_size_operation i) = 0 /\
    (gb_manifest_parse i manifest
       (gb_control_get_manifest_size_operation i)).1 = true /\
    gb_control_get_interface_version_operation i = 0 /\
    gb_control_get_bundle_versions i ctl = 0 /\
    device_add i = 0.

(** The manifest buffer that a run of [gb_interface_init] allocates, if it
    gets that far and [kmalloc] succeeds. *)
Definition manifest_allocated (i : addr) (ctl : gb_control) : option addr :=
  if bool_decide (gb_control_enable i ctl = 0 /\
                  0 < gb_control_get_manifest_size_operation i)
  then kmalloc (gb_control_get_manifest_size_operation i)
  else None.

(** The manifest buffers freed in a log, in order. *)
Definition manifest_frees (l : list interface_event) : list addr :=
  flat_map (fun e => match e with
                     | EvManifestKfree m => [m]
                     | _ => []
                     end) l.

(** What adding one bundle appends to the log: the call, and the
    destruction of the bundle when the call failed. *)
Definition bundle_add_events (b : addr) : list interface_event :=
  EvBundleAdd b
  :: (if bool_decide (gb_bundle_add b ≠ 0) then [EvBundleDestroy b] else []).

(** ** Sample configurations

    One host device with eight cports, one interface with its control
    connection, one bundle, and four connections: the control connection,
    an Enabled connection of the bundle with three pending operations, a
    static connection, and a Disabled connection of the bundle. *)

Definition sample_driver : gb_hd_driver :=
  {| cport_enable := Some (fun _ => 0);
     cport_disable := true;
     latency_tag_enable := None;
     latency_tag_disable := None |}.

Definition sample_hd : gb_host_device :=
  {| hd_connections := [13; 12; 11; 10]%positive;
     cport_id_map := {[ 0; 1; 2; 5 ]};
     num_cports := 8;
     driver := sample_driver;
     svc := {| ap_intf_id := 0 |} |}.

Definition sample_interface : gb_interface :=
  {| intf_hd := 1%positive;
     interface_id := 3;
     control := Some {| control_connection := Some 10%positive |};
     boot_over_unipro := false |}.

Definition sample_bundle : gb_bundle :=
  {| bundle_intf := 2%positive;
     bundle_connections := [13; 11]%positive |}.

Definition sample_control : gb_connection :=
  {| conn_hd := 1%positive; conn_intf := Some 2%positive;
     conn_bundle := None; kref := 1; hd_cport_id := 0; intf_cport_id := 0;
     state := GB_CONNECTION_STATE_DISABLED; handler := None;
     operations := []; wq := Some 100%positive; op_cycle := 0;
     name := "0/3:0" |}.

Definition op_a : gb_operation := {| op_addr := 21; op_incoming := true |}.
Definition op_b : gb_operation := {| op_addr := 22; op_incoming := false |}.
Definition op_c : gb_operation := {| op_addr := 23; op_incoming := true |}.

Definition sample_enabled : gb_connection :=
  {| conn_hd := 1%positive; conn_intf := Some 2%positive;
     conn_bundle := Some 3%positive; kref := 1; hd_cport_id := 1;
     intf_cport_id := 3;
     state := GB_CONNECTION_STATE_ENABLED; handler := Some 7%positive;
     operations := [op_a; op_b; op_c]; wq := Some 101%positive;
     op_cycle := 0; name := "1/3:3" |}.

Definition sample_static : gb_connection :=
  {| conn_hd := 1%positive; conn_intf := None; conn_bundle := None;
     kref := 1; hd_cport_id := 5; intf_cport_id := 0;
     state := GB_CONNECTION_STATE_ENABLED_TX; handler := None;
     operations := []; wq := Some 102%positive; op_cycle := 0;
     name := "5/0:0" |}.

Definition sample_disabled : gb_connection :=
  {| conn_hd := 1%positive; conn_intf := Some 2%positive;
     conn_bundle := Some 3%positive; kref := 1; hd_cport_id := 2;
     intf_cport_id := 4;
     state := GB_CONNECTION_STATE_DISABLED; handler := None;
     operations := []; wq := Some 103%positive; op_cycle := 0;
     name := "2/3:4" |}.

Definition sample_world : world :=
  {| connections :=
       <[10%positive := sample_control]>
         (<[11%positive := sample_enabled]>
            (<[12%positive := sample_static]>
               (<[13%positive := sample_disabled]> ∅)));
     host_devices := {[ 1%positive := sample_hd ]};
     interfaces := {[ 2%positive := sample_interface ]};
     bundles := {[ 3%positive := sample_bundle ]};
     log := [] |}.

(** A host device with four cports, none of them in use. *)
Definition empty_hd : gb_host_device :=
  {| hd_connections := [];
     cport_id_map := ∅;
     num_cports := 4;
     driver := sample_driver;
     svc := {| ap_intf_id := 0 |} |}.

Definition empty_world : world :=
  {| connections := ∅;
     host_devices := {[ 1%positive := empty_hd ]};
     interfaces := {[ 2%positive := sample_interface ]};
     bundles := {[ 3%positive :=
                     {| bundle_intf := 2%positive;
                        bundle_connections := [] |} ]};
     log := [] |}.

(** A connection with two pending operations, both incoming. *)
Definition two_incoming : gb_connection :=
  {| conn_hd := 1%positive; conn_intf := Some 2%positive;
     conn_bundle := Some 3%positive; kref := 1; hd_cport_id := 1;
     intf_cport_id := 3;
     state := GB_CONNECTION_STATE_ENABLED; handler := Some 7%positive;
     operations := [op_a; op_c]; wq := Some 101%positive;
     op_cycle := 0; name := "1/3:3" |}.

Definition two_incoming_world : world :=
  {| connections := {[ 11%positive := two_incoming ]};
     host_devices := {[ 1%positive := sample_hd ]};
     interfaces := {[ 2%positive := sample_interface ]};
     bundles := {[ 3%positive := sample_bundle ]};
     log := [] |}.

(** External layers that answer every call with the same value. *)
Definition svc_returns (r : Z) : gb_svc -> Z -> Z -> Z -> Z -> bool -> Z :=
  fun _ _ _ _ _ _ => r.

Definition control_returns (r : Z) : addr -> gb_control -> Z -> Z :=
  fun _ _ _ => r.

Definition recv_nothing : addr -> list Z -> Z -> M unit :=
  fun _ _ _ => mret tt.

Definition no_workqueue : addr -> Z -> option addr := fun _ _ => None.

Definition one_workqueue : addr -> Z -> option addr :=
  fun _ _ => Some 100%positive.

(** A host device with eight cports, none of them in use. *)
Definition pool8_world : world :=
  {| connections := ∅;
     host_devices :=
       {[ 1%positive :=
            {| hd_connections := [];
               cport_id_map := ∅;
               num_cports := 8;
               driver := sample_driver;
               svc := {| ap_intf_id := 0 |} |} ]};
     interfaces := ∅;
     bundles := ∅;
     log := [] |}.

(** Create a static connection on cport 5 and enable it with a handler. *)
Definition scenario_static_up : M Z :=
  connection ← gb_connection_create_static 1 5;
  match connection with
  | None => mret (-1)
  | Some p => gb_connection_enable 1 p (Some 7%positive)
  end.

(** The same, then disable the connection. *)
Definition scenario_static_up_down : M Z :=
  connection ← gb_connection_create_static 1 5;
  match connection with
  | None => mret (-1)
  | Some p =>
      ret ← gb_connection_enable 1 p (Some 7%positive);
      gb_connection_disable 1 p;;
      mret ret
  end.

(** Create a connection of a bundle for remote cport 3, with the local id
    chosen by the allocator, and enable it with a handler. *)
Definition scenario_dynamic_up : M Z :=
  connection ← gb_connection_create_dynamic 3 3;
  match connection with
  | None => mret (-1)
  | Some p => gb_connection_enable 1 p (Some 7%positive)
  end.

(** The sample configuration while a dispatch holds a second reference on
    the static connection. *)
Definition held_world : world :=
  with_connections
    (<[12%positive := set_kref 2 sample_static]> (connections sample_world))
    sample_world.

(** The sample configuration with one outgoing operation pending on the
    Enabled connection, and no incoming one. *)
Definition outgoing_only_world : world :=
  with_connections
    (<[11%positive := set_operations [op_b] sample_enabled]>
       (connections sample_world))
    sample_world.

(** A driver whose latency-tag calls fail, and the sample configuration on
    that driver. *)
Definition tagging_driver : gb_hd_driver :=
  {| cport_enable := Some (fun _ => 0);
     cport_disable := true;
     latency_tag_enable := Some (fun _ => -5);
     latency_tag_disable := Some (fun _ => 0) |}.

Definition tagging_hd : gb_host_device :=
  {| hd_connections := hd_connections sample_hd;
     cport_id_map := cport_id_map sample_hd;
     num_cports := num_cports sample_hd;
     driver := tagging_driver;
     svc := svc sample_hd |}.

Definition tagging_world : world :=
  with_host_devices {[ 1%positive := tagging_hd ]} sample_world.

(** A host device with bus id 1 and two interfaces: one at position 3,
    registered, marked as disconnected, with two bundles; one at position 5,
    not registered, on which a second reference is held. *)
Definition intf_a : gb_interface_object :=
  {| intf_fields := {| intf_hd := 1%positive; interface_id := 3;
                       control := Some {| control_connection :=
                                            Some 10%positive |};
                       boot_over_unipro := false |};
     device_id := 2; disconnected := true;
     intf_bundles := [31; 32]%positive; manifest_descs := [];
     vendor_string := Some 41%positive; product_string := Some 42%positive;
     dev_name := "1-3"; dev_kref := 1; dev_registered := true |}.

Definition intf_b : gb_interface_object :=
  {| intf_fields := {| intf_hd := 1%positive; interface_id := 5;
                       control := Some {| control_connection := None |};
                       boot_over_unipro := false |};
     device_id := 255; disconnected := false;
     intf_bundles := []; manifest_descs := [];
     vendor_string := None; product_string := None;
     dev_name := "1-5"; dev_kref := 2; dev_registered := false |}.

Definition sample_iworld : iworld :=
  IWorld {[ 2%positive := intf_a; 4%positive := intf_b ]}
    {[ 1%positive := {| bus_id := 1; hd_interfaces := [4; 2]%positive |} ]}
    [].

(** Answers of the other layers: a control layer that creates the control
    object and one that does not; a manifest of 16 bytes with three
    bundles, the second of which cannot be added; a manifest of size 0. *)
Definition control_created : addr -> option gb_control :=
  fun _ => Some {| control_connection := None |}.

Definition control_not_created : addr -> option gb_control := fun _ => None.

Definition control_accepts : addr -> gb_control -> Z := fun _ _ => 0.

Definition interface_accepts : addr -> Z := fun _ => 0.

Definition manifest_size_16 : addr -> Z := fun _ => 16.

Definition manifest_size_0 : addr -> Z := fun _ => 0.

Definition manifest_fetched : addr -> addr -> Z -> Z := fun _ _ _ => 0.

Definition manifest_three_bundles : addr -> addr -> Z -> bool * list addr :=
  fun _ _ _ => (true, [31; 32; 33]%positive).

Definition second_bundle_fails : addr -> Z :=
  fun b => if bool_decide (b = 32%positive) then -5 else 0.

Definition manifest_buffer : Z -> option addr := fun _ => Some 50%positive.

(** ** Reasoning about computations *)

Lemma set_operations_same (c : gb_connection) :
  set_operations (operations c) c = c.
Proof. destruct c; reflexivity. Qed.

(** [tauto] on the propositions of the context alone. *)
Ltac ptauto :=
  repeat match goal with
         | x : ?T |- _ =>
             lazymatch type of T with
             | Prop => fail
             | _ => clear x
             end
         end;
  tauto.

Ltac munfold :=
  try unfold mbind, mret, M_bind, M_ret, emit, mutex_lock, mutex_unlock,
    spin_lock_irq, spin_unlock_irq, spin_lock_irqsave,
    spin_unlock_irqrestore, dev_err, dev_warn, update_connection,
    load_connection, store_connection, load_hd, store_hd, load_intf,
    load_bundle, store_bundle, fault, out_of_fuel, with_log,
    with_connections, with_host_devices, with_bundles, gb_operation_get,
    gb_operation_put, gb_operation_cancel, gb_operation_cancel_incoming,
    operation_unlink, gb_operation_is_incoming.

Ltac mred :=
  munfold;
  cbn [connections host_devices interfaces bundles log fst snd
       hd_connections cport_id_map num_cports driver svc
       bundle_intf bundle_connections
       conn_hd conn_intf conn_bundle kref hd_cport_id intf_cport_id state
       handler operations wq op_cycle name
       set_kref set_hd_cport_id set_state set_handler set_operations set_wq
       set_name].

Ltac mlookup :=
  match goal with
  | |- context [<[?k := _]> _ !! ?k] => rewrite lookup_insert_eq
  | H : ?m !! ?k = _ |- context [?m !! ?k] => rewrite H
  end.

Ltac mrun := repeat (mred; try mlookup).

Lemma filter_all {A : Type} (P : A -> Prop) `{!forall x, Decision (P x)}
    (l : list A) :
  Forall P l -> filter P l = l.
Proof.
  induction 1 as [|x l Hx _ IH]; [reflexivity|].
  rewrite filter_cons_True by exact Hx. f_equal. exact IH.
Qed.

Lemma filter_none {A : Type} (P : A -> Prop) `{!forall x, Decision (P x)}
    (l : list A) :
  Forall (fun x => ~ P x) l -> filter P l = [].
Proof.
  induction 1 as [|x l Hx _ IH]; [reflexivity|].
  rewrite filter_cons_False by exact Hx. exact IH.
Qed.

Lemma unlink_last (l : list gb_operation) (x : gb_operation) :
  NoDup (map op_addr (l ++ [x])) ->
  filter (fun o => op_addr o ≠ op_addr x) (l ++ [x]) = l.
Proof.
  intros Hnd. rewrite map_app in Hnd. apply NoDup_app in Hnd as (_ & Hdis & _).
  rewrite filter_app, filter_cons_False, filter_nil, app_nil_r by (intros H; apply H; reflexivity).
  apply filter_all. apply Forall_forall. intros o Ho Heq.
  apply (Hdis (op_addr o)).
  - apply list_elem_of_fmap. eauto.
  - rewrite Heq. cbn. left.
Qed.

Lemma cancel_operations_run (fuel : nat) (p : addr) (errno : Z) :
  forall (w : world) (c : gb_connection),
    connections w !! p = Some c ->
    NoDup (map op_addr (operations c)) ->
    (length (operations c) < fuel)%nat ->
    gb_connection_cancel_operations fuel p errno w =
    Done tt (World (<[p := set_operations [] c]> (connections w))
               (host_devices w) (interfaces w) (bundles w)
               (log w ++ flat_map (cancel_step p errno) (rev (operations c)))).
Proof.
  induction fuel as [|fuel IH]; intros w c Hc Hnd Hlen; [lia|].
  cbn [gb_connection_cancel_operations]. mrun.
  destruct (last (operations c)) as [x|] eqn:Hlast.
  - apply last_Some in Hlast as [l Hl].
    assert (Hnd' : NoDup (map op_addr (l ++ [x]))) by (rewrite <- Hl; exact Hnd).
    unfold gb_operation_is_incoming.
    destruct (op_incoming x) eqn:Hx; mrun;
      rewrite Hl, (unlink_last _ _ Hnd');
      (rewrite (IH _ (set_operations l c));
       [ mrun; rewrite insert_insert_eq, rev_app_distr;
         cbn [rev app flat_map]; unfold cancel_step at 2; rewrite Hx;
         rewrite <- !app_assoc; reflexivity
       | mrun; reflexivity
       | mrun; rewrite map_app in Hnd'; apply NoDup_app in Hnd' as (Hl' & _);
         exact Hl'
       | mrun; rewrite Hl, length_app in Hlen; cbn in Hlen; lia ]).
  - apply last_None in Hlast. rewrite Hlast. cbn [rev flat_map]. rewrite app_nil_r.
    rewrite <- Hlast, set_operations_same, insert_id by exact Hc.
    destruct w; reflexivity.
Qed.

Lemma find_split {A : Type} (f : A -> bool) (l : list A) (x : A) :
  List.find f l = Some x ->
  exists l1 l2, l = l1 ++ x :: l2 /\ Forall (fun y => f y = false) l1 /\ f x = true.
Proof.
  induction l as [|a l IH]; cbn; [discriminate|].
  destruct (f a) eqn:Ha.
  - intros [= ->]. exists [], l. auto.
  - intros H. destruct (IH H) as (l1 & l2 & -> & Hl1 & Hx).
    exists (a :: l1), l2. auto.
Qed.

Lemma find_none_outgoing (l : list gb_operation) :
  List.find op_incoming l = None -> Forall outgoing l.
Proof.
  intros H. apply Forall_forall. intros o Ho.
  apply list_elem_of_In in Ho. exact (find_none _ _ H o Ho).
Qed.

Lemma unlink_middle (l1 l2 : list gb_operation) (x : gb_operation) :
  NoDup (map op_addr (l1 ++ x :: l2)) ->
  filter (fun o => op_addr o ≠ op_addr x) (l1 ++ x :: l2) = l1 ++ l2.
Proof.
  intros Hnd. rewrite map_app in Hnd. cbn in Hnd.
  apply NoDup_app in Hnd as (_ & Hdis & Hnd2).
  apply NoDup_cons in Hnd2 as [Hx _].
  rewrite filter_app, filter_cons_False by (intros H; apply H; reflexivity).
  rewrite !filter_all; [reflexivity| |].
  - apply Forall_forall. intros o Ho Heq. apply Hx. rewrite <- Heq.
    apply list_elem_of_fmap. eauto.
  - apply Forall_forall. intros o Ho Heq. apply (Hdis (op_addr o)).
    + apply list_elem_of_fmap. eauto.
    + rewrite Heq. left.
Qed.

Lemma flush_incoming_operations_run (fuel : nat) (p : addr) (errno : Z) :
  forall (w : world) (c : gb_connection),
    connections w !! p = Some c ->
    NoDup (map op_addr (operations c)) ->
    (length (operations c) < fuel)%nat ->
    gb_connection_flush_incoming_operations fuel p errno w =
    Done tt (World (<[p := set_operations (filter outgoing (operations c)) c]>
                      (connections w))
               (host_devices w) (interfaces w) (bundles w)
               (log w ++ flat_map (flush_step p errno)
                           (filter incoming (operations c)))).
Proof.
  induction fuel as [|fuel IH]; intros w c Hc Hnd Hlen; [lia|].
  cbn [gb_connection_flush_incoming_operations]. mrun.
  destruct (List.find op_incoming (operations c)) as [x|] eqn:Hfind.
  - apply find_split in Hfind as (l1 & l2 & Hl & Hl1 & Hx).
    assert (Hnd' : NoDup (map op_addr (l1 ++ x :: l2)))
      by (rewrite <- Hl; exact Hnd).
    mrun. rewrite Hl, (unlink_middle _ _ _ Hnd').
    rewrite (IH _ (set_operations (l1 ++ l2) c)).
    + mrun. rewrite insert_insert_eq, !filter_app.
      rewrite (filter_cons_False outgoing), (filter_cons_True incoming)
        by (unfold outgoing, incoming; congruence).
      rewrite (filter_none incoming l1)
        by (eapply Forall_impl; [exact Hl1|]; unfold incoming; cbn; congruence).
      cbn [app flat_map]. unfold flush_step at 2.
      rewrite <- !app_assoc. reflexivity.
    + mrun. reflexivity.
    + mrun. rewrite map_app in Hnd' |- *. cbn in Hnd'.
      apply NoDup_app in Hnd' as (H1 & H2 & H3).
      apply NoDup_cons in H3 as [H3 H4].
      apply NoDup_app. split; [exact H1|]. split; [|exact H4].
      intros a Ha Ha'. apply (H2 a Ha). right. exact Ha'.
    + mrun. rewrite Hl, !length_app in Hlen. cbn in Hlen.
      rewrite length_app. lia.
  - apply find_none_outgoing in Hfind.
    rewrite (filter_all outgoing) by exact Hfind.
    rewrite (filter_none incoming)
      by (eapply Forall_impl; [exact Hfind|]; unfold incoming, outgoing; cbn; congruence).
    cbn [flat_map]. rewrite app_nil_r, set_operations_same, insert_id by exact Hc.
    destruct w; reflexivity.
Qed.

Lemma peer_static (w : world) (c : gb_connection) :
  conn_intf c = None -> connection_peer w c = None.
Proof. unfold connection_peer. intros ->. reflexivity. Qed.

Lemma peer_inv (w : world) (c : gb_connection) i itf ctl :
  connection_peer w c = Some (i, itf, ctl) ->
  conn_intf c = Some i /\ interfaces w !! i = Some itf /\ control itf = Some ctl.
Proof.
  unfold connection_peer. destruct (conn_intf c) as [j|]; [|discriminate].
  destruct (interfaces w !! j) as [it|] eqn:Hit; [|discriminate].
  destruct (control it) as [ct|] eqn:Hct; [|discriminate].
  intros H. by simplify_eq.
Qed.

Lemma hd_cport_disable_run w p c h :
  connections w !! p = Some c ->
  host_devices w !! conn_hd c = Some h ->
  gb_connection_hd_cport_disable p w =
  Done tt (with_log (log w ++ transport_disable_events c h) w).
Proof.
  intros Hc Hh. unfold gb_connection_hd_cport_disable, transport_disable_events.
  mrun. destruct (cport_disable (driver h)); mrun; [reflexivity|].
  rewrite app_nil_r. destruct w; reflexivity.
Qed.

Lemma hd_cport_enable_run w p c h :
  connections w !! p = Some c ->
  host_devices w !! conn_hd c = Some h ->
  gb_connection_hd_cport_enable p w =
  Done (transport_enable_ret c h)
    (with_log (log w ++ transport_enable_events c h) w).
Proof.
  intros Hc Hh.
  unfold gb_connection_hd_cport_enable, transport_enable_events,
    transport_enable_ret.
  mrun. destruct (cport_enable (driver h)) as [op|]; mrun.
  - case_bool_decide as Hr; mrun; rewrite <- ?app_assoc; cbn [app].
    + reflexivity.
    + rewrite Hr. reflexivity.
  - rewrite app_nil_r. destruct w; reflexivity.
Qed.

Ltac same_world :=
  unfold with_log; cbn [route_create_events route_create_ret
    route_destroy_events notify_connected_events notify_connected_ret
    notify_disconnected_events connections host_devices interfaces bundles log];
  rewrite ?app_nil_r;
  match goal with
  | |- Done _ ?w = Done _ _ => destruct w; reflexivity
  end.

Ltac peer_cases Hp Hpeer :=
  let i := fresh "i" in
  let itf := fresh "itf" in
  let ctl := fresh "ctl" in
  let Hi := fresh "Hi" in
  let Hitf := fresh "Hitf" in
  let Hctl := fresh "Hctl" in
  let Hs := fresh "Hstatic" in
  destruct Hp as [Hs | [[[i itf] ctl] Hpeer]];
  [ rewrite (peer_static _ _ Hs) in *
  | destruct (peer_inv _ _ _ _ _ Hpeer) as (Hi & Hitf & Hctl);
    rewrite Hpeer in * ].

Lemma svc_connection_create_run w p c h :
  connections w !! p = Some c ->
  host_devices w !! conn_hd c = Some h ->
  conn_intf c = None \/ is_Some (connection_peer w c) ->
  gb_connection_svc_connection_create p w =
  Done (route_create_ret c h (connection_peer w c))
    (with_log (log w ++ route_create_events c h (connection_peer w c)) w).
Proof.
  intros Hc Hh Hp.
  unfold gb_connection_svc_connection_create, gb_connection_is_static.
  mrun. peer_cases Hp Hpeer.
  - rewrite Hstatic. cbn. same_world.
  - rewrite Hi. rewrite bool_decide_false by done. mrun.
    unfold route_create_events, route_create_ret.
    case_bool_decide as Hr; mrun; rewrite <- ?app_assoc; cbn [app].
    + reflexivity.
    + rewrite Hr. reflexivity.
Qed.

Lemma svc_connection_destroy_run w p c h :
  connections w !! p = Some c ->
  host_devices w !! conn_hd c = Some h ->
  conn_intf c = None \/ is_Some (connection_peer w c) ->
  gb_connection_svc_connection_destroy p w =
  Done tt (with_log (log w ++ route_destroy_events c h (connection_peer w c)) w).
Proof.
  intros Hc Hh Hp.
  unfold gb_connection_svc_connection_destroy, gb_connection_is_static.
  mrun. peer_cases Hp Hpeer.
  - rewrite Hstatic. cbn. same_world.
  - rewrite Hi. rewrite bool_decide_false by done. mrun. reflexivity.
Qed.

Lemma control_connected_run w p c :
  connections w !! p = Some c ->
  conn_intf c = None \/ is_Some (connection_peer w c) ->
  gb_connection_control_connected p w =
  Done (notify_connected_ret p c (connection_peer w c))
    (with_log (log w ++ notify_connected_events p c (connection_peer w c)) w).
Proof.
  intros Hc Hp.
  unfold gb_connection_control_connected, gb_connection_is_static,
    load_control.
  mrun. peer_cases Hp Hpeer.
  - rewrite Hstatic. cbn. same_world.
  - rewrite Hi. rewrite bool_decide_false by done. mrun. rewrite Hctl. mrun.
    unfold notify_connected_events, notify_connected_ret, peer_is_notified.
    case_bool_decide as Hown; cbn [negb].
    + same_world.
    + mrun. case_bool_decide as Hr; mrun; rewrite <- ?app_assoc; cbn [app].
      * reflexivity.
      * rewrite Hr. reflexivity.
Qed.

Lemma control_disconnected_run w p c :
  connections w !! p = Some c ->
  conn_intf c = None \/ is_Some (connection_peer w c) ->
  gb_connection_control_disconnected p w =
  Done tt
    (with_log (log w ++ notify_disconnected_events p c (connection_peer w c)) w).
Proof.
  intros Hc Hp.
  unfold gb_connection_control_disconnected, gb_connection_is_static,
    load_control.
  mrun. peer_cases Hp Hpeer.
  - rewrite Hstatic. cbn. same_world.
  - rewrite Hi. rewrite bool_decide_false by done. mrun. rewrite Hctl. mrun.
    unfold notify_disconnected_events, peer_is_notified.
    case_bool_decide as Hown; cbn [negb].
    + same_world.
    + mrun. case_bool_decide as Hr; mrun; rewrite <- ?app_assoc; cbn [app];
        reflexivity.
Qed.

Lemma gb_connection_disable_run fuel w p c h :
  connection_ok w p c h ->
  (length (operations c) < fuel)%nat ->
  state c <> GB_CONNECTION_STATE_DISABLED ->
  gb_connection_disable fuel p w =
  Done tt
    (World
       (<[p := set_handler None
                 (set_operations [] (set_state GB_CONNECTION_STATE_DISABLED c))]>
          (connections w))
       (host_devices w) (interfaces w) (bundles w)
       (log w ++ [EvAcquire (connection_mutex p)]
          ++ notify_disconnected_events p c (connection_peer w c)
          ++ [EvAcquire (connection_lock p)]
          ++ flat_map (cancel_step p (- ESHUTDOWN)) (rev (operations c))
          ++ [EvRelease (connection_lock p)]
          ++ route_destroy_events c h (connection_peer w c)
          ++ transport_disable_events c h
          ++ [EvRelease (connection_mutex p)])).
Proof.
  intros (Hc & Hh & Hp & Hnd) Hfuel Hs. unfold gb_connection_disable.
  mrun. rewrite bool_decide_false by exact Hs.
  rewrite (control_disconnected_run _ p c); [ | exact Hc | exact Hp ].
  mrun.
  rewrite (cancel_operations_run fuel p _ _
             (set_state GB_CONNECTION_STATE_DISABLED c));
    [ | mrun; reflexivity | exact Hnd | exact Hfuel ].
  mrun. rewrite insert_insert_eq.
  rewrite (svc_connection_destroy_run _ p
             (set_handler None (set_operations []
                (set_state GB_CONNECTION_STATE_DISABLED c))) h);
    [ | mrun; reflexivity | exact Hh | exact Hp ].
  mrun.
  rewrite (hd_cport_disable_run _ p
             (set_handler None (set_operations []
                (set_state GB_CONNECTION_STATE_DISABLED c))) h);
    [ | mrun; reflexivity | exact Hh ].
  mrun. rewrite insert_insert_eq, <- !app_assoc. reflexivity.
Qed.

Lemma gb_connection_enable_run fuel w p c h hdl :
  connection_ok w p c h ->
  (length (operations c) < fuel)%nat ->
  state c = GB_CONNECTION_STATE_DISABLED ->
  let peer := connection_peer w c in
  let r1 := transport_enable_ret c h in
  let r2 := route_create_ret c h peer in
  let r3 := notify_connected_ret p c peer in
  let s := match hdl with
           | Some _ => GB_CONNECTION_STATE_ENABLED
           | None => GB_CONNECTION_STATE_ENABLED_TX
           end in
  gb_connection_enable fuel p hdl w =
  if bool_decide (r1 ≠ 0)
  then Done r1
         (with_log (log w ++ [EvAcquire (connection_mutex p)]
                      ++ transport_enable_events c h
                      ++ [EvRelease (connection_mutex p)]) w)
  else if bool_decide (r2 ≠ 0)
  then Done r2
         (with_log (log w ++ [EvAcquire (connection_mutex p)]
                      ++ transport_enable_events c h
                      ++ route_create_events c h peer
                      ++ transport_disable_events c h
                      ++ [EvRelease (connection_mutex p)]) w)
  else if bool_decide (r3 ≠ 0)
  then Done r3
         (World
            (<[p := set_handler None
                      (set_operations []
                         (set_state GB_CONNECTION_STATE_DISABLED
                            (set_state s (set_handler hdl c))))]>
               (connections w))
            (host_devices w) (interfaces w) (bundles w)
            (log w ++ [EvAcquire (connection_mutex p)]
               ++ transport_enable_events c h
               ++ route_create_events c h peer
               ++ [EvAcquire (connection_lock p);
                   EvRelease (connection_lock p)]
               ++ notify_connected_events p c peer
               ++ [EvAcquire (connection_lock p)]
               ++ flat_map (cancel_step p (- ESHUTDOWN)) (rev (operations c))
               ++ [EvRelease (connection_lock p)]
               ++ route_destroy_events c h peer
               ++ transport_disable_events c h
               ++ [EvRelease (connection_mutex p)]))
  else Done 0
         (World
            (<[p := set_state s (set_handler hdl c)]> (connections w))
            (host_devices w) (interfaces w) (bundles w)
            (log w ++ [EvAcquire (connection_mutex p)]
               ++ transport_enable_events c h
               ++ route_create_events c h peer
               ++ [EvAcquire (connection_lock p);
                   EvRelease (connection_lock p)]
               ++ notify_connected_events p c peer
               ++ [EvRelease (connection_mutex p)])).
Proof.
  intros (Hc & Hh & Hp & Hnd) Hfuel Hs peer r1 r2 r3 s.
  unfold gb_connection_enable, enable_err_svc_destroy,
    enable_err_hd_cport_disable, enable_err_unlock, enable_out_unlock.
  mrun. rewrite Hs. rewrite !bool_decide_false by discriminate.
  rewrite (hd_cport_enable_run _ p c h); [ | exact Hc | exact Hh ].
  fold r1. case_bool_decide as H1; mrun.
  { rewrite <- !app_assoc. reflexivity. }
  rewrite (svc_connection_create_run _ p c h);
    [ | exact Hc | exact Hh | exact Hp ].
  change (connection_peer _ c) with peer. fold r2.
  case_bool_decide as H2; mrun.
  { rewrite (hd_cport_disable_run _ p c h); [ | exact Hc | exact Hh ].
    mrun. rewrite <- !app_assoc. reflexivity. }
  rewrite insert_insert_eq.
  rewrite (control_connected_run _ p (set_state s (set_handler hdl c)));
    [ | mrun; reflexivity | exact Hp ].
  change (notify_connected_ret p _ _) with r3.
  case_bool_decide as H3; mrun.
  - rewrite insert_insert_eq.
    rewrite (cancel_operations_run fuel p _ _
               (set_state GB_CONNECTION_STATE_DISABLED
                  (set_state s (set_handler hdl c))));
      [ | mrun; reflexivity | exact Hnd | exact Hfuel ].
    mrun. rewrite insert_insert_eq.
    rewrite (svc_connection_destroy_run _ p
               (set_handler None (set_operations []
                  (set_state GB_CONNECTION_STATE_DISABLED
                     (set_state s (set_handler hdl c))))) h);
      [ | mrun; reflexivity | exact Hh | exact Hp ].
    mrun.
    rewrite (hd_cport_disable_run _ p
               (set_handler None (set_operations []
                  (set_state GB_CONNECTION_STATE_DISABLED
                     (set_state s (set_handler hdl c))))) h);
      [ | mrun; reflexivity | exact Hh ].
    mrun. rewrite insert_insert_eq, <- !app_assoc. reflexivity.
  - rewrite <- !app_assoc. reflexivity.
Qed.

Lemma gb_connection_disable_disabled_run fuel w p c :
  connections w !! p = Some c ->
  state c = GB_CONNECTION_STATE_DISABLED ->
  gb_connection_disable fuel p w =
  Done tt (with_log (log w ++ [EvAcquire (connection_mutex p);
                               EvRelease (connection_mutex p)]) w).
Proof.
  intros Hc Hs. unfold gb_connection_disable. mrun.
  rewrite bool_decide_true by exact Hs. mrun.
  rewrite <- !app_assoc. reflexivity.
Qed.

Lemma gb_connection_enable_enabled_run fuel w p c hdl :
  connections w !! p = Some c ->
  state c = GB_CONNECTION_STATE_ENABLED \/
  (state c = GB_CONNECTION_STATE_ENABLED_TX /\ hdl = None) ->
  gb_connection_enable fuel p hdl w =
  Done 0 (with_log (log w ++ [EvAcquire (connection_mutex p);
                              EvRelease (connection_mutex p)]) w).
Proof.
  intros Hc Hs. unfold gb_connection_enable, enable_out_unlock. mrun.
  destruct Hs as [Hs | [Hs ->]]; rewrite Hs.
  - rewrite bool_decide_true by reflexivity. mrun.
    rewrite <- !app_assoc. reflexivity.
  - rewrite bool_decide_false by discriminate.
    rewrite bool_decide_true by reflexivity. mrun.
    rewrite <- !app_assoc. reflexivity.
Qed.

Lemma gb_connection_enable_tx_run fuel w p c hd :
  connections w !! p = Some c ->
  state c = GB_CONNECTION_STATE_ENABLED_TX ->
  gb_connection_enable fuel p (Some hd) w =
  Done 0
    (World
       (<[p := set_state GB_CONNECTION_STATE_ENABLED
                 (set_handler (Some hd) c)]> (connections w))
       (host_devices w) (interfaces w) (bundles w)
       (log w ++ [EvAcquire (connection_mutex p);
                  EvAcquire (connection_lock p);
                  EvRelease (connection_lock p);
                  EvRelease (connection_mutex p)])).
Proof.
  intros Hc Hs. unfold gb_connection_enable, enable_out_unlock. mrun.
  rewrite Hs. rewrite bool_decide_false by discriminate.
  rewrite bool_decide_true by reflexivity. mrun.
  rewrite insert_insert_eq, <- !app_assoc. reflexivity.
Qed.

(** C9. A connection that is not Enabled is left as it is by
    [gb_connection_disable_rx]: the whole store is unchanged, and the only
    entries added to the log are the two locks taken and released, so no
    operation is cancelled. *)
Theorem gb_connection_disable_rx_not_enabled fuel w p c :
  connections w !! p = Some c ->
  state c <> GB_CONNECTION_STATE_ENABLED ->
  gb_connection_disable_rx fuel p w =
  Done tt (with_log (log w ++ [EvAcquire (connection_mutex p);
                               EvAcquire (connection_lock p);
                               EvRelease (connection_lock p);
                               EvRelease (connection_mutex p)]) w).
Proof.
  intros Hc Hs. unfold gb_connection_disable_rx. mrun.
  rewrite bool_decide_true by exact Hs. mrun.
  rewrite <- !app_assoc. reflexivity.
Qed.

(** C10. Destroying a NULL connection returns at once: the store and the
    log are exactly what they were, so no lock is taken, no registry list
    and no identifier map is written, and no reference is dropped. *)
Theorem gb_connection_destroy_null w :
  gb_connection_destroy None w = Done tt w.
Proof. reflexivity. Qed.

(** C5. [gb_connection_disable_rx] on an Enabled connection: the state
    becomes Enabled-Tx, the handler is cleared, the pending operations are
    the outgoing ones of before, in their order, and the log holds, between
    the locks, one cancellation with -ESHUTDOWN for each incoming operation
    and nothing for an outgoing one. *)
Theorem gb_connection_disable_rx_drains fuel w p c :
  connections w !! p = Some c ->
  NoDup (map op_addr (operations c)) ->
  (length (operations c) < fuel)%nat ->
  state c = GB_CONNECTION_STATE_ENABLED ->
  gb_connection_disable_rx fuel p w =
  Done tt
    (World
       (<[p := set_handler None
                 (set_operations (filter outgoing (operations c))
                    (set_state GB_CONNECTION_STATE_ENABLED_TX c))]>
          (connections w))
       (host_devices w) (interfaces w) (bundles w)
       (log w ++ [EvAcquire (connection_mutex p);
                  EvAcquire (connection_lock p)]
          ++ flat_map (flush_step p (- ESHUTDOWN))
               (filter incoming (operations c))
          ++ [EvRelease (connection_lock p);
              EvRelease (connection_mutex p)])).
Proof.
  intros Hc Hnd Hfuel Hs. unfold gb_connection_disable_rx. mrun.
  rewrite Hs. rewrite bool_decide_false by (intros H; apply H; reflexivity).
  mrun.
  rewrite (flush_incoming_operations_run fuel p _ _
             (set_state GB_CONNECTION_STATE_ENABLED_TX c));
    [ | mrun; reflexivity | exact Hnd | exact Hfuel ].
  mrun. rewrite !insert_insert_eq, <- !app_assoc. reflexivity.
Qed.

Lemma external_calls_app l1 l2 :
  external_calls (l1 ++ l2) = external_calls l1 ++ external_calls l2.
Proof. apply List.filter_app. Qed.

Lemma external_calls_cancel p errno l :
  external_calls (flat_map (cancel_step p errno) l) =
  map (cancel_request errno) l.
Proof.
  induction l as [|o l IH]; [reflexivity|].
  cbn [flat_map map]. rewrite external_calls_app, IH.
  unfold cancel_step, cancel_request. destruct (op_incoming o); reflexivity.
Qed.

(** C2. [gb_connection_disable]: from Disabled nothing happens but taking
    and releasing the connection mutex. From any other state the log
    grows by, in this order: the notification of the peer, the cancellation
    of every pending operation from the last one back with -ESHUTDOWN
    (under the connection lock), the request to the SVC to destroy the
    route, the call of the transport driver; the connection ends with state
    Disabled, no handler and no pending operation. In both cases the final
    state is Disabled. For a connection whose peer is notified, on a driver
    that can disable a cport, the calls into the other layers are, one after
    the other: disconnected, one cancellation per pending operation,
    destroy, cport disable. *)
Theorem gb_connection_disable_sequence fuel w p c h :
  connection_ok w p c h ->
  (length (operations c) < fuel)%nat ->
  (state c = GB_CONNECTION_STATE_DISABLED ->
   gb_connection_disable fuel p w =
   Done tt (with_log (log w ++ [EvAcquire (connection_mutex p);
                                EvRelease (connection_mutex p)]) w)) /\
  (state c <> GB_CONNECTION_STATE_DISABLED ->
   gb_connection_disable fuel p w =
   Done tt
     (World
        (<[p := set_handler None
                  (set_operations []
                     (set_state GB_CONNECTION_STATE_DISABLED c))]>
           (connections w))
        (host_devices w) (interfaces w) (bundles w)
        (log w ++ [EvAcquire (connection_mutex p)]
           ++ notify_disconnected_events p c (connection_peer w c)
           ++ [EvAcquire (connection_lock p)]
           ++ flat_map (cancel_step p (- ESHUTDOWN)) (rev (operations c))
           ++ [EvRelease (connection_lock p)]
           ++ route_destroy_events c h (connection_peer w c)
           ++ transport_disable_events c h
           ++ [EvRelease (connection_mutex p)]))) /\
  (exists w' c',
     gb_connection_disable fuel p w = Done tt w' /\
     connections w' !! p = Some c' /\
     state c' = GB_CONNECTION_STATE_DISABLED) /\
  (forall i itf ctl,
     state c <> GB_CONNECTION_STATE_DISABLED ->
     connection_peer w c = Some (i, itf, ctl) ->
     control_connection ctl <> Some p ->
     cport_disable (driver h) = true ->
     exists w',
       gb_connection_disable fuel p w = Done tt w' /\
       external_calls (drop (length (log w)) (log w')) =
         [EvControlDisconnected i (intf_cport_id c)]
           ++ map (cancel_request (- ESHUTDOWN)) (rev (operations c))
           ++ [EvSvcConnectionDestroy (ap_intf_id (svc h)) (hd_cport_id c)
                 (interface_id itf) (intf_cport_id c);
               EvCportDisable (conn_hd c) (hd_cport_id c)]).
Proof.
  intros Hok Hfuel.
  assert (Hc : connections w !! p = Some c) by apply Hok.
  split; [|split; [|split]].
  - intros Hs. exact (gb_connection_disable_disabled_run fuel w p c Hc Hs).
  - intros Hs. exact (gb_connection_disable_run fuel w p c h Hok Hfuel Hs).
  - destruct (decide (state c = GB_CONNECTION_STATE_DISABLED)) as [Hs|Hs].
    + eexists _, c. split; [|split].
      * exact (gb_connection_disable_disabled_run fuel w p c Hc Hs).
      * exact Hc.
      * exact Hs.
    + eexists _, _. split; [|split].
      * exact (gb_connection_disable_run fuel w p c h Hok Hfuel Hs).
      * cbn. apply lookup_insert_eq.
      * reflexivity.
  - intros i itf ctl Hs Hpeer Hown Hdrv.
    eexists. split; [exact (gb_connection_disable_run fuel w p c h Hok Hfuel Hs)|].
    cbn [log]. rewrite drop_app_length, Hpeer.
    rewrite !external_calls_app, external_calls_cancel.
    unfold notify_disconnected_events, peer_is_notified, route_destroy_events,
      transport_disable_events.
    rewrite bool_decide_false by (intros H; apply Hown; symmetry; exact H).
    rewrite Hdrv. cbn [negb]. cbn zeta.
    case_bool_decide; reflexivity.
Qed.


Lemma route_calls_app l1 l2 :
  route_calls (l1 ++ l2) = route_calls l1 ++ route_calls l2.
Proof. apply List.filter_app. Qed.

Lemma notify_calls_app l1 l2 :
  notify_calls (l1 ++ l2) = notify_calls l1 ++ notify_calls l2.
Proof. apply List.filter_app. Qed.

Lemma route_calls_cancel p errno l :
  route_calls (flat_map (cancel_step p errno) l) = [].
Proof.
  induction l as [|o l IH]; [reflexivity|].
  cbn [flat_map]. rewrite route_calls_app, IH.
  unfold cancel_step. destruct (op_incoming o); reflexivity.
Qed.

Lemma notify_calls_cancel p errno l :
  notify_calls (flat_map (cancel_step p errno) l) = [].
Proof.
  induction l as [|o l IH]; [reflexivity|].
  cbn [flat_map]. rewrite notify_calls_app, IH.
  unfold cancel_step. destruct (op_incoming o); reflexivity.
Qed.

Lemma route_calls_transport_enable c h :
  route_calls (transport_enable_events c h) = [].
Proof.
  unfold transport_enable_events.
  destruct (cport_enable (driver h)); [|reflexivity].
  case_bool_decide; reflexivity.
Qed.

Lemma notify_calls_transport_enable c h :
  notify_calls (transport_enable_events c h) = [].
Proof.
  unfold transport_enable_events.
  destruct (cport_enable (driver h)); [|reflexivity].
  case_bool_decide; reflexivity.
Qed.

Lemma route_calls_transport_disable c h :
  route_calls (transport_disable_events c h) = [].
Proof.
  unfold transport_disable_events.
  destruct (cport_disable (driver h)); reflexivity.
Qed.

Lemma notify_calls_transport_disable c h :
  notify_calls (transport_disable_events c h) = [].
Proof.
  unfold transport_disable_events.
  destruct (cport_disable (driver h)); reflexivity.
Qed.

Lemma notify_calls_route_create c h peer :
  notify_calls (route_create_events c h peer) = [].
Proof.
  destruct peer as [[[i itf] ctl]|]; [|reflexivity].
  unfold route_create_events. case_bool_decide; reflexivity.
Qed.

Lemma notify_calls_route_destroy c h peer :
  notify_calls (route_destroy_events c h peer) = [].
Proof. destruct peer as [[[i itf] ctl]|]; reflexivity. Qed.

Lemma route_calls_notify_connected p c peer :
  route_calls (notify_connected_events p c peer) = [].
Proof.
  destruct peer as [[[i itf] ctl]|]; [|reflexivity].
  unfold notify_connected_events.
  destruct (peer_is_notified p _); [|reflexivity].
  case_bool_decide; reflexivity.
Qed.

Lemma route_calls_notify_disconnected p c peer :
  route_calls (notify_disconnected_events p c peer) = [].
Proof.
  destruct peer as [[[i itf] ctl]|]; [|reflexivity].
  unfold notify_disconnected_events.
  destruct (peer_is_notified p _); [|reflexivity].
  cbn zeta. case_bool_decide; reflexivity.
Qed.

Lemma route_calls_route_create c h peer :
  route_calls (route_create_events c h peer) =
  match peer with
  | None => []
  | Some (_, itf, _) =>
      [EvSvcConnectionCreate (ap_intf_id (svc h)) (hd_cport_id c)
         (interface_id itf) (intf_cport_id c) (boot_over_unipro itf)]
  end.
Proof.
  destruct peer as [[[i itf] ctl]|]; [|reflexivity].
  unfold route_create_events. case_bool_decide; reflexivity.
Qed.

Lemma route_calls_route_destroy c h peer :
  route_calls (route_destroy_events c h peer) = route_destroy_events c h peer.
Proof. destruct peer as [[[i itf] ctl]|]; reflexivity. Qed.

Lemma notify_calls_own_control p c i itf ctl :
  control_connection ctl = Some p ->
  notify_connected_events p c (Some (i, itf, ctl)) = [] /\
  notify_disconnected_events p c (Some (i, itf, ctl)) = [] /\
  notify_connected_ret p c (Some (i, itf, ctl)) = 0.
Proof.
  intros Hown.
  unfold notify_connected_events, notify_disconnected_events,
    notify_connected_ret, peer_is_notified.
  rewrite bool_decide_true by (symmetry; exact Hown). auto.
Qed.

Ltac calls_simpl :=
  rewrite ?route_calls_app, ?notify_calls_app, ?route_calls_cancel,
    ?notify_calls_cancel, ?route_calls_transport_enable,
    ?notify_calls_transport_enable, ?route_calls_transport_disable,
    ?notify_calls_transport_disable, ?notify_calls_route_create,
    ?notify_calls_route_destroy, ?route_calls_notify_connected,
    ?route_calls_notify_disconnected, ?route_calls_route_create,
    ?route_calls_route_destroy;
  cbn [route_calls notify_calls List.filter is_route_call is_notify_call app].

Lemma gb_connection_enable_calls fuel w p c h hdl :
  connection_ok w p c h ->
  (length (operations c) < fuel)%nat ->
  let peer := connection_peer w c in
  let r1 := transport_enable_ret c h in
  let r2 := route_create_ret c h peer in
  let r3 := notify_connected_ret p c peer in
  exists ret w' evs,
    gb_connection_enable fuel p hdl w = Done ret w' /\
    log w' = log w ++ evs /\
    notify_calls evs =
      (if decide (state c = GB_CONNECTION_STATE_DISABLED /\ r1 = 0 /\ r2 = 0)
       then notify_calls (notify_connected_events p c peer) else []) /\
    route_calls evs =
      (if decide (state c = GB_CONNECTION_STATE_DISABLED /\ r1 = 0)
       then route_calls (route_create_events c h peer)
            ++ (if decide (r2 = 0 /\ r3 <> 0)
                then route_destroy_events c h peer else [])
       else []).
Proof.
  intros Hok Hfuel peer r1 r2 r3.
  assert (Hc : connections w !! p = Some c) by apply Hok.
  destruct (state c) eqn:Hs.
  - pose proof (gb_connection_enable_run fuel w p c h hdl Hok Hfuel Hs) as Hrun.
    cbn zeta in Hrun. fold peer r1 r2 r3 in Hrun.
    destruct (decide (r1 = 0)) as [H1|H1].
    + rewrite bool_decide_false in Hrun by (intros H; apply H; exact H1).
      destruct (decide (r2 = 0)) as [H2|H2].
      * rewrite bool_decide_false in Hrun by (intros H; apply H; exact H2).
        destruct (decide (r3 = 0)) as [H3|H3].
        -- rewrite bool_decide_false in Hrun by (intros H; apply H; exact H3).
           eexists _, _, _. split; [exact Hrun|]. split; [reflexivity|].
           rewrite decide_True by auto. rewrite decide_True by auto.
           rewrite decide_False by ptauto.
           split; calls_simpl; rewrite ?app_nil_r; reflexivity.
        -- rewrite bool_decide_true in Hrun by exact H3.
           eexists _, _, _. split; [exact Hrun|]. split; [reflexivity|].
           rewrite decide_True by auto. rewrite decide_True by auto.
           rewrite decide_True by ptauto.
           split; calls_simpl; rewrite ?app_nil_r; reflexivity.
      * rewrite bool_decide_true in Hrun by exact H2.
        eexists _, _, _. split; [exact Hrun|]. split; [reflexivity|].
        rewrite decide_False by ptauto. rewrite decide_True by auto.
        rewrite decide_False by ptauto.
        split; calls_simpl; rewrite ?app_nil_r; reflexivity.
    + rewrite bool_decide_true in Hrun by exact H1.
      eexists _, _, _. split; [exact Hrun|]. split; [reflexivity|].
      rewrite !decide_False by ptauto.
      split; calls_simpl; reflexivity.
  - rewrite !decide_False by (intros [? _]; discriminate).
    destruct hdl as [hd|].
    + eexists _, _, _.
      split; [exact (gb_connection_enable_tx_run fuel w p c hd Hc Hs)|].
      split; [reflexivity|]. split; reflexivity.
    + eexists _, _, _.
      split; [apply (gb_connection_enable_enabled_run fuel w p c None Hc); auto|].
      split; [reflexivity|]. split; reflexivity.
  - rewrite !decide_False by (intros [? _]; discriminate).
    eexists _, _, _.
    split; [apply (gb_connection_enable_enabled_run fuel w p c hdl Hc); auto|].
    split; [reflexivity|]. split; reflexivity.
Qed.

Lemma gb_connection_disable_calls fuel w p c h :
  connection_ok w p c h ->
  (length (operations c) < fuel)%nat ->
  let peer := connection_peer w c in
  exists w' evs,
    gb_connection_disable fuel p w = Done tt w' /\
    log w' = log w ++ evs /\
    notify_calls evs =
      (if decide (state c = GB_CONNECTION_STATE_DISABLED) then []
       else notify_calls (notify_disconnected_events p c peer)) /\
    route_calls evs =
      (if decide (state c = GB_CONNECTION_STATE_DISABLED) then []
       else route_destroy_events c h peer).
Proof.
  intros Hok Hfuel peer.
  assert (Hc : connections w !! p = Some c) by apply Hok.
  destruct (decide (state c = GB_CONNECTION_STATE_DISABLED)) as [Hs|Hs].
  - eexists _, _.
    split; [exact (gb_connection_disable_disabled_run fuel w p c Hc Hs)|].
    split; [reflexivity|]. split; reflexivity.
  - eexists _, _.
    split; [exact (gb_connection_disable_run fuel w p c h Hok Hfuel Hs)|].
    split; [reflexivity|].
    split; calls_simpl; rewrite ?app_nil_r; reflexivity.
Qed.

(** C8. A static connection: neither [gb_connection_enable] nor
    [gb_connection_disable] calls the SVC or notifies a peer, whatever the
    state and the handler. The control connection of an interface: neither
    notifies the peer, while the SVC is still asked to create the route when
    a Disabled connection is enabled (once the transport channel is on) and
    to destroy it when a connection that is not Disabled is disabled. *)
Theorem static_and_control_connections_skip_calls fuel w p c h hdl :
  connection_ok w p c h ->
  (length (operations c) < fuel)%nat ->
  (conn_intf c = None ->
   exists ret w1 e1 w2 e2,
     gb_connection_enable fuel p hdl w = Done ret w1 /\
     log w1 = log w ++ e1 /\
     gb_connection_disable fuel p w = Done tt w2 /\
     log w2 = log w ++ e2 /\
     route_calls e1 = [] /\ notify_calls e1 = [] /\
     route_calls e2 = [] /\ notify_calls e2 = []) /\
  (forall i itf ctl,
     connection_peer w c = Some (i, itf, ctl) ->
     control_connection ctl = Some p ->
     exists ret w1 e1 w2 e2,
       gb_connection_enable fuel p hdl w = Done ret w1 /\
       log w1 = log w ++ e1 /\
       gb_connection_disable fuel p w = Done tt w2 /\
       log w2 = log w ++ e2 /\
       notify_calls e1 = [] /\ notify_calls e2 = [] /\
       (state c = GB_CONNECTION_STATE_DISABLED ->
        transport_enable_ret c h = 0 ->
        route_calls e1 =
          [EvSvcConnectionCreate (ap_intf_id (svc h)) (hd_cport_id c)
             (interface_id itf) (intf_cport_id c) (boot_over_unipro itf)]) /\
       (state c <> GB_CONNECTION_STATE_DISABLED ->
        route_calls e2 =
          [EvSvcConnectionDestroy (ap_intf_id (svc h)) (hd_cport_id c)
             (interface_id itf) (intf_cport_id c)])).
Proof.
  intros Hok Hfuel.
  destruct (gb_connection_enable_calls fuel w p c h hdl Hok Hfuel)
    as (ret & w1 & e1 & Hen & Hl1 & Hn1 & Hr1).
  destruct (gb_connection_disable_calls fuel w p c h Hok Hfuel)
    as (w2 & e2 & Hdis & Hl2 & Hn2 & Hr2).
  split.
  - intros Hstatic. rewrite (peer_static w c Hstatic) in *.
    exists ret, w1, e1, w2, e2.
    repeat (split; [assumption|]).
    cbn in Hn1, Hr1, Hn2, Hr2.
    repeat split.
    + rewrite Hr1. repeat case_decide; reflexivity.
    + rewrite Hn1. repeat case_decide; reflexivity.
    + rewrite Hr2. repeat case_decide; reflexivity.
    + rewrite Hn2. repeat case_decide; reflexivity.
  - intros i itf ctl Hpeer Hown. rewrite Hpeer in *.
    destruct (notify_calls_own_control p c i itf ctl Hown) as (Hnc & Hnd & Hret).
    rewrite Hnc in Hn1. rewrite Hnd in Hn2. rewrite Hret in Hr1.
    exists ret, w1, e1, w2, e2.
    repeat (split; [assumption|]).
    repeat split.
    + rewrite Hn1. repeat case_decide; reflexivity.
    + rewrite Hn2. repeat case_decide; reflexivity.
    + intros Hs H1. rewrite Hr1. rewrite decide_True by auto.
      rewrite route_calls_route_create.
      rewrite decide_False by (intros [_ H]; apply H; reflexivity).
      reflexivity.
    + intros Hs. rewrite Hr2. rewrite decide_False by exact Hs. reflexivity.
Qed.

Lemma int32_small (z : Z) : -2147483648 <= z < 2147483648 -> int32 z = z.
Proof. intros H. unfold int32. rewrite Z.mod_small by lia. lia. Qed.

Lemma hd_find_entry_none (id : Z) (l : list addr) (w : world) :
  no_local_id w id l -> hd_find_entry id l w = Done None w.
Proof.
  induction 1 as [|q l (cq & Hq & Hid) _ IH]; [reflexivity|].
  cbn [hd_find_entry]. mrun. rewrite bool_decide_false by exact Hid. exact IH.
Qed.

Lemma hd_find_entry_some (id : Z) (l1 l2 : list addr) (q : addr)
    (cq : gb_connection) (w : world) :
  no_local_id w id l1 ->
  connections w !! q = Some cq ->
  hd_cport_id cq = id ->
  hd_find_entry id (l1 ++ q :: l2) w =
  Done (Some q)
    (with_connections
       (<[q := set_kref (int32 (kref cq + 1)) cq]> (connections w)) w).
Proof.
  intros Hl1 Hq Hid.
  induction Hl1 as [|q' l (cq' & Hq' & Hid') _ IH]; cbn [app hd_find_entry].
  - unfold gb_connection_get. mrun.
    rewrite bool_decide_true by exact Hid. mrun. reflexivity.
  - mrun. rewrite bool_decide_false by exact Hid'. exact IH.
Qed.

(** C7. Data received for a local id. When no connection of the host device
    has that id, the call ends normally, the store is untouched and the log
    grows by the registry lock, taken and released, and one diagnostic
    naming the length dropped. When the first connection with that id is
    [q], the delivery [gb_connection_recv] runs in a store where the
    reference count of [q] is one more than before, and is followed by
    [gb_connection_put], which takes that count back without freeing the
    connection. *)
Theorem greybus_data_rcvd_dispatch w hd h id data length :
  host_devices w !! hd = Some h ->
  (no_local_id w id (hd_connections h) ->
   greybus_data_rcvd hd id data length w =
   Done tt
     (with_log (log w ++ [EvAcquire gb_connections_lock;
                          EvRelease gb_connections_lock;
                          EvDevErr (hd_dev hd) (nonexistent_connection length)])
        w)) /\
  (forall l1 q l2 cq,
     hd_connections h = l1 ++ q :: l2 ->
     no_local_id w id l1 ->
     connections w !! q = Some cq ->
     hd_cport_id cq = id ->
     1 <= kref cq < 2147483647 ->
     greybus_data_rcvd hd id data length w =
     (gb_connection_recv q data length ≫= fun _ => gb_connection_put q)
       (World (<[q := set_kref (kref cq + 1) cq]> (connections w))
          (host_devices w) (interfaces w) (bundles w)
          (log w ++ [EvAcquire gb_connections_lock;
                     EvRelease gb_connections_lock])) /\
     (forall w2 c2,
        connections w2 !! q = Some c2 ->
        kref c2 = kref cq + 1 ->
        gb_connection_put q w2 =
        Done tt
          (with_connections (<[q := set_kref (kref cq) c2]> (connections w2))
             w2))).
Proof.
  intros Hh. split.
  - intros Hnone. unfold greybus_data_rcvd, gb_connection_hd_find. mrun.
    rewrite hd_find_entry_none by exact Hnone. mrun.
    rewrite <- !app_assoc. reflexivity.
  - intros l1 q l2 cq Hl Hl1 Hq Hid Hk. split.
    + unfold greybus_data_rcvd, gb_connection_hd_find. mrun.
      rewrite Hl.
      rewrite (hd_find_entry_some id l1 l2 q cq);
        [ | exact Hl1 | exact Hq | exact Hid ].
      mrun.
      rewrite int32_small by lia. rewrite <- !app_assoc. reflexivity.
    + intros w2 c2 Hc2 Hk2. unfold gb_connection_put, gb_connection_kref_release.
      mrun. rewrite Hk2.
      replace (kref cq + 1 - 1) with (kref cq) by lia.
      rewrite int32_small by lia.
      rewrite bool_decide_false by lia. mrun. reflexivity.
Qed.

Lemma intf_find_entry_none intf id l w :
  Forall (fun q => exists cq, connections w !! q = Some cq /\
                              ~ bound_to intf id cq) l ->
  intf_find_entry intf id l w = Done None w.
Proof.
  induction 1 as [|q l (cq & Hq & Hn) _ IH]; [reflexivity|].
  cbn [intf_find_entry]. mrun. rewrite bool_decide_false by exact Hn. exact IH.
Qed.

Lemma intf_find_entry_found intf id l w :
  Forall (fun q => is_Some (connections w !! q)) l ->
  (exists q cq, q ∈ l /\ connections w !! q = Some cq /\ bound_to intf id cq) ->
  exists q, intf_find_entry intf id l w = Done (Some q) w.
Proof.
  induction 1 as [|q l [cq Hq] _ IH]; intros (q' & cq' & Hin & Hq' & Hb).
  - apply not_elem_of_nil in Hin. destruct Hin.
  - cbn [intf_find_entry]. mrun.
    destruct (decide (bound_to intf id cq)) as [Hy|Hn].
    + rewrite bool_decide_true by exact Hy. exists q. reflexivity.
    + rewrite bool_decide_false by exact Hn. apply IH.
      apply elem_of_cons in Hin as [->|Hin].
      * congruence.
      * eauto.
Qed.

(** C3. Creating a connection for an interface and a remote id to which a
    live connection of that interface is already bound: the result is NULL,
    the store is what it was, identifier map included, and the log holds one
    diagnostic and no call to the identifier allocator: for a request out of
    range the one about the range, otherwise the one about the remote id,
    between taking and releasing the global mutex. *)
Theorem gb_connection_create_duplicate w hd h hd_cport_id intf itf h'
    bundle cport_id :
  host_devices w !! hd = Some h ->
  interfaces w !! intf = Some itf ->
  host_devices w !! intf_hd itf = Some h' ->
  Forall (fun q => is_Some (connections w !! q)) (hd_connections h') ->
  (exists q cq, q ∈ hd_connections h' /\ connections w !! q = Some cq /\
                bound_to intf (u16 cport_id) cq) ->
  gb_connection_create hd hd_cport_id (Some intf) bundle cport_id w =
  Done None
    (with_log
       (log w ++
        (if bool_decide (hd_cport_id < 0 \/ hd_cport_id < num_cports h)
         then [EvAcquire gb_connection_mutex;
               EvDevErr (intf_dev intf)
                 (cport_already_in_use (cport_id mod 4294967296));
               EvRelease gb_connection_mutex]
         else [EvDevErr (hd_dev hd) (cport_not_available hd_cport_id)]))
       w).
Proof.
  intros Hh Hi Hh' Hvalid Hdup.
  assert (Hlocked : forall lo hi,
    gb_connection_create_locked hd lo hi (Some intf) bundle cport_id w =
    Done None
      (with_log (log w ++ [EvAcquire gb_connection_mutex;
                           EvDevErr (intf_dev intf)
                             (cport_already_in_use (cport_id mod 4294967296));
                           EvRelease gb_connection_mutex]) w)).
  { intros lo hi.
    unfold gb_connection_create_locked, gb_connection_intf_find,
      create_err_unlock.
    mrun.
    destruct (intf_find_entry_found intf (u16 cport_id) (hd_connections h')
                (World (connections w) (host_devices w) (interfaces w)
                   (bundles w) (log w ++ [EvAcquire gb_connection_mutex]))
                Hvalid Hdup) as [q Hq].
    rewrite Hq. mrun. rewrite <- !app_assoc. reflexivity. }
  unfold gb_connection_create. mrun.
  case_bool_decide as Hneg.
  - rewrite bool_decide_true by auto. apply Hlocked.
  - case_bool_decide as Hlt.
    + rewrite bool_decide_true by auto. apply Hlocked.
    + rewrite bool_decide_false by ptauto. mrun. reflexivity.
Qed.

Lemma find_first_free (m : gset Z) (lo hi id : Z) :
  first_free m lo hi id ->
  List.find (fun j => bool_decide (j ∉ m)) (seqZ lo (hi - lo)) = Some id.
Proof.
  intros (Hr & Hfree & Hbelow).
  remember (Z.to_nat (id - lo)) as n eqn:Hn.
  revert lo Hr Hbelow Hn. induction n as [|n IH]; intros lo Hr Hbelow Hn.
  - assert (lo = id) as -> by lia.
    rewrite seqZ_cons by lia. cbn [List.find].
    rewrite bool_decide_true by exact Hfree. reflexivity.
  - rewrite seqZ_cons by lia. cbn [List.find].
    rewrite bool_decide_false by (intros H; apply H, Hbelow; lia).
    replace (Z.pred (hi - lo)) with (hi - Z.succ lo) by lia.
    apply IH; [lia | intros j Hj; apply Hbelow; lia | lia].
Qed.

Lemma create_range_cases (h : gb_host_device) (req : Z) (A : Type)
    (f : Z -> Z -> A) (g : A) :
  req < num_cports h ->
  (if bool_decide (req < 0) then f 0 (num_cports h)
   else if bool_decide (req < num_cports h) then f req (req + 1)
   else g) =
  f (requested_range h req).1 (requested_range h req).2.
Proof.
  intros Hreq. unfold requested_range.
  case_bool_decide; [reflexivity|].
  rewrite bool_decide_true by exact Hreq. reflexivity.
Qed.

Lemma intf_find_none w intf cport_id l :
  no_duplicate w (Some intf) cport_id ->
  gb_connection_intf_find intf (u16 cport_id)
    (World (connections w) (host_devices w) (interfaces w) (bundles w) l) =
  Done None
    (World (connections w) (host_devices w) (interfaces w) (bundles w) l).
Proof.
  intros (itf & h & Hi & Hh & Hall). unfold gb_connection_intf_find. mrun.
  apply intf_find_entry_none. exact Hall.
Qed.

(** C4. A creation that reaches [alloc_workqueue] and gets no workqueue:
    the request is in range, no connection is bound to the interface and
    remote id, [id] is the id the allocator hands out and the object is
    allocated. The result is NULL and the store is what it was before the
    call: the id map no longer holds [id], no object is left at the address
    that was allocated, and neither registry list has changed. The log
    shows the id reserved and released, and the object allocated and
    freed, inside the global mutex. *)
Theorem gb_connection_create_workqueue_failure w hd h hd_cport_id intf
    bundle cport_id id :
  host_devices w !! hd = Some h ->
  hd_cport_id < num_cports h ->
  no_duplicate w intf cport_id ->
  ida_pre_get = true ->
  kzalloc_ok = true ->
  first_free (cport_id_map h) (requested_range h hd_cport_id).1
    (requested_range h hd_cport_id).2 id ->
  alloc_workqueue hd id = None ->
  gb_connection_create hd hd_cport_id intf bundle cport_id w =
  Done None
    (with_log
       (log w ++ [EvAcquire gb_connection_mutex;
                  EvIdaGet hd id;
                  EvKzalloc (fresh (dom (connections w)));
                  EvKfree (fresh (dom (connections w)));
                  EvIdaRemove hd id;
                  EvRelease gb_connection_mutex])
       w).
Proof.
  intros Hh Hreq Hdup Hida Hkz Hfree Hwq.
  unfold gb_connection_create. mrun.
  rewrite (create_range_cases h hd_cport_id _
             (fun lo hi => gb_connection_create_locked hd lo hi intf bundle
                             cport_id)) by exact Hreq.
  set (lo := (requested_range h hd_cport_id).1) in *.
  set (hi := (requested_range h hd_cport_id).2) in *.
  assert (Hid0 : ¬ id < 0).
  { destruct Hfree as (Hr & _). unfold lo, requested_range in Hr.
    case_bool_decide; cbn in Hr; lia. }
  unfold gb_connection_create_locked, create_err_free_connection,
    create_err_remove_ida, create_err_unlock, ida_simple_get,
    ida_simple_remove, kzalloc, kfree.
  assert (Hmap : ({[id]} ∪ cport_id_map h) ∖ {[id]} = cport_id_map h).
  { destruct Hfree as (_ & Hnot & _). apply set_eq. intros x.
    rewrite elem_of_difference, elem_of_union, !elem_of_singleton. split.
    - intros [[Hx|Hx] Hne]; [contradiction | exact Hx].
    - intros Hx. split; [right; exact Hx | intros ->; contradiction]. }
  assert (Heta : {| hd_connections := hd_connections h;
                    cport_id_map := cport_id_map h;
                    num_cports := num_cports h;
                    driver := driver h; svc := svc h |} = h)
    by (destruct h; reflexivity).
  mrun.
  destruct intf as [i|]; [rewrite intf_find_none by exact Hdup|];
  (mrun; rewrite Hida; cbn [negb];
   rewrite (find_first_free _ lo hi id Hfree); mrun;
   rewrite bool_decide_false by exact Hid0;
   rewrite Hkz; mrun; rewrite Hwq; mrun;
   rewrite !insert_insert_eq, delete_insert_id
     by (apply not_elem_of_dom, is_fresh);
   rewrite Hmap, Heta, insert_id by exact Hh;
   rewrite <- !app_assoc; reflexivity).
Qed.

Lemma cancelled_cancel_steps p errno l :
  cancelled (flat_map (cancel_step p errno) l) = l.
Proof.
  induction l as [|o l IH]; [reflexivity|].
  cbn [flat_map]. unfold cancelled in *. rewrite flat_map_app, IH.
  unfold cancel_step. destruct (op_incoming o); reflexivity.
Qed.

Lemma cancelled_flush_steps p errno l :
  cancelled (flat_map (flush_step p errno) l) = l.
Proof.
  induction l as [|o l IH]; [reflexivity|].
  cbn [flat_map]. unfold cancelled in *. rewrite flat_map_app, IH.
  reflexivity.
Qed.

(** C6, as amended. The full cancel requests the cancellation of the
    pending operations from the tail of the list to its head: the last one
    first, then the last of those that remain. The incoming-only drain
    requests the cancellation of the incoming operations from the head of
    the list to its tail: the first incoming one found by a scan from the
    head, then the first of those that remain. *)
Theorem cancellation_order fuel p errno w c :
  connections w !! p = Some c ->
  NoDup (map op_addr (operations c)) ->
  (length (operations c) < fuel)%nat ->
  (exists w',
     gb_connection_cancel_operations fuel p errno w = Done tt w' /\
     cancelled (drop (length (log w)) (log w')) = rev (operations c)) /\
  (exists w',
     gb_connection_flush_incoming_operations fuel p errno w = Done tt w' /\
     cancelled (drop (length (log w)) (log w')) =
       filter incoming (operations c)).
Proof.
  intros Hc Hnd Hfuel. split.
  - eexists. split; [exact (cancel_operations_run fuel p errno w c Hc Hnd Hfuel)|].
    cbn [log]. rewrite drop_app_length. apply cancelled_cancel_steps.
  - eexists.
    split; [exact (flush_incoming_operations_run fuel p errno w c Hc Hnd Hfuel)|].
    cbn [log]. rewrite drop_app_length. apply cancelled_flush_steps.
Qed.

Lemma gb_connection_create_run w hd h hd_cport_id intf bundle cport_id id wa :
  host_devices w !! hd = Some h ->
  hd_cport_id < num_cports h ->
  no_duplicate w intf cport_id ->
  match bundle with
  | Some b => is_Some (bundles w !! b)
  | None => True
  end ->
  ida_pre_get = true ->
  kzalloc_ok = true ->
  first_free (cport_id_map h) (requested_range h hd_cport_id).1
    (requested_range h hd_cport_id).2 id ->
  alloc_workqueue hd id = Some wa ->
  let p := fresh (dom (connections w)) in
  gb_connection_create hd hd_cport_id intf bundle cport_id w =
  Done (Some p)
    (World
       (<[p := created_connection w hd intf bundle id cport_id wa]>
          (connections w))
       (<[hd := {| hd_connections := p :: hd_connections h;
                   cport_id_map := {[ id ]} ∪ cport_id_map h;
                   num_cports := num_cports h;
                   driver := driver h; svc := svc h |}]> (host_devices w))
       (interfaces w)
       (bundles_with w bundle p)
       (log w ++ [EvAcquire gb_connection_mutex;
                  EvIdaGet hd id;
                  EvKzalloc p;
                  EvAllocWorkqueue wa;
                  EvAcquire gb_connections_lock;
                  EvRelease gb_connections_lock;
                  EvRelease gb_connection_mutex])).
Proof.
  intros Hh Hreq Hdup Hb Hida Hkz Hfree Hwq p.
  unfold gb_connection_create. mrun.
  rewrite (create_range_cases h hd_cport_id _
             (fun lo hi => gb_connection_create_locked hd lo hi intf bundle
                             cport_id)) by exact Hreq.
  set (lo := (requested_range h hd_cport_id).1) in *.
  set (hi := (requested_range h hd_cport_id).2) in *.
  assert (Hid0 : ¬ id < 0).
  { destruct Hfree as (Hr & _). unfold lo, requested_range in Hr.
    case_bool_decide; cbn in Hr; lia. }
  unfold gb_connection_create_locked, gb_connection_init_name,
    ida_simple_get, kzalloc.
  unfold created_connection, connection_label, bundles_with. fold p.
  mrun.
  destruct intf as [i|].
  - rewrite intf_find_none by exact Hdup.
    destruct Hdup as (itf & h' & Hi & _).
    mrun. rewrite Hida. cbn [negb].
    rewrite (find_first_free _ lo hi id Hfree). mrun.
    rewrite bool_decide_false by exact Hid0.
    rewrite Hkz. fold p. mrun. rewrite Hwq. mrun.
    rewrite !insert_insert_eq.
    destruct bundle as [b|].
    + destruct Hb as [bd Hbd]. mrun.
      rewrite <- !app_assoc. reflexivity.
    + mrun. rewrite <- !app_assoc. reflexivity.
  - mrun. rewrite Hida. cbn [negb].
    rewrite (find_first_free _ lo hi id Hfree). mrun.
    rewrite bool_decide_false by exact Hid0.
    rewrite Hkz. fold p. mrun. rewrite Hwq. mrun.
    rewrite !insert_insert_eq.
    destruct bundle as [b|].
    + destruct Hb as [bd Hbd]. mrun.
      rewrite <- !app_assoc. reflexivity.
    + mrun. rewrite <- !app_assoc. reflexivity.
Qed.

Lemma gb_connection_create_starts_disabled w hd h requested intf bundle
    cport_id id wa :
  host_devices w !! hd = Some h ->
  requested < num_cports h ->
  no_duplicate w intf cport_id ->
  match bundle with
  | Some b => is_Some (bundles w !! b)
  | None => True
  end ->
  ida_pre_get = true ->
  kzalloc_ok = true ->
  first_free (cport_id_map h) (requested_range h requested).1
    (requested_range h requested).2 id ->
  alloc_workqueue hd id = Some wa ->
  exists p w' c',
    gb_connection_create hd requested intf bundle cport_id w
      = Done (Some p) w' /\
    connections w !! p = None /\
    connections w' !! p = Some c' /\
    state c' = GB_CONNECTION_STATE_DISABLED /\
    handler c' = None /\
    operations c' = [] /\
    kref c' = 1 /\
    hd_cport_id c' = u16 id.
Proof.
  intros Hh Hreq Hdup Hb Hida Hkz Hfree Hwq.
  eexists _, _, _.
  split; [exact (gb_connection_create_run w hd h requested intf bundle
                   cport_id id wa Hh Hreq Hdup Hb Hida Hkz Hfree Hwq)|].
  split; [apply not_elem_of_dom, is_fresh|].
  split; [cbn; apply lookup_insert_eq|].
  repeat split; reflexivity.
Qed.

Lemma gb_connection_enable_keeps_handler_invariant fuel w p c h hdl :
  connection_ok w p c h ->
  (length (operations c) < fuel)%nat ->
  disabled_without_handler c ->
  exists ret w' c',
    gb_connection_enable fuel p hdl w = Done ret w' /\
    connections w' !! p = Some c' /\
    disabled_without_handler c'.
Proof.
  intros Hok Hfuel Hinv.
  assert (Hc : connections w !! p = Some c) by apply Hok.
  destruct (state c) eqn:Hs.
  - pose proof (gb_connection_enable_run fuel w p c h hdl Hok Hfuel Hs) as Hrun.
    cbn zeta in Hrun.
    repeat case_bool_decide.
    + eexists _, _, c. split; [exact Hrun|]. split; [exact Hc|]. exact Hinv.
    + eexists _, _, c. split; [exact Hrun|]. split; [exact Hc|]. exact Hinv.
    + eexists _, _, _. split; [exact Hrun|].
      split; [cbn; apply lookup_insert_eq|]. intros _. reflexivity.
    + eexists _, _, _. split; [exact Hrun|].
      split; [cbn; apply lookup_insert_eq|].
      unfold disabled_without_handler. cbn.
      destruct hdl; discriminate.
  - destruct hdl as [hd|].
    + eexists _, _, _.
      split; [exact (gb_connection_enable_tx_run fuel w p c hd Hc Hs)|].
      split; [cbn; apply lookup_insert_eq|]. discriminate.
    + eexists _, _, c.
      split; [apply (gb_connection_enable_enabled_run fuel w p c None Hc);
              right; split; [exact Hs | reflexivity]|].
      split; [exact Hc|]. exact Hinv.
  - eexists _, _, c.
    split; [apply (gb_connection_enable_enabled_run fuel w p c hdl Hc);
            left; exact Hs|].
    split; [exact Hc|]. exact Hinv.
Qed.

Lemma gb_connection_disable_keeps_handler_invariant fuel w p c h :
  connection_ok w p c h ->
  (length (operations c) < fuel)%nat ->
  disabled_without_handler c ->
  exists w' c',
    gb_connection_disable fuel p w = Done tt w' /\
    connections w' !! p = Some c' /\
    disabled_without_handler c'.
Proof.
  intros Hok Hfuel Hinv.
  assert (Hc : connections w !! p = Some c) by apply Hok.
  destruct (decide (state c = GB_CONNECTION_STATE_DISABLED)) as [Hs|Hs].
  - eexists _, c.
    split; [exact (gb_connection_disable_disabled_run fuel w p c Hc Hs)|].
    split; [exact Hc|]. exact Hinv.
  - eexists _, _.
    split; [exact (gb_connection_disable_run fuel w p c h Hok Hfuel Hs)|].
    split; [cbn; apply lookup_insert_eq|]. intros _. reflexivity.
Qed.

Lemma gb_connection_disable_rx_keeps_handler_invariant fuel w p c :
  connections w !! p = Some c ->
  NoDup (map op_addr (operations c)) ->
  (length (operations c) < fuel)%nat ->
  disabled_without_handler c ->
  exists w' c',
    gb_connection_disable_rx fuel p w = Done tt w' /\
    connections w' !! p = Some c' /\
    disabled_without_handler c'.
Proof.
  intros Hc Hnd Hfuel Hinv. unfold gb_connection_disable_rx. mrun.
  case_bool_decide as Hs; mrun.
  - eexists _, c. split; [reflexivity|]. split; [exact Hc|]. exact Hinv.
  - rewrite (flush_incoming_operations_run fuel p _ _
               (set_state GB_CONNECTION_STATE_ENABLED_TX c));
      [ | mrun; reflexivity | exact Hnd | exact Hfuel ].
    mrun. eexists _, _. split; [reflexivity|].
    split; [cbn; apply lookup_insert_eq|]. intros _. reflexivity.
Qed.

(** ** Further properties of creation *)

Lemma find_no_free (m : gset Z) (lo hi : Z) :
  (forall j, lo <= j < hi -> j ∈ m) ->
  List.find (fun j => bool_decide (j ∉ m)) (seqZ lo (hi - lo)) = None.
Proof.
  intros Hfull.
  assert (Hall : Forall (fun j => j ∈ m) (seqZ lo (hi - lo))).
  { apply Forall_seqZ. intros j Hj. apply Hfull. lia. }
  induction Hall as [|j l Hj _ IH]; [reflexivity|].
  cbn [List.find]. rewrite bool_decide_false by (intros H; apply H; exact Hj).
  exact IH.
Qed.

(** A request for a local id at or beyond the number of cports of the host
    device is refused at once: the result is NULL, the store is what it
    was, and the log gains the one diagnostic about the id; the global
    mutex is not taken and neither the interface nor the allocator is
    looked at. *)
Theorem gb_connection_create_out_of_range w hd h requested intf bundle
    cport_id :
  host_devices w !! hd = Some h ->
  0 <= requested ->
  num_cports h <= requested ->
  gb_connection_create hd requested intf bundle cport_id w =
  Done None
    (with_log (log w ++ [EvDevErr (hd_dev hd) (cport_not_available requested)])
       w).
Proof.
  intros Hh H0 Hn. unfold gb_connection_create. mrun.
  rewrite !bool_decide_false by lia. mrun. reflexivity.
Qed.

(** When the allocator has no id to give, because every id of the range
    searched is taken (for a request of one id: that id is taken) or because
    it gets no memory, creation returns NULL with the store as it was; the
    log gains only the global mutex, taken and released: no object is
    allocated. *)
Theorem gb_connection_create_no_free_id w hd h requested intf bundle
    cport_id :
  host_devices w !! hd = Some h ->
  requested < num_cports h ->
  no_duplicate w intf cport_id ->
  (ida_pre_get = false \/
   forall j, (requested_range h requested).1 <= j
             < (requested_range h requested).2 -> j ∈ cport_id_map h) ->
  gb_connection_create hd requested intf bundle cport_id w =
  Done None
    (with_log (log w ++ [EvAcquire gb_connection_mutex;
                         EvRelease gb_connection_mutex]) w).
Proof.
  intros Hh Hreq Hdup Hnone.
  unfold gb_connection_create. mrun.
  rewrite (create_range_cases h requested _
             (fun lo hi => gb_connection_create_locked hd lo hi intf bundle
                             cport_id)) by exact Hreq.
  set (lo := (requested_range h requested).1) in *.
  set (hi := (requested_range h requested).2) in *.
  unfold gb_connection_create_locked, create_err_unlock, ida_simple_get.
  mrun.
  destruct intf as [i|]; [rewrite intf_find_none by exact Hdup|];
  (mrun; destruct Hnone as [Hmem | Hfull];
   [ rewrite Hmem; cbn [negb]; mrun;
     rewrite bool_decide_true by (unfold ENOMEM; lia);
     mrun; rewrite <- !app_assoc; reflexivity
   | destruct ida_pre_get; cbn [negb]; mrun;
     [ rewrite (find_no_free _ lo hi Hfull); mrun;
       rewrite bool_decide_true by (unfold ENOSPC; lia);
       mrun; rewrite <- !app_assoc; reflexivity
     | rewrite bool_decide_true by (unfold ENOMEM; lia);
       mrun; rewrite <- !app_assoc; reflexivity ] ]).
Qed.

(** When [kzalloc] fails after an id was reserved, creation returns NULL
    and gives the id back: the store, identifier map included, is what it
    was, and the log shows the id reserved and then released inside the
    global mutex. *)
Theorem gb_connection_create_kzalloc_failure w hd h requested intf bundle
    cport_id id :
  host_devices w !! hd = Some h ->
  requested < num_cports h ->
  no_duplicate w intf cport_id ->
  ida_pre_get = true ->
  kzalloc_ok = false ->
  first_free (cport_id_map h) (requested_range h requested).1
    (requested_range h requested).2 id ->
  gb_connection_create hd requested intf bundle cport_id w =
  Done None
    (with_log (log w ++ [EvAcquire gb_connection_mutex;
                         EvIdaGet hd id;
                         EvIdaRemove hd id;
                         EvRelease gb_connection_mutex]) w).
Proof.
  intros Hh Hreq Hdup Hida Hkz Hfree.
  unfold gb_connection_create. mrun.
  rewrite (create_range_cases h requested _
             (fun lo hi => gb_connection_create_locked hd lo hi intf bundle
                             cport_id)) by exact Hreq.
  set (lo := (requested_range h requested).1) in *.
  set (hi := (requested_range h requested).2) in *.
  assert (Hid0 : ¬ id < 0).
  { destruct Hfree as (Hr & _). unfold lo, requested_range in Hr.
    case_bool_decide; cbn in Hr; lia. }
  assert (Hmap : ({[id]} ∪ cport_id_map h) ∖ {[id]} = cport_id_map h).
  { destruct Hfree as (_ & Hnot & _). apply set_eq. intros x.
    rewrite elem_of_difference, elem_of_union, !elem_of_singleton. split.
    - intros [[Hx|Hx] Hne]; [contradiction | exact Hx].
    - intros Hx. split; [right; exact Hx | intros ->; contradiction]. }
  assert (Heta : {| hd_connections := hd_connections h;
                    cport_id_map := cport_id_map h;
                    num_cports := num_cports h;
                    driver := driver h; svc := svc h |} = h)
    by (destruct h; reflexivity).
  unfold gb_connection_create_locked, create_err_remove_ida,
    create_err_unlock, ida_simple_get, ida_simple_remove, kzalloc.
  mrun.
  destruct intf as [i|]; [rewrite intf_find_none by exact Hdup|];
  (mrun; rewrite Hida; cbn [negb];
   rewrite (find_first_free _ lo hi id Hfree); mrun;
   rewrite bool_decide_false by exact Hid0;
   rewrite Hkz; mrun;
   rewrite !insert_insert_eq, Hmap, Heta, insert_id by exact Hh;
   rewrite <- !app_assoc; reflexivity).
Qed.

(** A static connection asked for on a free cport of the host device gets
    exactly that cport: the new object is Disabled with one reference, no
    interface, no bundle and remote id 0; it is put at the head of the list
    of the host device and the cport is marked as used. No interface is
    looked at. *)
Theorem gb_connection_create_static_free_cport w hd h id wa :
  host_devices w !! hd = Some h ->
  0 <= id < num_cports h ->
  id ∉ cport_id_map h ->
  ida_pre_get = true ->
  kzalloc_ok = true ->
  alloc_workqueue hd id = Some wa ->
  let p := fresh (dom (connections w)) in
  gb_connection_create_static hd id w =
  Done (Some p)
    (World
       (<[p := {| conn_hd := hd; conn_intf := None; conn_bundle := None;
                  kref := 1; hd_cport_id := u16 id; intf_cport_id := 0;
                  state := GB_CONNECTION_STATE_DISABLED;
                  handler := None; operations := []; wq := Some wa;
                  op_cycle := 0;
                  name := pretty (u16 id) +:+ "/" +:+ pretty 0
                            +:+ ":" +:+ pretty 0 |}]>
          (connections w))
       (<[hd := {| hd_connections := p :: hd_connections h;
                   cport_id_map := {[ id ]} ∪ cport_id_map h;
                   num_cports := num_cports h;
                   driver := driver h; svc := svc h |}]> (host_devices w))
       (interfaces w) (bundles w)
       (log w ++ [EvAcquire gb_connection_mutex;
                  EvIdaGet hd id;
                  EvKzalloc p;
                  EvAllocWorkqueue wa;
                  EvAcquire gb_connections_lock;
                  EvRelease gb_connections_lock;
                  EvRelease gb_connection_mutex])).
Proof.
  intros Hh Hid Hfree Hida Hkz Hwq p.
  unfold gb_connection_create_static.
  rewrite (gb_connection_create_run w hd h id None None 0 id wa);
    [ reflexivity | exact Hh | lia | exact I | exact I | exact Hida
    | exact Hkz | | exact Hwq ].
  unfold requested_range. rewrite bool_decide_false by lia. cbn [fst snd].
  split; [lia|]. split; [exact Hfree|]. intros j Hj. lia.
Qed.


(** Create, then look up: a connection that was just created is the one
    that [gb_connection_hd_find] returns for its local id, whatever else is
    on the list of the host device, and the lookup takes a second
    reference on it. *)
Theorem gb_connection_create_then_hd_find w hd h requested intf bundle
    cport_id id wa :
  host_devices w !! hd = Some h ->
  requested < num_cports h ->
  no_duplicate w intf cport_id ->
  match bundle with
  | Some b => is_Some (bundles w !! b)
  | None => True
  end ->
  ida_pre_get = true ->
  kzalloc_ok = true ->
  first_free (cport_id_map h) (requested_range h requested).1
    (requested_range h requested).2 id ->
  alloc_workqueue hd id = Some wa ->
  exists p w1 c1,
    gb_connection_create hd requested intf bundle cport_id w
      = Done (Some p) w1 /\
    connections w1 !! p = Some c1 /\
    kref c1 = 1 /\
    gb_connection_hd_find hd (u16 id) w1 =
    Done (Some p)
      (World (<[p := set_kref 2 c1]> (connections w1))
         (host_devices w1) (interfaces w1) (bundles w1)
         (log w1 ++ [EvAcquire gb_connections_lock;
                     EvRelease gb_connections_lock])).
Proof.
  intros Hh Hreq Hdup Hb Hida Hkz Hfree Hwq.
  eexists _, _, _.
  split; [exact (gb_connection_create_run w hd h requested intf bundle
                   cport_id id wa Hh Hreq Hdup Hb Hida Hkz Hfree Hwq)|].
  split; [cbn; apply lookup_insert_eq|].
  split; [reflexivity|].
  unfold gb_connection_hd_find. mrun.
  cbn [hd_find_entry]. unfold gb_connection_get. mrun.
  unfold created_connection at 1. mrun.
  rewrite bool_decide_true by reflexivity. mrun.
  rewrite <- !app_assoc. reflexivity.
Qed.

(** Create twice: after a connection of a bundle was created for a remote
    cport, a second creation for the same bundle and remote cport is refused
    as a duplicate. It returns NULL and changes nothing but the log: the
    global mutex, and one diagnostic naming the remote cport. *)
Theorem gb_connection_create_dynamic_twice w b bd itf h cport_id id wa :
  bundles w !! b = Some bd ->
  interfaces w !! bundle_intf bd = Some itf ->
  host_devices w !! intf_hd itf = Some h ->
  Forall (fun q => exists cq, connections w !! q = Some cq /\
                              ~ bound_to (bundle_intf bd) (u16 cport_id) cq)
    (hd_connections h) ->
  first_free (cport_id_map h) 0 (num_cports h) id ->
  ida_pre_get = true ->
  kzalloc_ok = true ->
  alloc_workqueue (intf_hd itf) id = Some wa ->
  exists p w1,
    gb_connection_create_dynamic b cport_id w = Done (Some p) w1 /\
    gb_connection_create_dynamic b cport_id w1 =
    Done None
      (with_log
         (log w1 ++ [EvAcquire gb_connection_mutex;
                     EvDevErr (intf_dev (bundle_intf bd))
                       (cport_already_in_use (cport_id mod 4294967296));
                     EvRelease gb_connection_mutex]) w1).
Proof.
  intros Hb Hi Hh Hnodup Hfree Hida Hkz Hwq.
  assert (Hfirst :
    gb_connection_create_dynamic b cport_id w =
    Done (Some (fresh (dom (connections w))))
      (World
         (<[fresh (dom (connections w)) :=
              created_connection w (intf_hd itf) (Some (bundle_intf bd))
                (Some b) id cport_id wa]> (connections w))
         (<[intf_hd itf :=
              {| hd_connections :=
                   fresh (dom (connections w)) :: hd_connections h;
                 cport_id_map := {[ id ]} ∪ cport_id_map h;
                 num_cports := num_cports h;
                 driver := driver h; svc := svc h |}]> (host_devices w))
         (interfaces w)
         (bundles_with w (Some b) (fresh (dom (connections w))))
         (log w ++ [EvAcquire gb_connection_mutex;
                    EvIdaGet (intf_hd itf) id;
                    EvKzalloc (fresh (dom (connections w)));
                    EvAllocWorkqueue wa;
                    EvAcquire gb_connections_lock;
                    EvRelease gb_connections_lock;
                    EvRelease gb_connection_mutex]))).
  { unfold gb_connection_create_dynamic. mrun.
    apply (gb_connection_create_run w (intf_hd itf) h (-1)
             (Some (bundle_intf bd)) (Some b) cport_id id wa).
    - exact Hh.
    - destruct Hfree as (Hr & _). lia.
    - exists itf, h. split; [exact Hi|]. split; [exact Hh|]. exact Hnodup.
    - exists bd. exact Hb.
    - exact Hida.
    - exact Hkz.
    - unfold requested_range. rewrite bool_decide_true by lia. exact Hfree.
    - exact Hwq. }
  eexists _, _. split; [exact Hfirst|].
  unfold gb_connection_create_dynamic, bundles_with. rewrite Hb. mrun.
  unfold gb_connection_create. mrun.
  rewrite bool_decide_true by lia.
  unfold gb_connection_create_locked, gb_connection_intf_find,
    create_err_unlock.
  mrun. cbn [intf_find_entry]. mrun.
  unfold created_connection at 1. mrun.
  rewrite bool_decide_true by (split; reflexivity).
  mrun. rewrite <- !app_assoc. reflexivity.
Qed.

(** ** Destruction and reference counting *)

Lemma gb_connection_destroy_run w p c h :
  connections w !! p = Some c ->
  host_devices w !! conn_hd c = Some h ->
  match conn_bundle c with
  | Some b => is_Some (bundles w !! b)
  | None => True
  end ->
  1 <= kref c < 2147483648 ->
  gb_connection_destroy (Some p) w =
  Done tt
    (World
       (if bool_decide (kref c = 1) then delete p (connections w)
        else <[p := set_kref (kref c - 1)
                      (set_hd_cport_id CPORT_ID_BAD c)]> (connections w))
       (<[conn_hd c := hd_without h p c]> (host_devices w))
       (interfaces w)
       (bundles_without w p c)
       (log w ++ [EvAcquire gb_connection_mutex;
                  EvAcquire gb_connections_lock;
                  EvRelease gb_connections_lock;
                  EvDestroyWorkqueue (wq c);
                  EvIdaRemove (conn_hd c) (hd_cport_id c);
                  EvRelease gb_connection_mutex]
          ++ (if bool_decide (kref c = 1) then [EvKfree p] else []))).
Proof.
  intros Hc Hh Hb Hk.
  unfold gb_connection_destroy, destroy_workqueue, ida_simple_remove,
    gb_connection_put, gb_connection_kref_release, kfree, bundles_without,
    hd_without.
  mrun.
  assert (Hint : int32 (kref c - 1) = kref c - 1)
    by (apply int32_small; lia).
  destruct (conn_bundle c) as [b|].
  - destruct Hb as [bd Hbd]. rewrite Hbd. mrun.
    rewrite !insert_insert_eq, Hint.
    case_bool_decide as H1.
    + rewrite bool_decide_true by lia. mrun.
      rewrite delete_insert_eq, <- !app_assoc. reflexivity.
    + rewrite bool_decide_false by lia. mrun.
      rewrite <- !app_assoc, app_nil_r. reflexivity.
  - mrun. rewrite !insert_insert_eq, Hint.
    case_bool_decide as H1.
    + rewrite bool_decide_true by lia. mrun.
      rewrite delete_insert_eq, <- !app_assoc. reflexivity.
    + rewrite bool_decide_false by lia. mrun.
      rewrite <- !app_assoc, app_nil_r. reflexivity.
Qed.

Lemma list_del_head (p : addr) (l : list addr) :
  p ∉ l -> list_del p (p :: l) = l.
Proof.
  intros Hp. unfold list_del.
  rewrite filter_cons_False by (intros H; apply H; reflexivity).
  apply filter_all. apply Forall_forall. intros q Hq ->. contradiction.
Qed.

Lemma not_elem_of_list_del (p : addr) (l : list addr) : p ∉ list_del p l.
Proof.
  unfold list_del. intros H. apply list_elem_of_filter in H as [H _].
  apply H. reflexivity.
Qed.

Lemma fresh_not_listed (w : world) (l : list addr) :
  Forall (fun q => is_Some (connections w !! q)) l ->
  fresh (dom (connections w)) ∉ l.
Proof.
  intros Hall Hin. rewrite Forall_forall in Hall.
  apply Hall in Hin. apply elem_of_dom in Hin.
  exact (is_fresh _ Hin).
Qed.

Lemma u16_small (z : Z) : 0 <= z < 65536 -> u16 z = z.
Proof. intros H. unfold u16. apply Z.mod_small. exact H. Qed.

(** Destroying a connection whose only reference is the registry's: it is
    taken off the list of its bundle and off the list of its host device,
    its workqueue is destroyed, its local id goes back to the allocator, and
    the object is freed, in this order. *)
Theorem gb_connection_destroy_last_reference w p c h :
  connections w !! p = Some c ->
  host_devices w !! conn_hd c = Some h ->
  match conn_bundle c with
  | Some b => is_Some (bundles w !! b)
  | None => True
  end ->
  kref c = 1 ->
  exists w',
    gb_connection_destroy (Some p) w = Done tt w' /\
    connections w' = delete p (connections w) /\
    host_devices w' = <[conn_hd c := hd_without h p c]> (host_devices w) /\
    bundles w' = bundles_without w p c /\
    (p ∉ hd_connections (hd_without h p c)) /\
    (hd_cport_id c ∉ cport_id_map (hd_without h p c)) /\
    log w' =
      log w ++ [EvAcquire gb_connection_mutex;
                EvAcquire gb_connections_lock;
                EvRelease gb_connections_lock;
                EvDestroyWorkqueue (wq c);
                EvIdaRemove (conn_hd c) (hd_cport_id c);
                EvRelease gb_connection_mutex;
                EvKfree p].
Proof.
  intros Hc Hh Hb Hk.
  eexists. split.
  - apply (gb_connection_destroy_run w p c h Hc Hh Hb). lia.
  - rewrite bool_decide_true by exact Hk. cbn.
    repeat split.
    + apply not_elem_of_list_del.
    + intros H. apply elem_of_difference in H as [_ H]. apply H.
      apply elem_of_singleton. reflexivity.
Qed.

(** Destroying a connection on which somebody else still holds a reference
    (a dispatch in flight, say): the connection is unlinked and its id
    released as usual, but the object is not freed. It stays in the store
    with one reference less and the bad-id sentinel as local id, and
    nothing is freed until the last holder drops its reference: the
    [gb_connection_put] that brings the count from one to zero frees it. *)
Theorem gb_connection_destroy_while_referenced w p c h :
  connections w !! p = Some c ->
  host_devices w !! conn_hd c = Some h ->
  match conn_bundle c with
  | Some b => is_Some (bundles w !! b)
  | None => True
  end ->
  2 <= kref c < 2147483648 ->
  exists w',
    gb_connection_destroy (Some p) w = Done tt w' /\
    connections w' !! p =
      Some (set_kref (kref c - 1) (set_hd_cport_id CPORT_ID_BAD c)) /\
    host_devices w' !! conn_hd c = Some (hd_without h p c) /\
    (p ∉ hd_connections (hd_without h p c)) /\
    log w' =
      log w ++ [EvAcquire gb_connection_mutex;
                EvAcquire gb_connections_lock;
                EvRelease gb_connections_lock;
                EvDestroyWorkqueue (wq c);
                EvIdaRemove (conn_hd c) (hd_cport_id c);
                EvRelease gb_connection_mutex] /\
    (kref c = 2 ->
     gb_connection_put p w' =
     Done tt
       (World (delete p (connections w')) (host_devices w') (interfaces w')
          (bundles w') (log w' ++ [EvKfree p]))).
Proof.
  intros Hc Hh Hb Hk.
  eexists. split.
  - apply (gb_connection_destroy_run w p c h Hc Hh Hb). lia.
  - rewrite !bool_decide_false by lia. cbn [connections host_devices log].
    split; [apply lookup_insert_eq|].
    split; [apply lookup_insert_eq|].
    split; [apply not_elem_of_list_del|].
    split; [rewrite app_nil_r; reflexivity|].
    intros H2. unfold gb_connection_put, gb_connection_kref_release, kfree.
    mrun. rewrite H2. change (int32 (2 - 1 - 1)) with 0.
    rewrite bool_decide_true by reflexivity. mrun.
    rewrite delete_insert_eq. reflexivity.
Qed.

(** Create, then destroy: when the host device has at most 65536 cports and
    the lists of the host device and of the bundle hold only live objects,
    a successful creation followed by the destruction of the new connection
    gives back the store the creation started from: same objects, same
    lists, same identifier map. Only the log has grown. *)
Theorem gb_connection_create_then_destroy w hd h requested intf bundle
    cport_id id wa :
  host_devices w !! hd = Some h ->
  requested < num_cports h ->
  num_cports h <= 65536 ->
  no_duplicate w intf cport_id ->
  match bundle with
  | Some b =>
      exists bd, bundles w !! b = Some bd /\
                 Forall (fun q => is_Some (connections w !! q))
                   (bundle_connections bd)
  | None => True
  end ->
  Forall (fun q => is_Some (connections w !! q)) (hd_connections h) ->
  ida_pre_get = true ->
  kzalloc_ok = true ->
  first_free (cport_id_map h) (requested_range h requested).1
    (requested_range h requested).2 id ->
  alloc_workqueue hd id = Some wa ->
  exists p w1,
    gb_connection_create hd requested intf bundle cport_id w
      = Done (Some p) w1 /\
    gb_connection_destroy (Some p) w1 =
    Done tt
      (with_log
         (log w1 ++ [EvAcquire gb_connection_mutex;
                     EvAcquire gb_connections_lock;
                     EvRelease gb_connections_lock;
                     EvDestroyWorkqueue (Some wa);
                     EvIdaRemove hd id;
                     EvRelease gb_connection_mutex;
                     EvKfree p]) w).
Proof.
  intros Hh Hreq Hmax Hdup Hb Hlist Hida Hkz Hfree Hwq.
  assert (Hb' : match bundle with
                | Some b => is_Some (bundles w !! b)
                | None => True
                end).
  { destruct bundle as [b|]; [|exact I].
    destruct Hb as (bd & Hbd & _). exists bd. exact Hbd. }
  assert (Hid : u16 id = id).
  { apply u16_small. destruct Hfree as (Hr & _).
    unfold requested_range in Hr. case_bool_decide; cbn in Hr; lia. }
  assert (Hmap : ({[id]} ∪ cport_id_map h) ∖ {[id]} = cport_id_map h).
  { destruct Hfree as (_ & Hnot & _). apply set_eq. intros x.
    rewrite elem_of_difference, elem_of_union, !elem_of_singleton. split.
    - intros [[Hx|Hx] Hne]; [contradiction | exact Hx].
    - intros Hx. split; [right; exact Hx | intros ->; contradiction]. }
  eexists _, _.
  split; [exact (gb_connection_create_run w hd h requested intf bundle
                   cport_id id wa Hh Hreq Hdup Hb' Hida Hkz Hfree Hwq)|].
  erewrite (gb_connection_destroy_run _ _
              (created_connection w hd intf bundle id cport_id wa));
    [ | cbn; apply lookup_insert_eq
      | cbn; apply lookup_insert_eq
      | | cbn; lia ].
  - rewrite !bool_decide_true by reflexivity.
    unfold hd_without, bundles_without, bundles_with, with_log.
    cbn [conn_hd conn_bundle hd_cport_id wq created_connection connections
         host_devices interfaces bundles log hd_connections cport_id_map
         num_cports driver svc].
    rewrite Hid, Hmap, insert_insert_eq.
    rewrite (list_del_head _ _ (fresh_not_listed w _ Hlist)).
    rewrite delete_insert_id by (apply not_elem_of_dom, is_fresh).
    replace {| hd_connections := hd_connections h;
               cport_id_map := cport_id_map h;
               num_cports := num_cports h;
               driver := driver h; svc := svc h |} with h
      by (destruct h; reflexivity).
    rewrite insert_id by exact Hh.
    destruct bundle as [b|].
    + destruct Hb as (bd & Hbd & Hbl). rewrite Hbd.
      rewrite lookup_insert_eq. cbn [bundle_intf bundle_connections].
      rewrite insert_insert_eq.
      rewrite (list_del_head _ _ (fresh_not_listed w _ Hbl)).
      replace {| bundle_intf := bundle_intf bd;
                 bundle_connections := bundle_connections bd |} with bd
        by (destruct bd; reflexivity).
      rewrite insert_id by exact Hbd.
      rewrite <- !app_assoc. reflexivity.
    + rewrite <- !app_assoc. reflexivity.
  - cbn [conn_bundle created_connection bundles].
    destruct bundle as [b|]; [|exact I].
    destruct Hb as (bd & Hbd & _). unfold bundles_with. rewrite Hbd.
    rewrite lookup_insert_eq. eexists. reflexivity.
Qed.

(** Local ids stay unique under creation: on a host device with at most
    65536 cports whose registry is in order, a successful creation leaves
    the registry in order; in particular the new connection shares its
    local id with no other connection of the host device. *)
Theorem gb_connection_create_keeps_ids_unique w hd h requested intf bundle
    cport_id id wa :
  registry_ok w hd ->
  host_devices w !! hd = Some h ->
  requested < num_cports h ->
  num_cports h <= 65536 ->
  no_duplicate w intf cport_id ->
  match bundle with
  | Some b => is_Some (bundles w !! b)
  | None => True
  end ->
  ida_pre_get = true ->
  kzalloc_ok = true ->
  first_free (cport_id_map h) (requested_range h requested).1
    (requested_range h requested).2 id ->
  alloc_workqueue hd id = Some wa ->
  exists p w1,
    gb_connection_create hd requested intf bundle cport_id w
      = Done (Some p) w1 /\
    registry_ok w1 hd.
Proof.
  intros (h0 & Hh0 & Hnd & Hlive & Hinj) Hh Hreq Hmax Hdup Hb Hida Hkz
    Hfree Hwq.
  assert (h0 = h) as -> by congruence.
  assert (Hid : u16 id = id).
  { apply u16_small. destruct Hfree as (Hr & _).
    unfold requested_range in Hr. case_bool_decide; cbn in Hr; lia. }
  assert (Hnew : id ∉ cport_id_map h) by apply Hfree.
  set (p := fresh (dom (connections w))).
  assert (Hp : p ∉ hd_connections h).
  { apply fresh_not_listed. apply Forall_forall. intros q Hq.
    destruct (Hlive q Hq) as (cq & Hcq & _). exists cq. exact Hcq. }
  assert (Hold : forall q, q ∈ hd_connections h -> q ≠ p)
    by (intros q Hq ->; contradiction).
  eexists _, _.
  split; [exact (gb_connection_create_run w hd h requested intf bundle
                   cport_id id wa Hh Hreq Hdup Hb Hida Hkz Hfree Hwq)|].
  fold p. eexists. cbn [host_devices connections].
  split; [apply lookup_insert_eq|].
  cbn [hd_connections cport_id_map].
  split; [apply NoDup_cons; split; assumption|].
  split.
  - intros q Hq. apply elem_of_cons in Hq as [->|Hq].
    + eexists. split; [apply lookup_insert_eq|].
      cbn [created_connection hd_cport_id]. rewrite Hid.
      apply elem_of_union_l, elem_of_singleton. reflexivity.
    + destruct (Hlive q Hq) as (cq & Hcq & Hin). exists cq.
      split; [rewrite lookup_insert_ne by (apply not_eq_sym, Hold, Hq);
              exact Hcq|].
      apply elem_of_union_r. exact Hin.
  - intros q1 q2 c1 c2 H1 H2 Hc1 Hc2 Heq.
    apply elem_of_cons in H1 as [->|H1]; apply elem_of_cons in H2 as [->|H2].
    + reflexivity.
    + exfalso. rewrite lookup_insert_eq in Hc1.
      rewrite lookup_insert_ne in Hc2 by (apply not_eq_sym, Hold, H2).
      injection Hc1 as <-. cbn [created_connection hd_cport_id] in Heq.
      rewrite Hid in Heq.
      destruct (Hlive q2 H2) as (cq & Hcq & Hin).
      assert (cq = c2) as -> by congruence.
      apply Hnew. rewrite Heq. exact Hin.
    + exfalso. rewrite lookup_insert_eq in Hc2.
      rewrite lookup_insert_ne in Hc1 by (apply not_eq_sym, Hold, H1).
      injection Hc2 as <-. cbn [created_connection hd_cport_id] in Heq.
      rewrite Hid in Heq.
      destruct (Hlive q1 H1) as (cq & Hcq & Hin).
      assert (cq = c1) as -> by congruence.
      apply Hnew. rewrite <- Heq. exact Hin.
    + rewrite lookup_insert_ne in Hc1 by (apply not_eq_sym, Hold, H1).
      rewrite lookup_insert_ne in Hc2 by (apply not_eq_sym, Hold, H2).
      exact (Hinj q1 q2 c1 c2 H1 H2 Hc1 Hc2 Heq).
Qed.

Lemma destroyed_store_other w p c q :
  q ≠ p ->
  (if bool_decide (kref c = 1) then delete p (connections w)
   else <[p := set_kref (kref c - 1) (set_hd_cport_id CPORT_ID_BAD c)]>
          (connections w)) !! q = connections w !! q.
Proof.
  intros Hq. case_bool_decide.
  - apply lookup_delete_ne. apply not_eq_sym. exact Hq.
  - apply lookup_insert_ne. apply not_eq_sym. exact Hq.
Qed.

(** Local ids stay unique under destruction: destroying a connection that is
    on the list of its host device leaves the registry of that host device
    in order, whether or not the object outlives the call. *)
Theorem gb_connection_destroy_keeps_ids_unique w p c h :
  registry_ok w (conn_hd c) ->
  connections w !! p = Some c ->
  host_devices w !! conn_hd c = Some h ->
  p ∈ hd_connections h ->
  match conn_bundle c with
  | Some b => is_Some (bundles w !! b)
  | None => True
  end ->
  1 <= kref c < 2147483648 ->
  exists w',
    gb_connection_destroy (Some p) w = Done tt w' /\
    registry_ok w' (conn_hd c).
Proof.
  intros (h0 & Hh0 & Hnd & Hlive & Hinj) Hc Hh Hp Hb Hk.
  assert (h0 = h) as -> by congruence.
  eexists.
  split; [exact (gb_connection_destroy_run w p c h Hc Hh Hb Hk)|].
  eexists. cbn [host_devices connections].
  split; [apply lookup_insert_eq|].
  unfold hd_without. cbn [hd_connections cport_id_map]. unfold list_del.
  assert (Hin : forall q, q ∈ filter (fun q' => q' ≠ p) (hd_connections h) ->
                          q ≠ p /\ q ∈ hd_connections h)
    by (intros q Hq; apply list_elem_of_filter in Hq; exact Hq).
  split; [apply NoDup_filter; exact Hnd|].
  split.
  - intros q Hq. destruct (Hin q Hq) as [Hne Hq'].
    destruct (Hlive q Hq') as (cq & Hcq & Hmem). exists cq.
    split; [rewrite destroyed_store_other by exact Hne; exact Hcq|].
    apply elem_of_difference. split; [exact Hmem|].
    intros Hs. apply elem_of_singleton in Hs.
    apply Hne. exact (Hinj q p cq c Hq' Hp Hcq Hc Hs).
  - intros q1 q2 c1 c2 H1 H2 Hc1 Hc2 Heq.
    destruct (Hin q1 H1) as [Hne1 H1']. destruct (Hin q2 H2) as [Hne2 H2'].
    rewrite destroyed_store_other in Hc1 by exact Hne1.
    rewrite destroyed_store_other in Hc2 by exact Hne2.
    exact (Hinj q1 q2 c1 c2 H1' H2' Hc1 Hc2 Heq).
Qed.

(** Destroy, then receive: once a connection of a registry in order is
    destroyed, data that arrives for the local id it had is dropped with
    the diagnostic for a nonexistent connection. It is not delivered to the
    destroyed connection, even when a reference keeps the object alive. *)
Theorem greybus_data_rcvd_after_destroy w p c h data length :
  registry_ok w (conn_hd c) ->
  connections w !! p = Some c ->
  host_devices w !! conn_hd c = Some h ->
  p ∈ hd_connections h ->
  match conn_bundle c with
  | Some b => is_Some (bundles w !! b)
  | None => True
  end ->
  1 <= kref c < 2147483648 ->
  exists w',
    gb_connection_destroy (Some p) w = Done tt w' /\
    greybus_data_rcvd (conn_hd c) (hd_cport_id c) data length w' =
    Done tt
      (with_log
         (log w' ++ [EvAcquire gb_connections_lock;
                     EvRelease gb_connections_lock;
                     EvDevErr (hd_dev (conn_hd c))
                       (nonexistent_connection length)]) w').
Proof.
  intros (h0 & Hh0 & Hnd & Hlive & Hinj) Hc Hh Hp Hb Hk.
  assert (h0 = h) as -> by congruence.
  eexists.
  split; [exact (gb_connection_destroy_run w p c h Hc Hh Hb Hk)|].
  unfold greybus_data_rcvd, gb_connection_hd_find. mrun.
  rewrite hd_find_entry_none.
  - mrun. rewrite <- !app_assoc. reflexivity.
  - unfold no_local_id, hd_without. cbn [hd_connections connections].
    unfold list_del. apply Forall_forall. intros q Hq.
    apply list_elem_of_filter in Hq as [Hne Hq].
    destruct (Hlive q Hq) as (cq & Hcq & _). exists cq.
    split; [rewrite destroyed_store_other by exact Hne; exact Hcq|].
    intros Heq. apply Hne. exact (Hinj q p cq c Hq Hp Hcq Hc Heq).
Qed.

(** ** Further properties of the state machine *)

Lemma gb_connection_enable_ok_run fuel w p c h hdl :
  connections w !! p = Some c ->
  host_devices w !! conn_hd c = Some h ->
  conn_intf c = None \/ is_Some (connection_peer w c) ->
  state c = GB_CONNECTION_STATE_DISABLED ->
  transport_enable_ret c h = 0 ->
  route_create_ret c h (connection_peer w c) = 0 ->
  notify_connected_ret p c (connection_peer w c) = 0 ->
  gb_connection_enable fuel p hdl w =
  Done 0
    (World
       (<[p := set_state
                 (match hdl with
                  | Some _ => GB_CONNECTION_STATE_ENABLED
                  | None => GB_CONNECTION_STATE_ENABLED_TX
                  end) (set_handler hdl c)]> (connections w))
       (host_devices w) (interfaces w) (bundles w)
       (log w ++ [EvAcquire (connection_mutex p)]
          ++ transport_enable_events c h
          ++ route_create_events c h (connection_peer w c)
          ++ [EvAcquire (connection_lock p); EvRelease (connection_lock p)]
          ++ notify_connected_events p c (connection_peer w c)
          ++ [EvRelease (connection_mutex p)])).
Proof.
  intros Hc Hh Hp Hs H1 H2 H3.
  unfold gb_connection_enable, enable_err_svc_destroy,
    enable_err_hd_cport_disable, enable_err_unlock, enable_out_unlock.
  mrun. rewrite Hs. rewrite !bool_decide_false by discriminate.
  rewrite (hd_cport_enable_run _ p c h); [ | exact Hc | exact Hh ].
  rewrite H1. rewrite bool_decide_false by (intros H; apply H; reflexivity).
  mrun.
  rewrite (svc_connection_create_run _ p c h);
    [ | exact Hc | exact Hh | exact Hp ].
  change (connection_peer _ c) with (connection_peer w c).
  rewrite H2. rewrite bool_decide_false by (intros H; apply H; reflexivity).
  mrun. rewrite insert_insert_eq.
  rewrite (control_connected_run _ p
             (set_state (match hdl with
                         | Some _ => GB_CONNECTION_STATE_ENABLED
                         | None => GB_CONNECTION_STATE_ENABLED_TX
                         end) (set_handler hdl c)));
    [ | mrun; reflexivity | exact Hp ].
  change (notify_connected_ret p _ _)
    with (notify_connected_ret p c (connection_peer w c)).
  rewrite H3. rewrite bool_decide_false by (intros H; apply H; reflexivity).
  mrun. rewrite <- !app_assoc. reflexivity.
Qed.

(** Enabling a Disabled connection when the transport driver, the SVC and
    the peer all accept: the call returns 0, the handler given is installed
    and the state is Enabled when there is a handler and Enabled-Tx when
    there is none. The log shows the cport enabled first, then the route
    created, then the state set under the connection lock, and the peer
    notified last. No budget of loop iterations is needed. For a connection whose peer
    is notified, on a driver that can enable a cport, the calls into the
    other layers are: cport enable, route create, connected. *)
Theorem gb_connection_enable_success fuel w p c h hdl :
  connections w !! p = Some c ->
  host_devices w !! conn_hd c = Some h ->
  conn_intf c = None \/ is_Some (connection_peer w c) ->
  state c = GB_CONNECTION_STATE_DISABLED ->
  transport_enable_ret c h = 0 ->
  route_create_ret c h (connection_peer w c) = 0 ->
  notify_connected_ret p c (connection_peer w c) = 0 ->
  (gb_connection_enable fuel p hdl w =
  Done 0
    (World
       (<[p := set_state
                 (match hdl with
                  | Some _ => GB_CONNECTION_STATE_ENABLED
                  | None => GB_CONNECTION_STATE_ENABLED_TX
                  end) (set_handler hdl c)]> (connections w))
       (host_devices w) (interfaces w) (bundles w)
       (log w ++ [EvAcquire (connection_mutex p)]
          ++ transport_enable_events c h
          ++ route_create_events c h (connection_peer w c)
          ++ [EvAcquire (connection_lock p); EvRelease (connection_lock p)]
          ++ notify_connected_events p c (connection_peer w c)
          ++ [EvRelease (connection_mutex p)]))) /\
  (forall i itf ctl op,
     connection_peer w c = Some (i, itf, ctl) ->
     control_connection ctl <> Some p ->
     cport_enable (driver h) = Some op ->
     exists w',
       gb_connection_enable fuel p hdl w = Done 0 w' /\
       external_calls (drop (length (log w)) (log w')) =
         [EvCportEnable (conn_hd c) (hd_cport_id c);
          EvSvcConnectionCreate (ap_intf_id (svc h)) (hd_cport_id c)
            (interface_id itf) (intf_cport_id c) (boot_over_unipro itf);
          EvControlConnected i (intf_cport_id c)]).
Proof.
  intros Hc Hh Hp Hs H1 H2 H3.
  pose proof (gb_connection_enable_ok_run fuel w p c h hdl Hc Hh Hp Hs H1 H2
                H3) as Hrun.
  split; [exact Hrun|].
  intros i itf ctl op Hpeer Hown Hop.
  eexists. split; [exact Hrun|].
  cbn [log]. rewrite drop_app_length.
  rewrite Hpeer in H2, H3 |- *.
  unfold transport_enable_ret in H1. rewrite Hop in H1.
  unfold transport_enable_events, route_create_events,
    notify_connected_events, peer_is_notified.
  rewrite Hop, H1, H2, H3.
  rewrite (bool_decide_false (Some p = control_connection ctl))
    by (intros H; apply Hown; symmetry; exact H).
  rewrite !bool_decide_false by (intros H; apply H; reflexivity).
  reflexivity.
Qed.

(** Enabling a connection that is not Disabled never fails and calls
    neither the transport driver, nor the SVC, nor the peer: the log gains
    locks only. An Enabled connection is left as it is, so the handler
    already installed is not replaced by the one given. An Enabled-Tx
    connection is left as it is when no handler is given, and becomes
    Enabled with the handler given otherwise. *)
Theorem gb_connection_enable_when_up fuel w p c hdl :
  connections w !! p = Some c ->
  state c <> GB_CONNECTION_STATE_DISABLED ->
  exists w' c',
    gb_connection_enable fuel p hdl w = Done 0 w' /\
    connections w' !! p = Some c' /\
    external_calls (drop (length (log w)) (log w')) = [] /\
    (state c = GB_CONNECTION_STATE_ENABLED \/ hdl = None -> w' =
       with_log (log w ++ [EvAcquire (connection_mutex p);
                           EvRelease (connection_mutex p)]) w) /\
    (state c = GB_CONNECTION_STATE_ENABLED \/ hdl = None -> c' = c) /\
    (state c = GB_CONNECTION_STATE_ENABLED_TX -> is_Some hdl ->
     c' = set_state GB_CONNECTION_STATE_ENABLED (set_handler hdl c)).
Proof.
  intros Hc Hs.
  destruct (state c) eqn:Hst; [contradiction| |].
  - destruct hdl as [hd|].
    + eexists _, _.
      split; [exact (gb_connection_enable_tx_run fuel w p c hd Hc Hst)|].
      split; [cbn; apply lookup_insert_eq|].
      split; [cbn [log]; rewrite drop_app_length; reflexivity|].
      split; [intros [H|H]; discriminate|].
      split; [intros [H|H]; discriminate|].
      intros _ _. reflexivity.
    + eexists _, c.
      split; [apply (gb_connection_enable_enabled_run fuel w p c None Hc);
              right; split; [exact Hst | reflexivity]|].
      split; [exact Hc|].
      split; [cbn [log with_log]; rewrite drop_app_length; reflexivity|].
      split; [intros _; reflexivity|].
      split; [intros _; reflexivity|].
      intros _ [x Hx]. discriminate.
  - eexists _, c.
    split; [apply (gb_connection_enable_enabled_run fuel w p c hdl Hc);
            left; exact Hst|].
    split; [exact Hc|].
    split; [cbn [log with_log]; rewrite drop_app_length; reflexivity|].
    split; [intros _; reflexivity|].
    split; [intros _; reflexivity|].
    intros H. discriminate.
Qed.

(** The handler is installed exactly when the connection is Enabled, and
    the three operations of the state machine keep it so: whenever this
    holds of a connection before [gb_connection_enable],
    [gb_connection_disable_rx] or [gb_connection_disable], the call returns
    and it holds of the connection afterwards. *)
Theorem handler_iff_enabled_is_kept fuel w p c h hdl :
  connection_ok w p c h ->
  (length (operations c) < fuel)%nat ->
  handler_iff_enabled c ->
  (exists ret w' c',
     gb_connection_enable fuel p hdl w = Done ret w' /\
     connections w' !! p = Some c' /\ handler_iff_enabled c') /\
  (exists w' c',
     gb_connection_disable_rx fuel p w = Done tt w' /\
     connections w' !! p = Some c' /\ handler_iff_enabled c') /\
  (exists w' c',
     gb_connection_disable fuel p w = Done tt w' /\
     connections w' !! p = Some c' /\ handler_iff_enabled c').
Proof.
  intros Hok Hfuel Hinv.
  assert (Hc : connections w !! p = Some c) by apply Hok.
  assert (Hnd : NoDup (map op_addr (operations c))) by apply Hok.
  assert (Hoff : forall d s, s <> GB_CONNECTION_STATE_ENABLED ->
            handler_iff_enabled (set_handler None (set_operations d
                                   (set_state s c)))).
  { intros d s Hs. unfold handler_iff_enabled. cbn. split.
    - intros [x Hx]. discriminate.
    - intros H. contradiction. }
  split; [|split].
  - destruct (state c) eqn:Hs.
    + pose proof (gb_connection_enable_run fuel w p c h hdl Hok Hfuel Hs)
        as Hrun.
      cbn zeta in Hrun. repeat case_bool_decide.
      * eexists _, _, c. split; [exact Hrun|]. split; [exact Hc|]. exact Hinv.
      * eexists _, _, c. split; [exact Hrun|]. split; [exact Hc|]. exact Hinv.
      * eexists _, _, _. split; [exact Hrun|].
        split; [cbn; apply lookup_insert_eq|].
        unfold handler_iff_enabled. cbn. split.
        -- intros [x Hx]. discriminate.
        -- discriminate.
      * eexists _, _, _. split; [exact Hrun|].
        split; [cbn; apply lookup_insert_eq|].
        unfold handler_iff_enabled. cbn. destruct hdl as [hd|]; split.
        -- reflexivity.
        -- intros _. eexists. reflexivity.
        -- intros [x Hx]. discriminate.
        -- discriminate.
    + destruct hdl as [hd|].
      * eexists _, _, _.
        split; [exact (gb_connection_enable_tx_run fuel w p c hd Hc Hs)|].
        split; [cbn; apply lookup_insert_eq|].
        unfold handler_iff_enabled. cbn. split.
        -- reflexivity.
        -- intros _. eexists. reflexivity.
      * eexists _, _, c.
        split; [apply (gb_connection_enable_enabled_run fuel w p c None Hc);
                right; split; [exact Hs | reflexivity]|].
        split; [exact Hc|]. exact Hinv.
    + eexists _, _, c.
      split; [apply (gb_connection_enable_enabled_run fuel w p c hdl Hc);
              left; exact Hs|].
      split; [exact Hc|]. exact Hinv.
  - unfold gb_connection_disable_rx. mrun.
    case_bool_decide as Hs; mrun.
    + eexists _, c. split; [reflexivity|]. split; [exact Hc|]. exact Hinv.
    + rewrite (flush_incoming_operations_run fuel p _ _
                 (set_state GB_CONNECTION_STATE_ENABLED_TX c));
        [ | mrun; reflexivity | exact Hnd | exact Hfuel ].
      mrun. eexists _, _. split; [reflexivity|].
      split; [cbn; apply lookup_insert_eq|].
      apply Hoff. discriminate.
  - destruct (decide (state c = GB_CONNECTION_STATE_DISABLED)) as [Hs|Hs].
    + eexists _, c.
      split; [exact (gb_connection_disable_disabled_run fuel w p c Hc Hs)|].
      split; [exact Hc|]. exact Hinv.
    + eexists _, _.
      split; [exact (gb_connection_disable_run fuel w p c h Hok Hfuel Hs)|].
      split; [cbn; apply lookup_insert_eq|].
      apply Hoff. discriminate.
Qed.

(** Enable, then disable: for a Disabled connection with no handler and no
    pending operation, a successful enable followed by a disable gives back
    the store the enable started from. The disable undoes in reverse what
    the enable did: peer notified of the disconnection, route destroyed,
    cport disabled. *)
Theorem gb_connection_enable_then_disable fuel w p c h hdl :
  connection_ok w p c h ->
  (0 < fuel)%nat ->
  state c = GB_CONNECTION_STATE_DISABLED ->
  handler c = None ->
  operations c = [] ->
  transport_enable_ret c h = 0 ->
  route_create_ret c h (connection_peer w c) = 0 ->
  notify_connected_ret p c (connection_peer w c) = 0 ->
  exists w1,
    gb_connection_enable fuel p hdl w = Done 0 w1 /\
    gb_connection_disable fuel p w1 =
    Done tt
      (with_log
         (log w1 ++ [EvAcquire (connection_mutex p)]
            ++ notify_disconnected_events p c (connection_peer w c)
            ++ [EvAcquire (connection_lock p);
                EvRelease (connection_lock p)]
            ++ route_destroy_events c h (connection_peer w c)
            ++ transport_disable_events c h
            ++ [EvRelease (connection_mutex p)]) w).
Proof.
  intros Hok Hfuel Hs Hh Hops H1 H2 H3.
  destruct Hok as (Hc & Hhd & Hp & Hnd).
  eexists.
  split; [exact (gb_connection_enable_ok_run fuel w p c h hdl Hc Hhd Hp Hs
                   H1 H2 H3)|].
  erewrite (gb_connection_disable_run _ _ p
              (set_state (match hdl with
                          | Some _ => GB_CONNECTION_STATE_ENABLED
                          | None => GB_CONNECTION_STATE_ENABLED_TX
                          end) (set_handler hdl c)) h).
  - cbn [connections host_devices interfaces bundles log operations
         set_state set_handler].
    rewrite Hops. cbn [rev flat_map app]. rewrite insert_insert_eq.
    replace (set_handler None
               (set_operations []
                  (set_state GB_CONNECTION_STATE_DISABLED
                     (set_state
                        match hdl with
                        | Some _ => GB_CONNECTION_STATE_ENABLED
                        | None => GB_CONNECTION_STATE_ENABLED_TX
                        end (set_handler hdl c))))) with c
      by (destruct c; cbn in *; subst; reflexivity).
    rewrite insert_id by exact Hc.
    unfold with_log. cbn [connections host_devices interfaces bundles log].
    rewrite <- !app_assoc. reflexivity.
  - split; [cbn; apply lookup_insert_eq|].
    split; [exact Hhd|]. split; [exact Hp|]. exact Hnd.
  - cbn. rewrite Hops. exact Hfuel.
  - cbn. destruct hdl; discriminate.
Qed.

(** Disable the receive side, then enable again: for an Enabled connection
    with no incoming operation pending, [gb_connection_disable_rx] followed
    by [gb_connection_enable] with the handler it had gives back the store
    it started from, and neither call reaches the transport driver, the SVC,
    the peer or the operation layer. *)
Theorem gb_connection_disable_rx_then_enable fuel w p c hd :
  connections w !! p = Some c ->
  NoDup (map op_addr (operations c)) ->
  (length (operations c) < fuel)%nat ->
  state c = GB_CONNECTION_STATE_ENABLED ->
  handler c = Some hd ->
  Forall outgoing (operations c) ->
  exists w1,
    gb_connection_disable_rx fuel p w = Done tt w1 /\
    connections w1 !! p =
      Some (set_handler None
              (set_state GB_CONNECTION_STATE_ENABLED_TX c)) /\
    gb_connection_enable fuel p (Some hd) w1 =
    Done 0
      (with_log
         (log w ++ [EvAcquire (connection_mutex p);
                    EvAcquire (connection_lock p);
                    EvRelease (connection_lock p);
                    EvRelease (connection_mutex p);
                    EvAcquire (connection_mutex p);
                    EvAcquire (connection_lock p);
                    EvRelease (connection_lock p);
                    EvRelease (connection_mutex p)]) w).
Proof.
  intros Hc Hnd Hfuel Hs Hh Hout.
  assert (Hrx :
    gb_connection_disable_rx fuel p w =
    Done tt
      (World
         (<[p := set_handler None
                   (set_state GB_CONNECTION_STATE_ENABLED_TX c)]>
            (connections w))
         (host_devices w) (interfaces w) (bundles w)
         (log w ++ [EvAcquire (connection_mutex p);
                    EvAcquire (connection_lock p);
                    EvRelease (connection_lock p);
                    EvRelease (connection_mutex p)]))).
  { unfold gb_connection_disable_rx. mrun.
    rewrite Hs. rewrite bool_decide_false by (intros H; apply H; reflexivity).
    mrun.
    rewrite (flush_incoming_operations_run fuel p _ _
               (set_state GB_CONNECTION_STATE_ENABLED_TX c));
      [ | mrun; reflexivity | exact Hnd | exact Hfuel ].
    mrun. rewrite (filter_all outgoing) by exact Hout.
    rewrite (filter_none incoming)
      by (eapply Forall_impl; [exact Hout|];
          unfold incoming, outgoing; cbn; congruence).
    cbn [flat_map]. rewrite !insert_insert_eq, app_nil_r, <- !app_assoc.
    replace (set_operations (operations c)
               (set_state GB_CONNECTION_STATE_ENABLED_TX c))
      with (set_state GB_CONNECTION_STATE_ENABLED_TX c)
      by (destruct c; reflexivity).
    reflexivity. }
  eexists. split; [exact Hrx|].
  split; [cbn; apply lookup_insert_eq|].
  erewrite (gb_connection_enable_tx_run fuel _ p
              (set_handler None (set_state GB_CONNECTION_STATE_ENABLED_TX c))
              hd);
    [ | cbn; apply lookup_insert_eq | reflexivity ].
  cbn [connections host_devices interfaces bundles log].
  rewrite insert_insert_eq.
  replace (set_state GB_CONNECTION_STATE_ENABLED
             (set_handler (Some hd)
                (set_handler None
                   (set_state GB_CONNECTION_STATE_ENABLED_TX c)))) with c
    by (destruct c; cbn in *; subst; reflexivity).
  rewrite insert_id by exact Hc.
  unfold with_log. cbn [connections host_devices interfaces bundles log].
  rewrite <- !app_assoc. reflexivity.
Qed.

(** ** Latency tags and references *)

(** The two latency-tag calls are best effort: they always return, leave the
    store as it is whatever the driver answers, and an error of the driver
    ends up as one diagnostic in the log and nowhere else. *)
Theorem gb_connection_latency_tag_best_effort w p c h :
  connections w !! p = Some c ->
  host_devices w !! conn_hd c = Some h ->
  gb_connection_latency_tag_enable p w =
    Done tt
      (with_log
         (log w ++ latency_tag_events EvLatencyTagEnable
                     failed_to_enable_latency_tag
                     (latency_tag_enable (driver h)) c) w) /\
  gb_connection_latency_tag_disable p w =
    Done tt
      (with_log
         (log w ++ latency_tag_events EvLatencyTagDisable
                     failed_to_disable_latency_tag
                     (latency_tag_disable (driver h)) c) w).
Proof.
  intros Hc Hh.
  unfold gb_connection_latency_tag_enable, gb_connection_latency_tag_disable,
    latency_tag_events.
  split; mrun.
  - destruct (latency_tag_enable (driver h)) as [f|]; mrun.
    + case_bool_decide; mrun; rewrite <- ?app_assoc; reflexivity.
    + rewrite app_nil_r. destruct w; reflexivity.
  - destruct (latency_tag_disable (driver h)) as [f|]; mrun.
    + case_bool_decide; mrun; rewrite <- ?app_assoc; reflexivity.
    + rewrite app_nil_r. destruct w; reflexivity.
Qed.

(** Dropping a reference frees the connection exactly when it was the last
    one: with a count of 1 the object leaves the store and is freed; with a
    larger count only the count changes and nothing is freed. Taking a
    reference and dropping it again is the identity on a live connection. *)
Theorem gb_connection_put_frees_last_reference w p c :
  connections w !! p = Some c ->
  1 <= kref c < 2147483647 ->
  (kref c = 1 ->
   gb_connection_put p w =
   Done tt
     (World (delete p (connections w)) (host_devices w) (interfaces w)
        (bundles w) (log w ++ [EvKfree p]))) /\
  (kref c <> 1 ->
   gb_connection_put p w =
   Done tt
     (with_connections (<[p := set_kref (kref c - 1) c]> (connections w)) w)) /\
  (gb_connection_get p ≫= fun _ => gb_connection_put p) w = Done tt w.
Proof.
  intros Hc Hk.
  unfold gb_connection_put, gb_connection_get, gb_connection_kref_release,
    kfree.
  split; [|split].
  - intros H1. mrun. rewrite H1. change (int32 (1 - 1)) with 0.
    rewrite bool_decide_true by reflexivity. mrun.
    rewrite delete_insert_eq. reflexivity.
  - intros H1. mrun. rewrite int32_small by lia.
    rewrite bool_decide_false by lia. mrun. reflexivity.
  - mrun. rewrite (int32_small (kref c + 1)) by lia.
    replace (kref c + 1 - 1) with (kref c) by lia.
    rewrite int32_small by lia.
    rewrite bool_decide_false by lia. mrun.
    rewrite insert_insert_eq.
    replace (set_kref (kref c) (set_kref (kref c + 1) c)) with c
      by (destruct c; reflexivity).
    rewrite insert_id by exact Hc. destruct w; reflexivity.
Qed.


(** ** Properties of the interface layer *)

Ltac iunfold :=
  try unfold mbind, mret, IM_bind, IM_ret, iemit, ifault, load_interface,
    store_interface, load_hd_interfaces, store_hd_interfaces,
    load_interface_control, gb_control_destroy, gb_control_disable,
    interface_kfree, device_del, gb_bundle_destroy, init_free_manifest.

Ltac ired :=
  iunfold;
  cbn [interface_objects interface_hosts ilog fst snd
       intf_fields device_id disconnected intf_bundles manifest_descs
       vendor_string product_string dev_name dev_kref dev_registered
       intf_hd interface_id control boot_over_unipro bus_id hd_interfaces
       set_control set_intf_bundles set_dev_kref set_dev_registered].

Ltac ilookup :=
  match goal with
  | |- context [<[?k := _]> _ !! ?k] => rewrite lookup_insert_eq
  | H : ?m !! ?k = _ |- context [?m !! ?k] => rewrite H
  end.

Ltac irun := repeat (ired; try ilookup).

Lemma interface_fresh_not_listed (w : iworld) (l : list addr) :
  Forall (fun q => is_Some (interface_objects w !! q)) l ->
  fresh (dom (interface_objects w)) ∉ l.
Proof.
  intros Hall Hin. rewrite Forall_forall in Hall.
  apply Hall in Hin. apply elem_of_dom in Hin.
  exact (is_fresh _ Hin).
Qed.

Lemma interface_fresh_lookup (w : iworld) :
  interface_objects w !! fresh (dom (interface_objects w)) = None.
Proof. apply not_elem_of_dom. apply is_fresh. Qed.

Lemma interface_find_entry_frame (k : Z) (l : list addr) (w w' : iworld) :
  (forall q, q ∈ l -> interface_objects w' !! q = interface_objects w !! q) ->
  fst <$> interface_find_entry k l w' = fst <$> interface_find_entry k l w.
Proof.
  induction l as [|q l IH]; intros Hl; [reflexivity|].
  cbn [interface_find_entry]. ired.
  rewrite (Hl q) by apply list_elem_of_here.
  destruct (interface_objects w !! q) as [o|]; [|reflexivity].
  case_bool_decide; [reflexivity|].
  apply IH. intros q' Hq'. apply Hl. apply list_elem_of_further. exact Hq'.
Qed.

Lemma interface_find_entry_member (k : Z) (l : list addr) (w w' : iworld)
    (r : option addr) :
  interface_find_entry k l w = Some (r, w') ->
  w' = w /\
  match r with
  | Some i => i ∈ l /\ exists o, interface_objects w !! i = Some o /\
                                 interface_id (intf_fields o) = k
  | None => True
  end.
Proof.
  induction l as [|q l IH]; cbn [interface_find_entry]; ired.
  - intros H. injection H as <- <-. split; [reflexivity | exact I].
  - destruct (interface_objects w !! q) as [o|] eqn:Hq; [|discriminate].
    case_bool_decide as Hk.
    + intros H. injection H as <- <-. split; [reflexivity|].
      split; [apply list_elem_of_here|]. exists o. split; [exact Hq | exact Hk].
    + intros H. apply IH in H as [-> H]. split; [reflexivity|].
      destruct r as [i|]; [|exact I].
      destruct H as [Hi Ho]. split; [|exact Ho].
      apply list_elem_of_further. exact Hi.
Qed.

Lemma gb_interface_create_run w hd h id ctl :
  interface_hosts w !! hd = Some h ->
  kzalloc_ok = true ->
  gb_control_create (fresh (dom (interface_objects w))) = Some ctl ->
  gb_interface_create hd id w =
  Some (Some (fresh (dom (interface_objects w))),
        IWorld
          (<[fresh (dom (interface_objects w)) :=
               created_interface hd h id (Some ctl)]> (interface_objects w))
          (<[hd := {| bus_id := bus_id h;
                      hd_interfaces :=
                        fresh (dom (interface_objects w))
                        :: hd_interfaces h |}]> (interface_hosts w))
          (ilog w ++ [EvInterfaceKzalloc (fresh (dom (interface_objects w)));
                      EvDeviceInitialize (fresh (dom (interface_objects w)));
                      EvControlCreate (fresh (dom (interface_objects w)));
                      EvInterfacesLock;
                      EvInterfacesUnlock])).
Proof.
  intros Hh Hk Hctl.
  unfold gb_interface_create, interface_kzalloc. irun.
  rewrite Hk. cbv zeta. irun. rewrite Hctl. irun.
  rewrite insert_insert_eq. rewrite <- !app_assoc. reflexivity.
Qed.

(** Create, then find: a successful [gb_interface_create] puts the new
    interface, with position [id] reduced to a [u8], one reference and its
    control object, at the head of the list of the host device, without
    looking at the list. So [gb_interface_find] for that position returns
    the new interface, even when an older interface of the same position is
    still on the list; and, when the list held only live interfaces, a
    lookup of any other position answers what it answered before. *)
Theorem gb_interface_create_then_find w hd h id ctl :
  interface_hosts w !! hd = Some h ->
  kzalloc_ok = true ->
  gb_control_create (fresh (dom (interface_objects w))) = Some ctl ->
  exists i w1,
    gb_interface_create hd id w = Some (Some i, w1) /\
    interface_objects w1 !! i = Some (created_interface hd h id (Some ctl)) /\
    (hd_interfaces <$> interface_hosts w1 !! hd = Some (i :: hd_interfaces h)) /\
    gb_interface_find hd id w1 = Some (Some i, w1) /\
    (forall id',
       u8 id' <> u8 id ->
       Forall (fun q => is_Some (interface_objects w !! q))
         (hd_interfaces h) ->
       fst <$> gb_interface_find hd id' w1 = fst <$> gb_interface_find hd id' w).
Proof.
  intros Hh Hk Hctl.
  eexists _, _. split; [apply (gb_interface_create_run _ _ _ _ _ Hh Hk Hctl)|].
  split; [cbn; apply lookup_insert_eq|].
  split; [cbn; rewrite lookup_insert_eq; reflexivity|].
  split.
  - unfold gb_interface_find. irun. cbn [interface_find_entry]. irun.
    unfold created_interface. irun.
    rewrite bool_decide_true by reflexivity. reflexivity.
  - intros id' Hid Hlive. unfold gb_interface_find. irun.
    cbn [interface_find_entry]. irun. unfold created_interface at 1. irun.
    rewrite bool_decide_false by (intros E; apply Hid; symmetry; exact E).
    apply interface_find_entry_frame. intros q Hq. cbn.
    apply lookup_insert_ne. intros E. rewrite <- E in Hq.
    exact (interface_fresh_not_listed _ _ Hlive Hq).
Qed.

(** A creation that fails leaves no trace but the log: when [kzalloc] fails
    nothing happens at all; when the control object cannot be created the
    interface is released again, so the store and the list of the host
    device are what they were, the object is freed, and no control object is
    destroyed, there being none. Either way the result is NULL. *)
Theorem gb_interface_create_failure w hd h id :
  interface_hosts w !! hd = Some h ->
  (kzalloc_ok = false -> gb_interface_create hd id w = Some (None, w)) /\
  (kzalloc_ok = true ->
   gb_control_create (fresh (dom (interface_objects w))) = None ->
   gb_interface_create hd id w =
   Some (None,
         IWorld (interface_objects w) (interface_hosts w)
           (ilog w
              ++ [EvInterfaceKzalloc (fresh (dom (interface_objects w)));
                  EvDeviceInitialize (fresh (dom (interface_objects w)));
                  EvControlCreate (fresh (dom (interface_objects w)));
                  EvStringKfree None;
                  EvStringKfree None;
                  EvInterfaceKfree (fresh (dom (interface_objects w)))]))).
Proof.
  intros Hh. split.
  - intros Hk. unfold gb_interface_create, interface_kzalloc. irun.
    rewrite Hk. reflexivity.
  - intros Hk Hctl. unfold gb_interface_create, interface_kzalloc. irun.
    rewrite Hk. cbv zeta. irun. rewrite Hctl. unfold put_device. irun.
    rewrite bool_decide_true by reflexivity.
    unfold gb_interface_release. irun.
    rewrite insert_insert_eq, delete_insert_eq.
    rewrite delete_id by apply interface_fresh_lookup.
    rewrite <- !app_assoc. reflexivity.
Qed.

Lemma set_intf_bundles_id (o : gb_interface_object) :
  set_intf_bundles (intf_bundles o) o = o.
Proof. destruct o. reflexivity. Qed.

Lemma interface_destroy_bundles_run (i : addr) (l : list addr) :
  forall objs hosts lg o,
    objs !! i = Some o ->
    interface_destroy_bundles i l (IWorld objs hosts lg) =
    Some (tt,
          IWorld
            (<[i := set_intf_bundles
                      (filter (fun b => b ∉ l) (intf_bundles o)) o]> objs)
            hosts (lg ++ map EvBundleDestroy l)).
Proof.
  induction l as [|b l IH]; intros objs hosts lg o Ho.
  - cbn [interface_destroy_bundles map]. ired.
    rewrite filter_all by (apply Forall_forall; intros x _; apply not_elem_of_nil).
    rewrite set_intf_bundles_id, insert_id by exact Ho.
    rewrite app_nil_r. reflexivity.
  - cbn [interface_destroy_bundles map]. irun.
    rewrite (IH _ _ _ (set_intf_bundles (list_del b (intf_bundles o)) o))
      by apply lookup_insert_eq.
    rewrite insert_insert_eq. ired. unfold list_del.
    rewrite list_filter_filter, <- !app_assoc.
    do 4 f_equal.
    transitivity
      (set_intf_bundles
         (filter (fun a => (a ∉ l) /\ a ≠ b) (intf_bundles o)) o);
      [reflexivity|].
    f_equal. apply list_filter_iff. intros x. rewrite not_elem_of_cons.
    split; intros [H1 H2]; split; assumption.
Qed.

Lemma gb_interface_remove_run w i o ctl h :
  interface_objects w !! i = Some o ->
  control (intf_fields o) = Some ctl ->
  interface_hosts w !! intf_hd (intf_fields o) = Some h ->
  1 <= dev_kref o < 2147483648 ->
  gb_interface_remove i w =
  Some (tt,
        IWorld
          (if bool_decide (dev_kref o = 1)
           then delete i (interface_objects w)
           else <[i := removed_interface o]> (interface_objects w))
          (<[intf_hd (intf_fields o) :=
               {| bus_id := bus_id h;
                  hd_interfaces := list_del i (hd_interfaces h) |}]>
             (interface_hosts w))
          (ilog w ++ interface_remove_events i o)).
Proof.
  intros Ho Hctl Hh Hk. destruct w as [objs hosts lg]. cbn in Ho, Hh.
  assert (Hint : int32 (dev_kref o - 1) = dev_kref o - 1)
    by (apply int32_small; lia).
  assert (Hnone : filter (fun b => b ∉ intf_bundles o) (intf_bundles o) = []).
  { apply filter_none. apply Forall_forall. intros x Hx Hn. exact (Hn Hx). }
  unfold gb_interface_remove, interface_remove_events,
    interface_release_events, removed_interface, put_device,
    gb_interface_release.
  irun.
  destruct (disconnected o) eqn:Hd; irun; rewrite ?Hctl; irun;
    rewrite (interface_destroy_bundles_run i _ _ _ _ o) by exact Ho;
    rewrite Hnone; irun;
    destruct (dev_registered o) eqn:Hr; irun;
    rewrite ?Hctl; irun; rewrite ?insert_insert_eq, Hint;
    (case_bool_decide as H1;
     [ rewrite bool_decide_true by lia;
       repeat (progress (irun; rewrite ?Hctl));
       rewrite ?insert_insert_eq, delete_insert_eq, <- ?app_assoc;
       reflexivity
     | rewrite bool_decide_false by lia; irun;
       rewrite ?insert_insert_eq, <- ?app_assoc, ?app_nil_r;
       try reflexivity ]).
  - do 4 f_equal. destruct o. cbn in *. subst. reflexivity.
  - do 4 f_equal. destruct o. cbn in *. subst. reflexivity.
Qed.

(** Removing an interface that is on the list of its host device: the call
    returns, the interface is off the list, and [gb_interface_find] does
    not return it any more, whatever position is asked for. The object is
    freed when the reference dropped was the last one, and otherwise stays,
    unregistered and without bundles, with one reference less. The control
    connection is disabled twice when the interface was marked as
    disconnected and once otherwise, and the device is deleted only when it
    was registered. *)
Theorem gb_interface_remove_unlinks w i o ctl h :
  interface_objects w !! i = Some o ->
  control (intf_fields o) = Some ctl ->
  interface_hosts w !! intf_hd (intf_fields o) = Some h ->
  1 <= dev_kref o < 2147483648 ->
  exists w',
    gb_interface_remove i w = Some (tt, w') /\
    (hd_interfaces <$> interface_hosts w' !! intf_hd (intf_fields o)
       = Some (list_del i (hd_interfaces h))) /\
    (i ∉ list_del i (hd_interfaces h)) /\
    (forall id r w'',
       gb_interface_find (intf_hd (intf_fields o)) id w' = Some (r, w'') ->
       r <> Some i) /\
    (dev_kref o = 1 -> interface_objects w' !! i = None) /\
    (dev_kref o <> 1 ->
     interface_objects w' !! i = Some (removed_interface o)) /\
    ilog w' = ilog w ++ interface_remove_events i o.
Proof.
  intros Ho Hctl Hh Hk.
  eexists. split; [apply (gb_interface_remove_run _ _ _ _ _ Ho Hctl Hh Hk)|].
  cbn [interface_objects interface_hosts ilog].
  split; [rewrite lookup_insert_eq; reflexivity|].
  split; [apply not_elem_of_list_del|].
  split.
  - intros id r w'' Hfind. unfold gb_interface_find in Hfind.
    revert Hfind. irun. intros Hfind.
    apply interface_find_entry_member in Hfind as [_ Hr].
    intros ->. destruct Hr as [Hin _].
    exact (not_elem_of_list_del _ _ Hin).
  - split; [|split; [|reflexivity]].
    + intros H1. rewrite bool_decide_true by exact H1.
      apply lookup_delete_eq.
    + intros H1. rewrite bool_decide_false by exact H1.
      apply lookup_insert_eq.
Qed.

Lemma gb_hd_interfaces_eta (h : gb_hd_interfaces) :
  {| bus_id := bus_id h; hd_interfaces := hd_interfaces h |} = h.
Proof. destruct h. reflexivity. Qed.

(** Create, then remove: when the list of the host device holds only live
    interfaces, a successful [gb_interface_create] followed by
    [gb_interface_remove] of the new interface gives back the store the
    creation started from, objects and list. The control object that the
    creation made is disabled once and destroyed by the release, and the
    interface is freed. *)
Theorem gb_interface_create_then_remove w hd h id ctl :
  interface_hosts w !! hd = Some h ->
  kzalloc_ok = true ->
  gb_control_create (fresh (dom (interface_objects w))) = Some ctl ->
  Forall (fun q => is_Some (interface_objects w !! q)) (hd_interfaces h) ->
  exists i w1,
    gb_interface_create hd id w = Some (Some i, w1) /\
    gb_interface_remove i w1 =
    Some (tt,
          IWorld (interface_objects w) (interface_hosts w)
            (ilog w1 ++ [EvControlDisable i;
                         EvInterfacesLock;
                         EvInterfacesUnlock;
                         EvStringKfree None;
                         EvStringKfree None;
                         EvControlDestroy i;
                         EvInterfaceKfree i])).
Proof.
  intros Hh Hk Hctl Hlive.
  eexists _, _. split; [apply (gb_interface_create_run _ _ _ _ _ Hh Hk Hctl)|].
  rewrite (gb_interface_remove_run _ _
             (created_interface hd h id (Some ctl)) ctl
             {| bus_id := bus_id h;
                hd_interfaces :=
                  fresh (dom (interface_objects w)) :: hd_interfaces h |}).
  - cbn [interface_objects interface_hosts ilog created_interface dev_kref
         intf_fields intf_hd bus_id hd_interfaces].
    rewrite bool_decide_true by reflexivity.
    rewrite delete_insert_eq, insert_insert_eq.
    rewrite delete_id by apply interface_fresh_lookup.
    rewrite list_del_head
      by exact (interface_fresh_not_listed _ _ Hlive).
    rewrite gb_hd_interfaces_eta, insert_id by exact Hh.
    reflexivity.
  - cbn. apply lookup_insert_eq.
  - reflexivity.
  - cbn. apply lookup_insert_eq.
  - cbn. lia.
Qed.

Lemma interfaces_remove_entries_run (hd : addr) (bus : Z) (l : list addr) :
  forall w,
    interface_hosts w !! hd = Some {| bus_id := bus; hd_interfaces := l |} ->
    NoDup l ->
    Forall (removable w hd) l ->
    exists w',
      interfaces_remove_entries l w = Some (tt, w') /\
      interface_hosts w' !! hd
        = Some {| bus_id := bus; hd_interfaces := [] |} /\
      (forall q, q ∉ l ->
         interface_objects w' !! q = interface_objects w !! q) /\
      (forall q o, q ∈ l -> interface_objects w !! q = Some o ->
         dev_kref o = 1 -> interface_objects w' !! q = None).
Proof.
  induction l as [|i l IH]; intros w Hh Hnd Hall.
  - exists w. split; [reflexivity|]. split; [exact Hh|].
    split; [reflexivity|]. intros q o Hq. inversion Hq.
  - apply NoDup_cons in Hnd as [Hi Hnd].
    apply Forall_cons in Hall as [(o & Ho & Hhd & [ctl Hctl] & Hk) Hall].
    subst hd.
    pose proof (gb_interface_remove_run _ _ _ _ _ Ho Hctl Hh Hk) as Hrun.
    cbn [bus_id hd_interfaces] in Hrun.
    rewrite (list_del_head _ _ Hi) in Hrun.
    match type of Hrun with _ = Some (tt, ?w1) => set (w1' := w1) in * end.
    assert (Hother : forall q, q ≠ i ->
              interface_objects w1' !! q = interface_objects w !! q).
    { intros q Hq. unfold w1'. cbn [interface_objects].
      case_bool_decide.
      - apply lookup_delete_ne. intros E. apply Hq. symmetry. exact E.
      - apply lookup_insert_ne. intros E. apply Hq. symmetry. exact E. }
    destruct (IH w1') as (w' & Hrest & Hh' & Hframe & Hfreed).
    + unfold w1'. cbn [interface_hosts]. apply lookup_insert_eq.
    + exact Hnd.
    + apply Forall_forall. intros q Hq.
      rewrite Forall_forall in Hall. destruct (Hall q Hq) as (oq & Hoq & Hq').
      exists oq. split; [|exact Hq'].
      rewrite Hother; [exact Hoq|]. intros ->. exact (Hi Hq).
    + exists w'. split.
      { cbn [interfaces_remove_entries]. unfold mbind, IM_bind.
        rewrite Hrun. exact Hrest. }
      split; [exact Hh'|]. split.
      * intros q Hq. apply not_elem_of_cons in Hq as [Hq1 Hq2].
        rewrite (Hframe q Hq2). apply Hother. exact Hq1.
      * intros q oq Hq Hoq H1. apply elem_of_cons in Hq as [-> | Hq].
        -- rewrite (Hframe i Hi). unfold w1'. cbn [interface_objects].
           assert (oq = o) as -> by congruence.
           rewrite bool_decide_true by exact H1. apply lookup_delete_eq.
        -- apply (Hfreed q oq Hq); [|exact H1].
           rewrite Hother; [exact Hoq|]. intros ->. exact (Hi Hq).
Qed.

(** Removing all interfaces of a host device: when the list of the host
    device has no interface twice and every interface on it is a live
    object of this host device with a control object, [gb_interfaces_remove]
    returns and leaves the list empty, so [gb_interface_find] finds nothing
    for any position; every interface whose only reference was the initial
    one is freed, and objects that were not on the list are untouched. *)
Theorem gb_interfaces_remove_empties w hd h :
  interface_hosts w !! hd = Some h ->
  NoDup (hd_interfaces h) ->
  Forall (removable w hd) (hd_interfaces h) ->
  exists w',
    gb_interfaces_remove hd w = Some (tt, w') /\
    (hd_interfaces <$> interface_hosts w' !! hd = Some []) /\
    (forall id, gb_interface_find hd id w' = Some (None, w')) /\
    (forall q o, q ∈ hd_interfaces h -> interface_objects w !! q = Some o ->
       dev_kref o = 1 -> interface_objects w' !! q = None) /\
    (forall q, q ∉ hd_interfaces h ->
       interface_objects w' !! q = interface_objects w !! q).
Proof.
  intros Hh Hnd Hall.
  destruct (interfaces_remove_entries_run hd (bus_id h) (hd_interfaces h) w)
    as (w' & Hrun & Hh' & Hframe & Hfreed).
  - rewrite gb_hd_interfaces_eta. exact Hh.
  - exact Hnd.
  - exact Hall.
  - exists w'. split.
    { unfold gb_interfaces_remove. irun. exact Hrun. }
    split; [rewrite Hh'; reflexivity|].
    split; [|split; [exact Hfreed | exact Hframe]].
    intros id. unfold gb_interface_find. irun. reflexivity.
Qed.

Lemma manifest_frees_app (l1 l2 : list interface_event) :
  manifest_frees (l1 ++ l2) = manifest_frees l1 ++ manifest_frees l2.
Proof. unfold manifest_frees. apply flat_map_app. Qed.

Lemma manifest_frees_bundles (l : list addr) :
  manifest_frees (flat_map bundle_add_events l) = [].
Proof.
  induction l as [|b l IH]; [reflexivity|].
  cbn [flat_map]. rewrite manifest_frees_app, IH, app_nil_r.
  unfold bundle_add_events. case_bool_decide; reflexivity.
Qed.

Lemma interface_add_bundles_run (i : addr) (l : list addr) :
  forall objs hosts lg o,
    objs !! i = Some o ->
    interface_add_bundles i l (IWorld objs hosts lg) =
    Some (tt,
          IWorld
            (<[i := set_intf_bundles
                      (filter (fun b => ~ (b ∈ l /\ gb_bundle_add b ≠ 0))
                         (intf_bundles o)) o]> objs)
            hosts (lg ++ flat_map bundle_add_events l)).
Proof.
  induction l as [|b l IH]; intros objs hosts lg o Ho.
  - cbn [interface_add_bundles flat_map]. ired.
    rewrite filter_all.
    + rewrite set_intf_bundles_id, insert_id by exact Ho.
      rewrite app_nil_r. reflexivity.
    + apply Forall_forall. intros x _ [Hx _]. inversion Hx.
  - cbn [interface_add_bundles flat_map]. unfold bundle_add_events at 1.
    case_bool_decide as Hb.
    + irun.
      rewrite (IH _ _ _ (set_intf_bundles (list_del b (intf_bundles o)) o))
        by apply lookup_insert_eq.
      rewrite insert_insert_eq. ired. unfold list_del.
      rewrite list_filter_filter, <- !app_assoc.
      do 4 f_equal.
      transitivity
        (set_intf_bundles
           (filter (fun a => ~ (a ∈ l /\ gb_bundle_add a ≠ 0) /\ a ≠ b)
              (intf_bundles o)) o);
        [reflexivity|].
      f_equal. apply list_filter_iff. intros x. rewrite elem_of_cons.
      split.
      * intros [H1 H2] [[-> | H3] H4]; [apply H2; reflexivity|].
        apply H1. split; assumption.
      * intros H1. split.
        -- intros [H2 H3]. apply H1. split; [right; exact H2 | exact H3].
        -- intros ->. apply H1. split; [left; reflexivity | exact Hb].
    + irun. rewrite (IH _ _ _ o) by exact Ho.
      rewrite <- !app_assoc.
      do 4 f_equal. f_equal.
      apply list_filter_iff. intros x. rewrite elem_of_cons.
      split.
      * intros H1 [[-> | H2] H3]; [exact (H3 Hb)|].
        apply H1. split; assumption.
      * intros H1 [H2 H3]. apply H1. split; [right; exact H2 | exact H3].
Qed.

Lemma filter_bundles_added_in (s l : list addr) :
  (forall x, x ∈ l -> x ∈ s) ->
  filter (fun b => ~ (b ∈ s /\ gb_bundle_add b ≠ 0)) l
  = filter (fun b => gb_bundle_add b = 0) l.
Proof.
  induction l as [|x l IH]; intros Hs; [reflexivity|].
  assert (Hl : forall y, y ∈ l -> y ∈ s).
  { intros y Hy. apply Hs. apply list_elem_of_further. exact Hy. }
  destruct (decide (gb_bundle_add x = 0)) as [E|E].
  - rewrite !filter_cons_True; [f_equal; exact (IH Hl) | exact E |].
    intros [_ H2]. exact (H2 E).
  - rewrite !filter_cons_False; [exact (IH Hl) | exact E |].
    intros H1. apply H1. split; [|exact E]. apply Hs. apply list_elem_of_here.
Qed.

Lemma filter_bundles_added (l : list addr) :
  filter (fun b => ~ (b ∈ rev l /\ gb_bundle_add b ≠ 0)) l
  = filter (fun b => gb_bundle_add b = 0) l.
Proof.
  apply filter_bundles_added_in. intros x Hx.
  apply list_elem_of_In. apply -> in_rev. apply list_elem_of_In. exact Hx.
Qed.

Lemma gb_interface_init_run w i o ctl manifest :
  interface_objects w !! i = Some o ->
  control (intf_fields o) = Some ctl ->
  gb_control_enable i ctl = 0 ->
  0 < gb_control_get_manifest_size_operation i ->
  kmalloc (gb_control_get_manifest_size_operation i) = Some manifest ->
  gb_control_get_manifest_operation i manifest
    (gb_control_get_manifest_size_operation i) = 0 ->
  (gb_manifest_parse i manifest
     (gb_control_get_manifest_size_operation i)).1 = true ->
  gb_control_get_interface_version_operation i = 0 ->
  gb_control_get_bundle_versions i ctl = 0 ->
  device_add i = 0 ->
  gb_interface_init i w =
  Some (0,
        IWorld
          (<[i := set_intf_bundles
                    (filter (fun b => gb_bundle_add b = 0)
                       (gb_manifest_parse i manifest
                          (gb_control_get_manifest_size_operation i)).2)
                    (set_dev_registered true o)]> (interface_objects w))
          (interface_hosts w)
          (ilog w
             ++ [EvControlEnable i;
                 EvGetManifestSize i;
                 EvManifestKmalloc (gb_control_get_manifest_size_operation i);
                 EvGetManifest i manifest
                   (gb_control_get_manifest_size_operation i);
                 EvManifestParse i manifest
                   (gb_control_get_manifest_size_operation i);
                 EvGetInterfaceVersion i;
                 EvGetBundleVersions i;
                 EvDeviceAdd i;
                 EvInterfaceInfo i interface_added;
                 EvInterfaceInfo i interface_ddbl1]
             ++ flat_map bundle_add_events
                  (rev (gb_manifest_parse i manifest
                          (gb_control_get_manifest_size_operation i)).2)
             ++ [EvManifestKfree manifest])).
Proof.
  intros Ho Hctl H1 H2 H3 H4 H5 H6 H7 H8.
  destruct w as [objs hosts lg]. cbn in Ho.
  unfold gb_interface_init. irun. rewrite Hctl. irun.
  rewrite H1, (bool_decide_false (0 ≠ 0)) by (intros E; apply E; reflexivity).
  irun. rewrite (bool_decide_false (_ <= 0)) by lia.
  irun. rewrite H3. irun.
  rewrite H4, (bool_decide_false (0 ≠ 0)) by (intros E; apply E; reflexivity).
  irun. rewrite H5. cbn [negb]. irun.
  rewrite H6, (bool_decide_false (0 ≠ 0)) by (intros E; apply E; reflexivity).
  irun. rewrite Hctl. irun.
  rewrite H7, (bool_decide_false (0 ≠ 0)) by (intros E; apply E; reflexivity).
  irun.
  rewrite H8, (bool_decide_false (0 ≠ 0)) by (intros E; apply E; reflexivity).
  irun.
  rewrite (interface_add_bundles_run i _ _ _ _
             (set_dev_registered true
                (set_intf_bundles
                   (gb_manifest_parse i manifest
                      (gb_control_get_manifest_size_operation i)).2 o)))
    by (rewrite !insert_insert_eq; apply lookup_insert_eq).
  irun. rewrite !insert_insert_eq, filter_bundles_added, <- !app_assoc.
  reflexivity.
Qed.

Ltac init_facts :=
  repeat match goal with
    | H : ?x = 0 |- context [bool_decide (?x ≠ 0)] =>
        rewrite (bool_decide_false (x ≠ 0)) by (intros E; exact (E H))
    | H : ?x ≠ 0 |- context [bool_decide (?x ≠ 0)] =>
        rewrite (bool_decide_true (x ≠ 0)) by exact H
    | H : 0 < ?x |- context [bool_decide (?x <= 0)] =>
        rewrite (bool_decide_false (x <= 0)) by lia
    | H : ~ 0 < ?x |- context [bool_decide (?x <= 0)] =>
        rewrite (bool_decide_true (x <= 0)) by lia
    | H : kmalloc ?s = _ |- context [kmalloc ?s] => rewrite H
    | H : (gb_manifest_parse ?a ?b ?c).1 = _
      |- context [(gb_manifest_parse ?a ?b ?c).1] => rewrite H
    end.

Ltac init_leaf Hctl :=
  unfold gb_interface_init;
  repeat (progress (irun; rewrite ?Hctl; init_facts; cbn [negb]));
  try rewrite bool_decide_false
    by (first [assumption | unfold EINVAL, ENOMEM; lia]).

Ltac init_not_pass H3 :=
  split;
  [ intros E; exfalso; unfold EINVAL, ENOMEM in *;
    first [contradiction | lia]
  | intros (P1 & P2 & m' & P3 & P4 & P5 & P6 & P7 & P8); exfalso;
    try (rewrite H3 in P3; try discriminate; injection P3 as <-);
    first [contradiction | lia | congruence] ].

Ltac init_frees H1 H2 H3 :=
  eexists; split; [rewrite <- ?app_assoc; reflexivity|];
  unfold manifest_allocated;
  first [ rewrite bool_decide_true by (split; [exact H1 | exact H2]);
          rewrite H3
        | rewrite bool_decide_false by (intros [? ?]; contradiction) ];
  split; [reflexivity | intros m' Hm'; try discriminate;
                        injection Hm' as <-; reflexivity].

Lemma gb_interface_init_outcome w i o ctl :
  interface_objects w !! i = Some o ->
  control (intf_fields o) = Some ctl ->
  match gb_interface_init i w with
  | Some (ret, w') =>
      interface_hosts w' = interface_hosts w /\
      (ret = 0 <-> init_stages_pass i ctl) /\
      (dev_registered <$> interface_objects w' !! i
       = Some (if bool_decide (ret = 0) then true else dev_registered o)) /\
      exists e,
        ilog w' = ilog w ++ e /\
        manifest_frees e = match manifest_allocated i ctl with
                           | Some m => [m]
                           | None => []
                           end /\
        (forall m, manifest_allocated i ctl = Some m ->
                   last e = Some (EvManifestKfree m))
  | None => False
  end.
Proof.
  intros Ho Hctl. destruct w as [objs hosts lg]. cbn in Ho.
  destruct (decide (gb_control_enable i ctl = 0)) as [H1|H1].
  2:{ init_leaf Hctl. split; [reflexivity|]. split; [init_not_pass H1|].
      split; [rewrite ?Ho; reflexivity|]. init_frees H1 H1 H1. }
  destruct (decide (0 < gb_control_get_manifest_size_operation i))
    as [H2|H2].
  2:{ destruct (decide (gb_control_get_manifest_size_operation i = 0))
        as [H0|H0]; init_leaf Hctl.
      - split; [reflexivity|]. split; [init_not_pass H1|].
        split; [rewrite ?Ho; reflexivity|]. init_frees H1 H2 H1.
      - split; [reflexivity|]. split; [init_not_pass H1|].
        split; [rewrite ?Ho; reflexivity|]. init_frees H1 H2 H1. }
  destruct (kmalloc (gb_control_get_manifest_size_operation i))
    as [m|] eqn:H3.
  2:{ init_leaf Hctl.
      split; [reflexivity|]. split; [init_not_pass H3|].
      split; [rewrite ?Ho; reflexivity|]. init_frees H1 H2 H3. }
  destruct (decide (gb_control_get_manifest_operation i m
                      (gb_control_get_manifest_size_operation i) = 0))
    as [H4|H4].
  2:{ init_leaf Hctl.
      split; [reflexivity|]. split; [init_not_pass H3|].
      split; [rewrite ?Ho; reflexivity|]. init_frees H1 H2 H3. }
  destruct (gb_manifest_parse i m
              (gb_control_get_manifest_size_operation i)).1 eqn:H5.
  2:{ init_leaf Hctl.
      split; [reflexivity|]. split; [init_not_pass H3|].
      split; [reflexivity|]. init_frees H1 H2 H3. }
  destruct (decide (gb_control_get_interface_version_operation i = 0))
    as [H6|H6].
  2:{ init_leaf Hctl.
      split; [reflexivity|]. split; [init_not_pass H3|].
      split; [reflexivity|]. init_frees H1 H2 H3. }
  destruct (decide (gb_control_get_bundle_versions i ctl = 0)) as [H7|H7].
  2:{ init_leaf Hctl.
      split; [reflexivity|]. split; [init_not_pass H3|].
      split; [reflexivity|]. init_frees H1 H2 H3. }
  destruct (decide (device_add i = 0)) as [H8|H8].
  2:{ init_leaf Hctl.
      split; [reflexivity|]. split; [init_not_pass H3|].
      split; [reflexivity|]. init_frees H1 H2 H3. }
  rewrite (gb_interface_init_run (IWorld objs hosts lg) i o ctl m Ho Hctl H1 H2
             H3 H4 H5 H6 H7 H8).
  cbn [interface_objects interface_hosts ilog].
  split; [reflexivity|]. split.
  { split; [intros _|reflexivity].
    split; [exact H1|]. split; [exact H2|]. exists m.
    repeat (split; [assumption|]). assumption. }
  split; [rewrite lookup_insert_eq; reflexivity|].
  eexists. split; [reflexivity|].
  unfold manifest_allocated.
  rewrite bool_decide_true by (split; [exact H1 | exact H2]). rewrite H3.
  split.
  - rewrite !manifest_frees_app, manifest_frees_bundles. reflexivity.
  - intros m' Hm'. injection Hm' as <-.
    rewrite !app_assoc. apply last_snoc.
Qed.

(** [gb_interface_init] on an interface that has a control object always
    returns. It returns 0 exactly when every stage up to the registration of
    the device succeeded; whether the bundles could be added afterwards
    plays no part. A run that succeeds leaves the device registered, a run
    that fails leaves the registration as it was, and the list of the host
    device is never touched. *)
Theorem gb_interface_init_returns w i o ctl :
  interface_objects w !! i = Some o ->
  control (intf_fields o) = Some ctl ->
  exists ret w',
    gb_interface_init i w = Some (ret, w') /\
    (ret = 0 <-> init_stages_pass i ctl) /\
    (dev_registered <$> interface_objects w' !! i
     = Some (if bool_decide (ret = 0) then true else dev_registered o)) /\
    interface_hosts w' = interface_hosts w.
Proof.
  intros Ho Hctl.
  pose proof (gb_interface_init_outcome w i o ctl Ho Hctl) as H.
  destruct (gb_interface_init i w) as [[ret w']|]; [|contradiction].
  destruct H as (Hh & Hiff & Hreg & _).
  exists ret, w'. split; [reflexivity|].
  split; [exact Hiff|]. split; [exact Hreg | exact Hh].
Qed.

(** The manifest buffer never leaks and is never freed twice: whatever the
    other layers answer, a run of [gb_interface_init] that allocated the
    buffer frees it exactly once, as the last thing it does, and a run that
    did not allocate it frees nothing. *)
Theorem gb_interface_init_frees_manifest w i o ctl :
  interface_objects w !! i = Some o ->
  control (intf_fields o) = Some ctl ->
  exists ret w' e,
    gb_interface_init i w = Some (ret, w') /\
    ilog w' = ilog w ++ e /\
    manifest_frees e = match manifest_allocated i ctl with
                       | Some m => [m]
                       | None => []
                       end /\
    (forall m, manifest_allocated i ctl = Some m ->
               last e = Some (EvManifestKfree m)).
Proof.
  intros Ho Hctl.
  pose proof (gb_interface_init_outcome w i o ctl Ho Hctl) as H.
  destruct (gb_interface_init i w) as [[ret w']|]; [|contradiction].
  destruct H as (_ & _ & _ & e & Hlog & Hfrees & Hlast).
  exists ret, w', e. split; [reflexivity|].
  split; [exact Hlog|]. split; [exact Hfrees | exact Hlast].
Qed.

(** A successful [gb_interface_init]: when every stage up to the
    registration of the device succeeds, the bundles that the manifest put
    on the list of the interface are added from the tail of the list to its
    head; a bundle that cannot be added is destroyed at once and the walk
    goes on, so the call still returns 0. Afterwards the list holds, in
    their order, exactly the bundles that were added, and the device is
    registered. *)
Theorem gb_interface_init_success w i o ctl manifest :
  interface_objects w !! i = Some o ->
  control (intf_fields o) = Some ctl ->
  init_stages_pass i ctl ->
  kmalloc (gb_control_get_manifest_size_operation i) = Some manifest ->
  exists w' o',
    gb_interface_init i w = Some (0, w') /\
    interface_objects w' !! i = Some o' /\
    intf_bundles o' =
      filter (fun b => gb_bundle_add b = 0)
        (gb_manifest_parse i manifest
           (gb_control_get_manifest_size_operation i)).2 /\
    dev_registered o' = true /\
    ilog w' =
      ilog w
        ++ [EvControlEnable i;
            EvGetManifestSize i;
            EvManifestKmalloc (gb_control_get_manifest_size_operation i);
            EvGetManifest i manifest
              (gb_control_get_manifest_size_operation i);
            EvManifestParse i manifest
              (gb_control_get_manifest_size_operation i);
            EvGetInterfaceVersion i;
            EvGetBundleVersions i;
            EvDeviceAdd i;
            EvInterfaceInfo i interface_added;
            EvInterfaceInfo i interface_ddbl1]
        ++ flat_map bundle_add_events
             (rev (gb_manifest_parse i manifest
                     (gb_control_get_manifest_size_operation i)).2)
        ++ [EvManifestKfree manifest].
Proof.
  intros Ho Hctl (H1 & H2 & m' & H3 & H4 & H5 & H6 & H7 & H8) Hm.
  rewrite Hm in H3. injection H3 as <-.
  eexists _, _.
  split; [apply (gb_interface_init_run w i o ctl manifest Ho Hctl H1 H2 Hm H4
                   H5 H6 H7 H8)|].
  cbn [interface_objects ilog].
  split; [apply lookup_insert_eq|].
  split; [reflexivity|]. split; reflexivity.
Qed.

End Connection.

(** ** The theorems at the sample configurations *)

Lemma sample_enabled_ok :
  connection_ok sample_world 11 sample_enabled sample_hd.
Proof.
  split; [reflexivity|]. split; [reflexivity|].
  split; [right; eexists; reflexivity|].
  apply (bool_decide_unpack _). vm_compute. exact I.
Defined.

Lemma gb_connection_disable_rx_not_enabled_witness :
  gb_connection_disable_rx 1 10 sample_world =
  Done tt
    (with_log [EvAcquire (connection_mutex 10);
               EvAcquire (connection_lock 10);
               EvRelease (connection_lock 10);
               EvRelease (connection_mutex 10)] sample_world).
Proof.
  apply (gb_connection_disable_rx_not_enabled 1 sample_world 10 sample_control).
  - reflexivity.
  - discriminate.
Defined.

Lemma gb_connection_disable_rx_drains_witness :
  exists w',
    gb_connection_disable_rx 4 11 sample_world = Done tt w' /\
    operations <$> connections w' !! 11%positive = Some [op_b] /\
    cancelled (log w') = [op_a; op_c].
Proof.
  eexists. split.
  - apply (gb_connection_disable_rx_drains 4 sample_world 11 sample_enabled).
    + reflexivity.
    + apply (bool_decide_unpack _). vm_compute. exact I.
    + vm_compute. lia.
    + reflexivity.
  - split; vm_compute; reflexivity.
Defined.

Lemma sample_disabled_ok :
  connection_ok sample_world 13 sample_disabled sample_hd.
Proof.
  split; [reflexivity|]. split; [reflexivity|].
  split; [right; eexists; reflexivity|].
  apply (bool_decide_unpack _). vm_compute. exact I.
Defined.

Lemma sample_static_ok :
  connection_ok sample_world 12 sample_static sample_hd.
Proof.
  split; [reflexivity|]. split; [reflexivity|].
  split; [left; reflexivity|].
  apply (bool_decide_unpack _). vm_compute. exact I.
Defined.

Lemma sample_control_ok :
  connection_ok sample_world 10 sample_control sample_hd.
Proof.
  split; [reflexivity|]. split; [reflexivity|].
  split; [right; eexists; reflexivity|].
  apply (bool_decide_unpack _). vm_compute. exact I.
Defined.

Lemma gb_connection_disable_sequence_witness :
  exists w',
    gb_connection_disable (control_returns 0) 4 11 sample_world = Done tt w' /\
    external_calls (drop (length (log sample_world)) (log w')) =
      [EvControlDisconnected 2 3;
       EvOperationCancelIncoming op_c (- ESHUTDOWN);
       EvOperationCancel op_b (- ESHUTDOWN);
       EvOperationCancelIncoming op_a (- ESHUTDOWN);
       EvSvcConnectionDestroy 0 1 3 3;
       EvCportDisable 1 1].
Proof.
  destruct (gb_connection_disable_sequence (control_returns 0) 4 sample_world
              11 sample_enabled sample_hd) as (_ & _ & _ & Hcalls).
  - exact sample_enabled_ok.
  - vm_compute. lia.
  - apply (Hcalls 2%positive sample_interface
             {| control_connection := Some 10%positive |}).
    + discriminate.
    + reflexivity.
    + discriminate.
    + reflexivity.
Defined.


Lemma static_and_control_connections_skip_calls_witness :
  (exists ret w1 e1 w2 e2,
     gb_connection_enable (svc_returns 0) (control_returns 0) 1 12
       (Some 7%positive) sample_world = Done ret w1 /\
     log w1 = log sample_world ++ e1 /\
     gb_connection_disable (control_returns 0) 1 12 sample_world
       = Done tt w2 /\
     log w2 = log sample_world ++ e2 /\
     route_calls e1 = [] /\ notify_calls e1 = [] /\
     route_calls e2 = [] /\ notify_calls e2 = []) /\
  (exists ret w1 e1,
     gb_connection_enable (svc_returns 0) (control_returns 0) 1 10
       None sample_world = Done ret w1 /\
     log w1 = log sample_world ++ e1 /\
     notify_calls e1 = [] /\
     route_calls e1 = [EvSvcConnectionCreate 0 0 3 0 false]).
Proof.
  split.
  - apply (static_and_control_connections_skip_calls (svc_returns 0)
             (control_returns 0) (control_returns 0) 1 sample_world 12
             sample_static sample_hd (Some 7%positive)).
    + exact sample_static_ok.
    + vm_compute. lia.
    + reflexivity.
  - destruct (static_and_control_connections_skip_calls (svc_returns 0)
                (control_returns 0) (control_returns 0) 1 sample_world 10
                sample_control sample_hd None sample_control_ok)
      as (_ & Hctl).
    + vm_compute. lia.
    + destruct (Hctl 2%positive sample_interface
                  {| control_connection := Some 10%positive |})
        as (ret & w1 & e1 & w2 & e2 & Hen & Hl1 & _ & _ & Hn1 & _ & Hr1 & _).
      * reflexivity.
      * reflexivity.
      * exists ret, w1, e1. split; [exact Hen|]. split; [exact Hl1|].
        split; [exact Hn1|]. apply Hr1; reflexivity.
Defined.

Lemma sample_no_local_id_7 :
  no_local_id sample_world 7 [13; 12; 11; 10]%positive.
Proof.
  repeat (apply List.Forall_cons;
          [eexists; split; [reflexivity | vm_compute; discriminate] |]).
  apply List.Forall_nil.
Defined.

Lemma greybus_data_rcvd_dispatch_witness :
  greybus_data_rcvd recv_nothing 1 7 [1; 2; 3] 3 sample_world =
  Done tt
    (with_log [EvAcquire gb_connections_lock;
               EvRelease gb_connections_lock;
               EvDevErr (hd_dev 1) (nonexistent_connection 3)]
       sample_world) /\
  (exists w',
     greybus_data_rcvd recv_nothing 1 1 [1; 2; 3] 3 sample_world
       = Done tt w' /\
     kref <$> connections w' !! 11%positive = Some 1 /\
     log w' = [EvAcquire gb_connections_lock;
               EvRelease gb_connections_lock]).
Proof.
  split.
  - destruct (greybus_data_rcvd_dispatch recv_nothing sample_world 1
                sample_hd 7 [1; 2; 3] 3) as (Hmiss & _).
    + reflexivity.
    + apply Hmiss. exact sample_no_local_id_7.
  - destruct (greybus_data_rcvd_dispatch recv_nothing sample_world 1
                sample_hd 1 [1; 2; 3] 3) as (_ & Hhit).
    + reflexivity.
    + destruct (Hhit [13; 12]%positive 11%positive [10%positive]
                  sample_enabled) as (Hrun & Hput).
      * reflexivity.
      * repeat (apply List.Forall_cons;
                [eexists; split; [reflexivity | vm_compute; discriminate] |]).
        apply List.Forall_nil.
      * reflexivity.
      * reflexivity.
      * vm_compute. split; [discriminate | reflexivity].
      * eexists. split.
        -- rewrite Hrun. unfold recv_nothing, mbind, M_bind, mret, M_ret.
           apply Hput; reflexivity.
        -- split; vm_compute; reflexivity.
Defined.

Lemma gb_connection_create_duplicate_witness :
  gb_connection_create true true no_workqueue 1 (-1) (Some 2%positive)
    (Some 3%positive) 3 sample_world =
  Done None
    (with_log [EvAcquire gb_connection_mutex;
               EvDevErr (intf_dev 2) (cport_already_in_use 3);
               EvRelease gb_connection_mutex] sample_world).
Proof.
  apply (gb_connection_create_duplicate true true no_workqueue sample_world
           1 sample_hd (-1) 2 sample_interface sample_hd (Some 3%positive) 3).
  - reflexivity.
  - reflexivity.
  - reflexivity.
  - repeat (apply List.Forall_cons; [eexists; reflexivity|]).
    apply List.Forall_nil.
  - exists 11%positive, sample_enabled.
    split; [vm_compute; repeat constructor|].
    split; [reflexivity|]. split; reflexivity.
Defined.

Lemma gb_connection_create_workqueue_failure_witness :
  gb_connection_create true true no_workqueue 1 (-1) (Some 2%positive)
    (Some 3%positive) 3 empty_world =
  Done None
    (with_log [EvAcquire gb_connection_mutex;
               EvIdaGet 1 0;
               EvKzalloc 1;
               EvKfree 1;
               EvIdaRemove 1 0;
               EvRelease gb_connection_mutex] empty_world).
Proof.
  apply (gb_connection_create_workqueue_failure true true no_workqueue
           empty_world 1 empty_hd (-1) (Some 2%positive) (Some 3%positive)
           3 0).
  - reflexivity.
  - vm_compute. reflexivity.
  - exists sample_interface, empty_hd.
    split; [reflexivity|]. split; [reflexivity|]. apply List.Forall_nil.
  - reflexivity.
  - reflexivity.
  - change (first_free ∅ 0 4 0).
    split; [lia|]. split; [apply not_elem_of_empty|].
    intros j Hj. lia.
  - reflexivity.
Defined.

Lemma cancellation_order_witness :
  (exists w',
     gb_connection_cancel_operations 4 11 (- ESHUTDOWN) sample_world
       = Done tt w' /\
     cancelled (drop (length (log sample_world)) (log w'))
       = [op_c; op_b; op_a]) /\
  (exists w',
     gb_connection_flush_incoming_operations 4 11 (- ESHUTDOWN) sample_world
       = Done tt w' /\
     cancelled (drop (length (log sample_world)) (log w')) = [op_a; op_c]).
Proof.
  apply (cancellation_order 4 11 (- ESHUTDOWN) sample_world sample_enabled).
  - reflexivity.
  - apply (bool_decide_unpack _). vm_compute. exact I.
  - vm_compute. lia.
Defined.

(** C6, as stated, fails: with two incoming operations pending, the drain
    asks for the older one (the head of the list) to be cancelled first,
    not for the one at the tail. *)
Lemma cancellation_tail_first_in_both_variants_fails :
  ~ (forall fuel p errno w c,
       connections w !! p = Some c ->
       NoDup (map op_addr (operations c)) ->
       (length (operations c) < fuel)%nat ->
       (exists w',
          gb_connection_cancel_operations fuel p errno w = Done tt w' /\
          cancelled (drop (length (log w)) (log w')) = rev (operations c)) /\
       (exists w',
          gb_connection_flush_incoming_operations fuel p errno w
            = Done tt w' /\
          cancelled (drop (length (log w)) (log w'))
            = rev (filter incoming (operations c)))).
Proof.
  intros Hclaim.
  destruct (Hclaim 3%nat 11%positive (- ESHUTDOWN) two_incoming_world
              two_incoming) as (_ & w' & Hrun & Horder).
  - reflexivity.
  - apply (bool_decide_unpack _). vm_compute. exact I.
  - vm_compute. lia.
  - vm_compute in Hrun. injection Hrun as <-.
    vm_compute in Horder. discriminate Horder.
Qed.

(** ** Runs of whole scenarios *)

(** A static connection on cport 5 of a host device with 8 cports, enabled
    with a handler: it is Enabled, the transport driver was asked once to
    enable cport 5, the SVC and the control channel were not called. *)
Example static_connection_enabled :
  match scenario_static_up (svc_returns 0) (control_returns 0) true true
          one_workqueue pool8_world with
  | Done ret w' =>
      ret = 0 /\
      state <$> connections w' !! 1%positive
        = Some GB_CONNECTION_STATE_ENABLED /\
      hd_cport_id <$> connections w' !! 1%positive = Some 5 /\
      name <$> connections w' !! 1%positive = Some "5/0:0" /\
      log w' = [EvAcquire gb_connection_mutex; EvIdaGet 1 5; EvKzalloc 1;
                EvAllocWorkqueue 100; EvAcquire gb_connections_lock;
                EvRelease gb_connections_lock;
                EvRelease gb_connection_mutex;
                EvAcquire (connection_mutex 1); EvCportEnable 1 5;
                EvAcquire (connection_lock 1); EvRelease (connection_lock 1);
                EvRelease (connection_mutex 1)]
  | _ => False
  end.
Proof. vm_compute. repeat split; reflexivity. Qed.

(** Disabled again: it is Disabled with no handler, the transport driver
    was asked once to disable cport 5, the SVC was not called. *)
Example static_connection_disabled :
  match scenario_static_up_down (svc_returns 0) (control_returns 0)
          (control_returns 0) true true one_workqueue pool8_world with
  | Done ret w' =>
      ret = 0 /\
      state <$> connections w' !! 1%positive
        = Some GB_CONNECTION_STATE_DISABLED /\
      handler <$> connections w' !! 1%positive = Some None /\
      drop 12 (log w') =
        [EvAcquire (connection_mutex 1);
         EvAcquire (connection_lock 1); EvRelease (connection_lock 1);
         EvCportDisable 1 5;
         EvRelease (connection_mutex 1)]
  | _ => False
  end.
Proof. vm_compute. repeat split; reflexivity. Qed.

(** A connection of a bundle, created on a host device with 4 free cports:
    it gets local id 0. Enabled while the SVC refuses the route: the error
    comes back, the transport driver was asked once to disable the cport,
    and the connection is Disabled. *)
Example dynamic_connection_enable_fails :
  match scenario_dynamic_up (svc_returns (-5)) (control_returns 0) true true
          one_workqueue empty_world with
  | Done ret w' =>
      ret = -5 /\
      state <$> connections w' !! 1%positive
        = Some GB_CONNECTION_STATE_DISABLED /\
      hd_cport_id <$> connections w' !! 1%positive = Some 0 /\
      drop 7 (log w') =
        [EvAcquire (connection_mutex 1); EvCportEnable 1 0;
         EvSvcConnectionCreate 0 0 3 3 false;
         EvDevErr (hd_dev 1) (failed_to_create_svc_connection "0/3:3" (-5));
         EvCportDisable 1 0;
         EvRelease (connection_mutex 1)]
  | _ => False
  end.
Proof. vm_compute. repeat split; reflexivity. Qed.

(** ** The further properties at the sample configurations *)

Lemma gb_connection_create_out_of_range_witness :
  gb_connection_create true true no_workqueue 1 8 None None 0 sample_world =
  Done None
    (with_log [EvDevErr (hd_dev 1) (cport_not_available 8)] sample_world).
Proof.
  apply (gb_connection_create_out_of_range true true no_workqueue
           sample_world 1 sample_hd 8 None None 0).
  - reflexivity.
  - lia.
  - vm_compute. discriminate.
Defined.

Lemma gb_connection_create_no_free_id_witness :
  gb_connection_create true true no_workqueue 1 5 None None 0 sample_world =
  Done None
    (with_log [EvAcquire gb_connection_mutex;
               EvRelease gb_connection_mutex] sample_world).
Proof.
  apply (gb_connection_create_no_free_id true true no_workqueue
           sample_world 1 sample_hd 5 None None 0).
  - reflexivity.
  - vm_compute. reflexivity.
  - exact I.
  - right. change (forall j, 5 <= j < 6 -> j ∈ cport_id_map sample_hd).
    intros j Hj. assert (j = 5) as -> by lia.
    apply (bool_decide_unpack _). vm_compute. exact I.
Defined.

Lemma empty_world_no_duplicate :
  no_duplicate empty_world (Some 2%positive) 3.
Proof.
  exists sample_interface, empty_hd.
  split; [reflexivity|]. split; [reflexivity|]. apply List.Forall_nil.
Defined.

Lemma empty_pool_first_free : first_free ∅ 0 4 0.
Proof.
  split; [lia|]. split; [apply not_elem_of_empty|]. intros j Hj. lia.
Defined.

Lemma gb_connection_create_kzalloc_failure_witness :
  gb_connection_create true false one_workqueue 1 (-1) (Some 2%positive)
    (Some 3%positive) 3 empty_world =
  Done None
    (with_log [EvAcquire gb_connection_mutex;
               EvIdaGet 1 0;
               EvIdaRemove 1 0;
               EvRelease gb_connection_mutex] empty_world).
Proof.
  apply (gb_connection_create_kzalloc_failure true false one_workqueue
           empty_world 1 empty_hd (-1) (Some 2%positive) (Some 3%positive)
           3 0).
  - reflexivity.
  - vm_compute. reflexivity.
  - exact empty_world_no_duplicate.
  - reflexivity.
  - reflexivity.
  - exact empty_pool_first_free.
Defined.

Lemma gb_connection_create_static_free_cport_witness :
  exists w',
    gb_connection_create_static true true one_workqueue 1 5 pool8_world
      = Done (Some 1%positive) w' /\
    hd_cport_id <$> connections w' !! 1%positive = Some 5 /\
    hd_connections <$> host_devices w' !! 1%positive = Some [1%positive].
Proof.
  eexists. split.
  - apply (gb_connection_create_static_free_cport true true one_workqueue
             pool8_world 1
             {| hd_connections := []; cport_id_map := ∅; num_cports := 8;
                driver := sample_driver; svc := {| ap_intf_id := 0 |} |}
             5 100).
    + reflexivity.
    + cbn. lia.
    + apply not_elem_of_empty.
    + reflexivity.
    + reflexivity.
    + reflexivity.
  - split; vm_compute; reflexivity.
Defined.


Lemma gb_connection_create_then_hd_find_witness :
  exists p w1 c1,
    gb_connection_create true true one_workqueue 1 (-1) (Some 2%positive)
      (Some 3%positive) 3 empty_world = Done (Some p) w1 /\
    connections w1 !! p = Some c1 /\
    kref c1 = 1 /\
    gb_connection_hd_find 1 (u16 0) w1 =
    Done (Some p)
      (World (<[p := set_kref 2 c1]> (connections w1))
         (host_devices w1) (interfaces w1) (bundles w1)
         (log w1 ++ [EvAcquire gb_connections_lock;
                     EvRelease gb_connections_lock])).
Proof.
  apply (gb_connection_create_then_hd_find true true one_workqueue
           empty_world 1 empty_hd (-1) (Some 2%positive) (Some 3%positive)
           3 0 100).
  - reflexivity.
  - vm_compute. reflexivity.
  - exact empty_world_no_duplicate.
  - eexists. reflexivity.
  - reflexivity.
  - reflexivity.
  - exact empty_pool_first_free.
  - reflexivity.
Defined.

Lemma gb_connection_create_dynamic_twice_witness :
  exists p w1,
    gb_connection_create_dynamic true true one_workqueue 3 3 empty_world
      = Done (Some p) w1 /\
    gb_connection_create_dynamic true true one_workqueue 3 3 w1 =
    Done None
      (with_log
         (log w1 ++ [EvAcquire gb_connection_mutex;
                     EvDevErr (intf_dev 2) (cport_already_in_use 3);
                     EvRelease gb_connection_mutex]) w1).
Proof.
  apply (gb_connection_create_dynamic_twice true true one_workqueue
           empty_world 3
           {| bundle_intf := 2%positive; bundle_connections := [] |}
           sample_interface empty_hd 3 0 100).
  - reflexivity.
  - reflexivity.
  - reflexivity.
  - apply List.Forall_nil.
  - exact empty_pool_first_free.
  - reflexivity.
  - reflexivity.
  - reflexivity.
Defined.


Lemma gb_connection_destroy_last_reference_witness :
  exists w',
    gb_connection_destroy (Some 13%positive) sample_world = Done tt w' /\
    connections w' !! 13%positive = None /\
    hd_connections <$> host_devices w' !! 1%positive
      = Some [12; 11; 10]%positive /\
    bundle_connections <$> bundles w' !! 3%positive = Some [11%positive] /\
    log w' = [EvAcquire gb_connection_mutex;
              EvAcquire gb_connections_lock;
              EvRelease gb_connections_lock;
              EvDestroyWorkqueue (Some 103%positive);
              EvIdaRemove 1 2;
              EvRelease gb_connection_mutex;
              EvKfree 13].
Proof.
  destruct (gb_connection_destroy_last_reference sample_world 13
              sample_disabled sample_hd)
    as (w' & Hrun & Hc & Hh & Hb & _ & _ & Hl).
  - reflexivity.
  - reflexivity.
  - eexists. reflexivity.
  - reflexivity.
  - exists w'. split; [exact Hrun|].
    rewrite Hc, Hh, Hb, Hl. repeat split; vm_compute; reflexivity.
Defined.

Lemma gb_connection_destroy_while_referenced_witness :
  exists w',
    gb_connection_destroy (Some 12%positive) held_world = Done tt w' /\
    kref <$> connections w' !! 12%positive = Some 1 /\
    hd_cport_id <$> connections w' !! 12%positive = Some CPORT_ID_BAD /\
    gb_connection_put 12 w' =
    Done tt
      (World (delete 12%positive (connections w')) (host_devices w')
         (interfaces w') (bundles w') (log w' ++ [EvKfree 12])).
Proof.
  destruct (gb_connection_destroy_while_referenced held_world 12
              (set_kref 2 sample_static) sample_hd)
    as (w' & Hrun & Hc & _ & _ & _ & Hput).
  - reflexivity.
  - reflexivity.
  - exact I.
  - vm_compute. split; [discriminate | reflexivity].
  - exists w'. split; [exact Hrun|]. rewrite Hc.
    split; [reflexivity|]. split; [reflexivity|].
    apply Hput. reflexivity.
Defined.

Lemma gb_connection_create_then_destroy_witness :
  exists p w1,
    gb_connection_create true true one_workqueue 1 (-1) (Some 2%positive)
      (Some 3%positive) 3 empty_world = Done (Some p) w1 /\
    gb_connection_destroy (Some p) w1 =
    Done tt
      (with_log
         (log w1 ++ [EvAcquire gb_connection_mutex;
                     EvAcquire gb_connections_lock;
                     EvRelease gb_connections_lock;
                     EvDestroyWorkqueue (Some 100%positive);
                     EvIdaRemove 1 0;
                     EvRelease gb_connection_mutex;
                     EvKfree p]) empty_world).
Proof.
  apply (gb_connection_create_then_destroy true true one_workqueue
           empty_world 1 empty_hd (-1) (Some 2%positive) (Some 3%positive)
           3 0 100).
  - reflexivity.
  - vm_compute. reflexivity.
  - vm_compute. discriminate.
  - exact empty_world_no_duplicate.
  - eexists. split; [reflexivity|]. apply List.Forall_nil.
  - apply List.Forall_nil.
  - reflexivity.
  - reflexivity.
  - exact empty_pool_first_free.
  - reflexivity.
Defined.

Lemma sample_registry_ok : registry_ok sample_world 1.
Proof.
  exists sample_hd. split; [reflexivity|].
  split; [apply (bool_decide_unpack _); vm_compute; exact I|].
  split.
  - intros q Hq.
    repeat (apply elem_of_cons in Hq as [->|Hq]);
      try (apply elem_of_nil in Hq; contradiction);
      (eexists; split;
       [reflexivity | apply (bool_decide_unpack _); vm_compute; exact I]).
  - intros q1 q2 c1 c2 H1 H2 L1 L2 E.
    repeat (apply elem_of_cons in H1 as [->|H1]);
      try (apply elem_of_nil in H1; contradiction);
      repeat (apply elem_of_cons in H2 as [->|H2]);
      try (apply elem_of_nil in H2; contradiction);
      try reflexivity;
      vm_compute in L1, L2; injection L1 as <-; injection L2 as <-;
      vm_compute in E; discriminate.
Defined.

Lemma sample_pool_first_free : first_free (cport_id_map sample_hd) 0 8 3.
Proof.
  split; [lia|].
  split; [apply (bool_decide_unpack _); vm_compute; exact I|].
  intros j Hj.
  assert (j = 0 \/ j = 1 \/ j = 2) as [->|[->| ->]] by lia;
    apply (bool_decide_unpack _); vm_compute; exact I.
Defined.

Lemma gb_connection_create_keeps_ids_unique_witness :
  exists p w1,
    gb_connection_create true true one_workqueue 1 (-1) None None 0
      sample_world = Done (Some p) w1 /\
    registry_ok w1 1.
Proof.
  apply (gb_connection_create_keeps_ids_unique true true one_workqueue
           sample_world 1 sample_hd (-1) None None 0 3 100).
  - exact sample_registry_ok.
  - reflexivity.
  - vm_compute. reflexivity.
  - vm_compute. discriminate.
  - exact I.
  - exact I.
  - reflexivity.
  - reflexivity.
  - exact sample_pool_first_free.
  - reflexivity.
Defined.

Lemma gb_connection_destroy_keeps_ids_unique_witness :
  exists w',
    gb_connection_destroy (Some 13%positive) sample_world = Done tt w' /\
    registry_ok w' 1.
Proof.
  apply (gb_connection_destroy_keeps_ids_unique sample_world 13
           sample_disabled sample_hd).
  - exact sample_registry_ok.
  - reflexivity.
  - reflexivity.
  - apply (bool_decide_unpack _). vm_compute. exact I.
  - eexists. reflexivity.
  - vm_compute. split; [discriminate | reflexivity].
Defined.

Lemma greybus_data_rcvd_after_destroy_witness :
  exists w',
    gb_connection_destroy (Some 13%positive) sample_world = Done tt w' /\
    greybus_data_rcvd recv_nothing 1 2 [1; 2; 3] 3 w' =
    Done tt
      (with_log
         (log w' ++ [EvAcquire gb_connections_lock;
                     EvRelease gb_connections_lock;
                     EvDevErr (hd_dev 1) (nonexistent_connection 3)]) w').
Proof.
  apply (greybus_data_rcvd_after_destroy recv_nothing sample_world 13
           sample_disabled sample_hd [1; 2; 3] 3).
  - exact sample_registry_ok.
  - reflexivity.
  - reflexivity.
  - apply (bool_decide_unpack _). vm_compute. exact I.
  - eexists. reflexivity.
  - vm_compute. split; [discriminate | reflexivity].
Defined.

Lemma gb_connection_enable_success_witness :
  exists w',
    gb_connection_enable (svc_returns 0) (control_returns 0) 1 13
      (Some 7%positive) sample_world = Done 0 w' /\
    state <$> connections w' !! 13%positive
      = Some GB_CONNECTION_STATE_ENABLED /\
    handler <$> connections w' !! 13%positive = Some (Some 7%positive) /\
    external_calls (drop (length (log sample_world)) (log w')) =
      [EvCportEnable 1 2;
       EvSvcConnectionCreate 0 2 3 4 false;
       EvControlConnected 2 4].
Proof.
  destruct (gb_connection_enable_success (svc_returns 0) (control_returns 0)
              1 sample_world 13 sample_disabled sample_hd (Some 7%positive))
    as [Hrun Hcalls].
  - reflexivity.
  - reflexivity.
  - right. eexists. reflexivity.
  - reflexivity.
  - reflexivity.
  - reflexivity.
  - reflexivity.
  - eexists. split; [exact Hrun|].
    repeat split; vm_compute; reflexivity.
Defined.

Lemma gb_connection_enable_when_up_witness :
  exists w',
    gb_connection_enable (svc_returns 0) (control_returns 0) 1 12
      (Some 7%positive) sample_world = Done 0 w' /\
    connections w' !! 12%positive =
      Some (set_state GB_CONNECTION_STATE_ENABLED
              (set_handler (Some 7%positive) sample_static)) /\
    external_calls (drop (length (log sample_world)) (log w')) = [].
Proof.
  destruct (gb_connection_enable_when_up (svc_returns 0) (control_returns 0)
              1 sample_world 12 sample_static (Some 7%positive))
    as (w' & c' & Hrun & Hc & Hcalls & _ & _ & Htx).
  - reflexivity.
  - discriminate.
  - exists w'. split; [exact Hrun|]. split; [|exact Hcalls].
    rewrite Hc. f_equal. apply Htx; [reflexivity | eexists; reflexivity].
Defined.

Lemma sample_enabled_handler : handler_iff_enabled sample_enabled.
Proof.
  split; intros _; [reflexivity | eexists; reflexivity].
Defined.

Lemma handler_iff_enabled_is_kept_witness :
  (exists ret w' c',
     gb_connection_enable (svc_returns 0) (control_returns 0) 4 11 None
       sample_world = Done ret w' /\
     connections w' !! 11%positive = Some c' /\ handler_iff_enabled c') /\
  (exists w' c',
     gb_connection_disable_rx 4 11 sample_world = Done tt w' /\
     connections w' !! 11%positive = Some c' /\ handler_iff_enabled c') /\
  (exists w' c',
     gb_connection_disable (control_returns 0) 4 11 sample_world
       = Done tt w' /\
     connections w' !! 11%positive = Some c' /\ handler_iff_enabled c').
Proof.
  apply (handler_iff_enabled_is_kept (svc_returns 0) (control_returns 0)
           (control_returns 0) 4 sample_world 11 sample_enabled sample_hd
           None).
  - exact sample_enabled_ok.
  - vm_compute. lia.
  - exact sample_enabled_handler.
Defined.

Lemma gb_connection_enable_then_disable_witness :
  exists w1,
    gb_connection_enable (svc_returns 0) (control_returns 0) 1 13
      (Some 7%positive) sample_world = Done 0 w1 /\
    gb_connection_disable (control_returns 0) 1 13 w1 =
    Done tt
      (with_log
         (log w1 ++ [EvAcquire (connection_mutex 13);
                     EvControlDisconnected 2 4;
                     EvAcquire (connection_lock 13);
                     EvRelease (connection_lock 13);
                     EvSvcConnectionDestroy 0 2 3 4;
                     EvCportDisable 1 2;
                     EvRelease (connection_mutex 13)]) sample_world).
Proof.
  apply (gb_connection_enable_then_disable (svc_returns 0) (control_returns 0)
           (control_returns 0) 1 sample_world 13 sample_disabled sample_hd
           (Some 7%positive)).
  - exact sample_disabled_ok.
  - lia.
  - reflexivity.
  - reflexivity.
  - reflexivity.
  - reflexivity.
  - reflexivity.
  - reflexivity.
Defined.

Lemma gb_connection_disable_rx_then_enable_witness :
  exists w1,
    gb_connection_disable_rx 2 11 outgoing_only_world = Done tt w1 /\
    connections w1 !! 11%positive =
      Some (set_handler None
              (set_state GB_CONNECTION_STATE_ENABLED_TX
                 (set_operations [op_b] sample_enabled))) /\
    gb_connection_enable (svc_returns 0) (control_returns 0) 2 11
      (Some 7%positive) w1 =
    Done 0
      (with_log
         (log outgoing_only_world
            ++ [EvAcquire (connection_mutex 11);
                EvAcquire (connection_lock 11);
                EvRelease (connection_lock 11);
                EvRelease (connection_mutex 11);
                EvAcquire (connection_mutex 11);
                EvAcquire (connection_lock 11);
                EvRelease (connection_lock 11);
                EvRelease (connection_mutex 11)]) outgoing_only_world).
Proof.
  apply (gb_connection_disable_rx_then_enable (svc_returns 0)
           (control_returns 0) 2 outgoing_only_world 11
           (set_operations [op_b] sample_enabled) 7).
  - reflexivity.
  - apply (bool_decide_unpack _). vm_compute. exact I.
  - vm_compute. lia.
  - reflexivity.
  - reflexivity.
  - apply List.Forall_cons; [|apply List.Forall_nil].
    vm_compute. reflexivity.
Defined.

Lemma gb_connection_latency_tag_best_effort_witness :
  gb_connection_latency_tag_enable 11 tagging_world =
    Done tt
      (with_log
         [EvLatencyTagEnable 1 1;
          EvDevErr (hd_dev 1)
            (failed_to_enable_latency_tag (name sample_enabled) (-5))]
         tagging_world) /\
  gb_connection_latency_tag_disable 11 tagging_world =
    Done tt (with_log [EvLatencyTagDisable 1 1] tagging_world).
Proof.
  apply (gb_connection_latency_tag_best_effort tagging_world 11
           sample_enabled tagging_hd).
  - reflexivity.
  - reflexivity.
Defined.

Lemma gb_connection_put_frees_last_reference_witness :
  gb_connection_put 10 sample_world =
  Done tt
    (World (delete 10%positive (connections sample_world))
       (host_devices sample_world) (interfaces sample_world)
       (bundles sample_world) (log sample_world ++ [EvKfree 10])) /\
  (gb_connection_get 10 ≫= fun _ => gb_connection_put 10) sample_world
    = Done tt sample_world.
Proof.
  destruct (gb_connection_put_frees_last_reference sample_world 10
              sample_control) as (Hlast & _ & Hid).
  - reflexivity.
  - vm_compute. split; [discriminate | reflexivity].
  - split; [apply Hlast; reflexivity | exact Hid].
Defined.

(** ** The interface layer at the sample configuration *)

Lemma sample_interfaces_live :
  Forall (fun q => is_Some (interface_objects sample_iworld !! q))
    (hd_interfaces {| bus_id := 1; hd_interfaces := [4; 2]%positive |}).
Proof.
  apply List.Forall_cons; [eexists; reflexivity|].
  apply List.Forall_cons; [eexists; reflexivity|].
  apply List.Forall_nil.
Defined.

Lemma gb_interface_create_then_find_witness :
  exists i w1,
    gb_interface_create true 255 control_created 1 3 sample_iworld
      = Some (Some i, w1) /\
    interface_objects w1 !! i =
      Some (created_interface 255 1
              {| bus_id := 1; hd_interfaces := [4; 2]%positive |} 3
              (Some {| control_connection := None |})) /\
    (hd_interfaces <$> interface_hosts w1 !! 1%positive
       = Some [i; 4; 2]%positive) /\
    gb_interface_find 1 3 w1 = Some (Some i, w1).
Proof.
  destruct (gb_interface_create_then_find true 255 control_created
              sample_iworld 1
              {| bus_id := 1; hd_interfaces := [4; 2]%positive |} 3
              {| control_connection := None |})
    as (i & w1 & H1 & H2 & H3 & H4 & _).
  - reflexivity.
  - reflexivity.
  - reflexivity.
  - exists i, w1. repeat split; assumption.
Defined.

Lemma gb_interface_create_failure_witness :
  exists i,
    gb_interface_create true 255 control_not_created 1 3 sample_iworld =
    Some (None,
          IWorld (interface_objects sample_iworld)
            (interface_hosts sample_iworld)
            [EvInterfaceKzalloc i; EvDeviceInitialize i; EvControlCreate i;
             EvStringKfree None; EvStringKfree None; EvInterfaceKfree i]).
Proof.
  destruct (gb_interface_create_failure true 255 control_not_created
              sample_iworld 1
              {| bus_id := 1; hd_interfaces := [4; 2]%positive |} 3)
    as [_ H].
  - reflexivity.
  - eexists. apply H; reflexivity.
Defined.

Lemma gb_interface_remove_unlinks_witness :
  exists w',
    gb_interface_remove 2 sample_iworld = Some (tt, w') /\
    (hd_interfaces <$> interface_hosts w' !! 1%positive
       = Some [4%positive]) /\
    interface_objects w' !! 2%positive = None /\
    ilog w' =
      [EvControlDisable 2;
       EvBundleDestroy 31; EvBundleDestroy 32;
       EvDeviceDel 2; EvInterfaceInfo 2 interface_removed;
       EvControlDisable 2;
       EvInterfacesLock; EvInterfacesUnlock;
       EvStringKfree (Some 42%positive); EvStringKfree (Some 41%positive);
       EvControlDestroy 2; EvInterfaceKfree 2].
Proof.
  destruct (gb_interface_remove_unlinks sample_iworld 2 intf_a
              {| control_connection := Some 10%positive |}
              {| bus_id := 1; hd_interfaces := [4; 2]%positive |})
    as (w' & H1 & H2 & _ & _ & H3 & _ & H4).
  - reflexivity.
  - reflexivity.
  - reflexivity.
  - vm_compute. split; [discriminate | reflexivity].
  - exists w'. split; [exact H1|].
    split; [refine (eq_trans H2 _); vm_compute; reflexivity|].
    split; [apply H3; reflexivity|].
    rewrite H4. vm_compute. reflexivity.
Defined.

Lemma gb_interface_create_then_remove_witness :
  exists i w1,
    gb_interface_create true 255 control_created 1 3 sample_iworld
      = Some (Some i, w1) /\
    gb_interface_remove i w1 =
    Some (tt,
          IWorld (interface_objects sample_iworld)
            (interface_hosts sample_iworld)
            (ilog w1 ++ [EvControlDisable i;
                         EvInterfacesLock;
                         EvInterfacesUnlock;
                         EvStringKfree None;
                         EvStringKfree None;
                         EvControlDestroy i;
                         EvInterfaceKfree i])).
Proof.
  apply (gb_interface_create_then_remove true 255 control_created
           sample_iworld 1
           {| bus_id := 1; hd_interfaces := [4; 2]%positive |} 3
           {| control_connection := None |}).
  - reflexivity.
  - reflexivity.
  - reflexivity.
  - exact sample_interfaces_live.
Defined.

Lemma gb_interfaces_remove_empties_witness :
  exists w',
    gb_interfaces_remove 1 sample_iworld = Some (tt, w') /\
    (hd_interfaces <$> interface_hosts w' !! 1%positive = Some []) /\
    gb_interface_find 1 3 w' = Some (None, w') /\
    interface_objects w' !! 2%positive = None.
Proof.
  destruct (gb_interfaces_remove_empties sample_iworld 1
              {| bus_id := 1; hd_interfaces := [4; 2]%positive |})
    as (w' & H1 & H2 & H3 & H4 & _).
  - reflexivity.
  - apply (bool_decide_unpack _). vm_compute. exact I.
  - apply List.Forall_cons.
    { exists intf_b. split; [reflexivity|]. split; [reflexivity|].
      split; [eexists; reflexivity|].
      vm_compute. split; [discriminate | reflexivity]. }
    apply List.Forall_cons; [|apply List.Forall_nil].
    exists intf_a. split; [reflexivity|]. split; [reflexivity|].
    split; [eexists; reflexivity|].
    vm_compute. split; [discriminate | reflexivity].
  - exists w'. split; [exact H1|]. split; [exact H2|].
    split; [apply H3|].
    apply (H4 2%positive intf_a); [|reflexivity|reflexivity].
    apply (bool_decide_unpack _). vm_compute. exact I.
Defined.

Lemma gb_interface_init_returns_witness :
  exists w',
    gb_interface_init control_accepts manifest_size_0 manifest_fetched
      manifest_three_bundles interface_accepts control_accepts
      interface_accepts second_bundle_fails manifest_buffer 4 sample_iworld
      = Some (- EINVAL, w') /\
    dev_registered <$> interface_objects w' !! 4%positive = Some false.
Proof.
  destruct (gb_interface_init_returns control_accepts manifest_size_0
              manifest_fetched manifest_three_bundles interface_accepts
              control_accepts interface_accepts second_bundle_fails
              manifest_buffer sample_iworld 4 intf_b
              {| control_connection := None |})
    as (ret & w' & H1 & _ & H2 & _).
  - reflexivity.
  - reflexivity.
  - assert (Hret : ret = - EINVAL).
    { pose proof H1 as H1'. vm_compute in H1'. injection H1' as Hr _.
      symmetry. exact Hr. }
    subst ret. exists w'. split; [exact H1 | exact H2].
Defined.

Lemma gb_interface_init_frees_manifest_witness :
  exists ret w' e,
    gb_interface_init control_accepts manifest_size_16 manifest_fetched
      manifest_three_bundles interface_accepts control_accepts
      interface_accepts second_bundle_fails manifest_buffer 4 sample_iworld
      = Some (ret, w') /\
    ilog w' = ilog sample_iworld ++ e /\
    manifest_frees e = [50%positive] /\
    last e = Some (EvManifestKfree 50).
Proof.
  destruct (gb_interface_init_frees_manifest control_accepts manifest_size_16
              manifest_fetched manifest_three_bundles interface_accepts
              control_accepts interface_accepts second_bundle_fails
              manifest_buffer sample_iworld 4 intf_b
              {| control_connection := None |})
    as (ret & w' & e & H1 & H2 & H3 & H4).
  - reflexivity.
  - reflexivity.
  - exists ret, w', e. split; [exact H1|]. split; [exact H2|].
    split; [exact H3|]. apply H4. reflexivity.
Defined.

Lemma gb_interface_init_success_witness :
  exists w',
    gb_interface_init control_accepts manifest_size_16 manifest_fetched
      manifest_three_bundles interface_accepts control_accepts
      interface_accepts second_bundle_fails manifest_buffer 4 sample_iworld
      = Some (0, w') /\
    intf_bundles <$> interface_objects w' !! 4%positive
      = Some [31; 33]%positive /\
    ilog w' =
      [EvControlEnable 4; EvGetManifestSize 4; EvManifestKmalloc 16;
       EvGetManifest 4 50 16; EvManifestParse 4 50 16;
       EvGetInterfaceVersion 4; EvGetBundleVersions 4; EvDeviceAdd 4;
       EvInterfaceInfo 4 interface_added; EvInterfaceInfo 4 interface_ddbl1;
       EvBundleAdd 33;
       EvBundleAdd 32; EvBundleDestroy 32;
       EvBundleAdd 31;
       EvManifestKfree 50].
Proof.
  destruct (gb_interface_init_success control_accepts manifest_size_16
              manifest_fetched manifest_three_bundles interface_accepts
              control_accepts interface_accepts second_bundle_fails
              manifest_buffer sample_iworld 4 intf_b
              {| control_connection := None |} 50)
    as (w' & o' & H1 & H2 & H3 & _ & H4).
  - reflexivity.
  - reflexivity.
  - split; [reflexivity|]. split; [reflexivity|]. exists 50%positive.
    repeat split; reflexivity.
  - reflexivity.
  - exists w'. split; [exact H1|].
    split; [rewrite H2; cbn; rewrite H3; vm_compute; reflexivity|].
    rewrite H4. vm_compute. reflexivity.
Defined.
